(** * DevForge: Chronicle recorder and pipeline orchestrator

    A shallow embedding of [agents/chronicle/chronicle_agent.py] (class
    [ChronicleAgent]) and of [pipeline.py] (class [PipelineOrchestrator],
    method [run_full_pipeline]), with the properties of the event log, of the
    derived report and of the orchestrator's control flow.

    Conventions of the embedding.
    - Python run-time values that flow through dictionaries (collaborator
      results, metadata, metrics) are values of type [value]; parameters
      annotated [str] in the source are Rocq strings.
    - A finite [float] is its exact rational value; [nan] and the infinities
      are not represented.  Python compares [int] and [float] exactly, so
      comparisons are those of [Q].
    - Every recorder method reads the clock; the reading is the argument
      [now].  The several readings taken inside one call are identified.
    - Console output ([print], [traceback.print_exc]) is not part of the
      state.  Files are entries appended to a [disk]; writing never fails.
    - Exceptions are the subclasses of [Exception] (what [except Exception]
      catches). *)

From Stdlib Require Import List String Ascii ZArith QArith Bool Arith Lia.
From Stdlib Require Import DecimalString Sorted.
Import ListNotations.
Close Scope Q_scope.
Open Scope string_scope.
Open Scope nat_scope.

Set Implicit Arguments.
Set Warnings "-register-all".

(* ================================================================== *)
(** * Python values *)
(* ================================================================== *)

Inductive value : Type :=
| VNone
| VBool (b : bool)
| VInt (z : Z)
| VFloat (q : Q)
| VStr (s : string)
| VList (l : list value)
| VDict (d : list (string * value)).

(** A [dict] with string keys, in insertion order. *)
Definition dict : Type := list (string * value).

(** Errors raised by the interpreter itself, by operation and operands. *)
Inductive builtin_error : Type :=
| KeyError (key : string)
| AttributeError (receiver : value) (attr : string)
| BadSubscript (receiver : value)
| NoLen (receiver : value)
| UnsupportedCompare (op : string) (lhs rhs : value)
| UnsupportedOperand (op : string) (rhs : value)
| IndexError.

(** An exception is either raised by a collaborator, and then known by its
    [str(e)], or raised by the interpreter. *)
Inductive exn : Type :=
| Raised (msg : string)
| Builtin (b : builtin_error).

Inductive res (A : Type) : Type :=
| Ok (a : A)
| Exn (e : exn).
Arguments Ok {A} a.
Arguments Exn {A} e.

Definition res_bind {A B} (r : res A) (f : A -> res B) : res B :=
  match r with
  | Ok a => f a
  | Exn e => Exn e
  end.

Declare Scope res_scope.
Delimit Scope res_scope with res.
Notation "'let?' x := r 'in' k" := (res_bind r (fun x => k))
  (at level 10, x name, r at level 100, k at level 200) : res_scope.

Definition is_ok {A} (r : res A) : bool :=
  match r with Ok _ => true | Exn _ => false end.

Fixpoint lookup (k : string) (d : dict) : option value :=
  match d with
  | [] => None
  | (k', v) :: d' => if String.eqb k k' then Some v else lookup k d'
  end.

(** [bool(v)] *)
Definition truthy (v : value) : bool :=
  match v with
  | VNone => false
  | VBool b => b
  | VInt z => negb (Z.eqb z 0)
  | VFloat q => negb (Qeq_bool q 0)
  | VStr s => negb (String.eqb s "")
  | VList l => match l with [] => false | _ :: _ => true end
  | VDict d => match d with [] => false | _ :: _ => true end
  end.

(** [a or b] *)
Definition py_or (a b : value) : value := if truthy a then a else b.

(** [v.get(k, default)] *)
Definition py_get (v : value) (k : string) (default : value) : res value :=
  match v with
  | VDict d => Ok (match lookup k d with Some x => x | None => default end)
  | _ => Exn (Builtin (AttributeError v "get"))
  end.

(** [v[k]] for a string key [k] *)
Definition py_subscript (v : value) (k : string) : res value :=
  match v with
  | VDict d =>
      match lookup k d with
      | Some x => Ok x
      | None => Exn (Builtin (KeyError k))
      end
  | _ => Exn (Builtin (BadSubscript v))
  end.

(** The number a value stands for in arithmetic and ordering ([bool] is a
    subclass of [int]). *)
Definition num_of (v : value) : option Q :=
  match v with
  | VBool b => Some (if b then 1%Q else 0%Q)
  | VInt z => Some (inject_Z z)
  | VFloat q => Some q
  | _ => None
  end.

Definition Qltb (a b : Q) : bool := negb (Qle_bool b a).

(** [v < n], [v > n] and [v >= n] for an [int] literal [n] *)
Definition py_lt (v : value) (n : Z) : res bool :=
  match num_of v with
  | Some q => Ok (Qltb q (inject_Z n))
  | None => Exn (Builtin (UnsupportedCompare "<" v (VInt n)))
  end.

Definition py_gt (v : value) (n : Z) : res bool :=
  match num_of v with
  | Some q => Ok (Qltb (inject_Z n) q)
  | None => Exn (Builtin (UnsupportedCompare ">" v (VInt n)))
  end.

Definition py_ge (v : value) (n : Z) : res bool :=
  match num_of v with
  | Some q => Ok (Qle_bool (inject_Z n) q)
  | None => Exn (Builtin (UnsupportedCompare ">=" v (VInt n)))
  end.

(** [acc + v] for a number [acc] *)
Definition py_add (acc : Q) (v : value) : res Q :=
  match num_of v with
  | Some q => Ok (acc + q)%Q
  | None => Exn (Builtin (UnsupportedOperand "+" v))
  end.

Definition str_of_nat (n : nat) : string :=
  NilEmpty.string_of_uint (Nat.to_uint n).

Definition str_of_Z (z : Z) : string :=
  NilZero.string_of_int (Z.to_int z).

Fixpoint join (sep : string) (l : list string) : string :=
  match l with
  | [] => ""
  | [s] => s
  | s :: l' => s ++ sep ++ join sep l'
  end.

(** [s[:n]] *)
Definition prefix_of (n : nat) (s : string) : string := substring 0 n s.

(** [s.replace(" ", "_")] *)
Fixpoint replace_spaces (s : string) : string :=
  match s with
  | EmptyString => EmptyString
  | String c s' =>
      String (if Ascii.eqb c " "%char then "_"%char else c) (replace_spaces s')
  end.

(* ================================================================== *)
(** * The interpreter's formatting, taken as given *)
(* ================================================================== *)

(** What the interpreter and its library print is not code of the
    repository: [repr_other] is [str] on floats and containers, [isoformat]
    and [strftime] render a clock reading, [builtin_msg] is [str(e)] of an
    interpreter error. *)
Class Runtime : Type := {
  repr_other : value -> string;
  isoformat : Q -> string;
  strftime : Q -> string;
  builtin_msg : builtin_error -> string
}.

Section WithRuntime.
Context {RT : Runtime}.

(** [str(v)], as used by f-strings *)
Definition py_str (v : value) : string :=
  match v with
  | VNone => "None"
  | VBool true => "True"
  | VBool false => "False"
  | VInt z => str_of_Z z
  | VStr s => s
  | _ => repr_other v
  end.

(** [str(e)] *)
Definition exn_str (e : exn) : string :=
  match e with
  | Raised msg => msg
  | Builtin b => builtin_msg b
  end.

(* ================================================================== *)
(** * Events *)
(* ================================================================== *)

(** The event dictionaries built by the recorder methods, one constructor
    per ["type"], with the keys of the dictionary literal as arguments. *)
Inductive payload : Type :=
| SessionStart (feature_id trigger chronicle_agent_version : string)
| AgentAction (agent action input_summary output_summary : string)
              (duration_ms : value) (metadata : dict)
| Handoff (from_agent to_agent artifact artifact_summary : string)
| Decision (agent decision rationale : string) (alternatives : list string)
| Collaboration (agents : list string) (activity result : string)
| Checkpoint (stage : string) (status : value) (metrics : value)
             (elapsed_seconds : Q)
| Issue (agent issue_type description : string) (resolution : option string)
        (resolved : bool)
| SessionEnd (final_status : string) (total_duration_seconds : Q)
             (total_events_so_far : nat).

Record event : Type := {
  timestamp : string;
  sequence_number : nat;
  body : payload
}.

(** [event["type"]] *)
Definition type_of (e : event) : string :=
  match body e with
  | SessionStart _ _ _ => "session_start"
  | AgentAction _ _ _ _ _ _ => "agent_action"
  | Handoff _ _ _ _ => "handoff"
  | Decision _ _ _ _ => "decision"
  | Collaboration _ _ _ => "collaboration"
  | Checkpoint _ _ _ _ => "checkpoint"
  | Issue _ _ _ _ _ => "issue"
  | SessionEnd _ _ _ => "session_end"
  end.

Definition has_type (t : string) (e : event) : bool := String.eqb (type_of e) t.

(* ================================================================== *)
(** * The recorder *)
(* ================================================================== *)

(** The attributes of a [ChronicleAgent] that the methods read and write. *)
Record recorder : Type := {
  session_id : option string;
  event_log : list event;
  start_time : option Q
}.

(** [ChronicleAgent.__init__] *)
Definition new_recorder : recorder :=
  {| session_id := None; event_log := []; start_time := None |}.

(** [_record_event]: number the event and push it. *)
Definition _record_event (ts : string) (p : payload) (c : recorder) : recorder :=
  {| session_id := session_id c;
     event_log := (event_log c ++
       [ {| timestamp := ts;
            sequence_number := List.length (event_log c) + 1;
            body := p |} ])%list;
     start_time := start_time c |}.

(** [time.time() - self.start_time if self.start_time else 0] *)
Definition elapsed (now : Q) (c : recorder) : Q :=
  match start_time c with
  | Some t0 => if Qeq_bool t0 0 then 0%Q else (now - t0)%Q
  | None => 0%Q
  end.

Definition start_session (now : Q) (feature_id trigger : string)
    (c : recorder) : string * recorder :=
  let sid := "session_" ++ strftime now ++ "_" ++ feature_id in
  let c1 := {| session_id := Some sid; event_log := []; start_time := Some now |} in
  (sid, _record_event (isoformat now) (SessionStart feature_id trigger "1.0") c1).

Definition _summarize_data (data : value) (max_length : nat) : string :=
  match data with
  | VNone => "None"
  | VStr s =>
      if Nat.ltb max_length (String.length s)
      then prefix_of max_length s ++ "..."
      else s
  | VDict d => "Dict with keys: " ++ join ", " (firstn 5 (map fst d))
  | VList l => "List with " ++ str_of_nat (List.length l) ++ " items"
  | _ => prefix_of max_length (py_str data)
  end.

Definition record_agent_action (now : Q) (agent_name action : string)
    (input_data output_data : value) (metadata : option dict)
    (c : recorder) : recorder :=
  let duration :=
    match metadata with
    | Some ((_ :: _) as m) =>
        match lookup "duration_ms" m with Some d => d | None => VNone end
    | _ => VNone
    end in
  _record_event (isoformat now)
    (AgentAction agent_name action
       (_summarize_data input_data 200) (_summarize_data output_data 200)
       duration
       (match metadata with Some ((_ :: _) as m) => m | _ => [] end))
    c.

Definition record_handoff (now : Q)
    (from_agent to_agent artifact_name artifact_summary : string)
    (c : recorder) : recorder :=
  _record_event (isoformat now)
    (Handoff from_agent to_agent artifact_name artifact_summary) c.

Definition record_decision (now : Q) (agent_name decision rationale : string)
    (alternatives_considered : option (list string)) (c : recorder) : recorder :=
  _record_event (isoformat now)
    (Decision agent_name decision rationale
       (match alternatives_considered with Some ((_ :: _) as l) => l | _ => [] end))
    c.

Definition record_collaboration (now : Q) (agents : list string)
    (activity result : string) (c : recorder) : recorder :=
  _record_event (isoformat now) (Collaboration agents activity result) c.

Definition record_checkpoint (now : Q) (stage : string) (status : value)
    (metrics : value) (c : recorder) : recorder :=
  _record_event (isoformat now)
    (Checkpoint stage status (py_or metrics (VDict [])) (elapsed now c)) c.

Definition record_issue (now : Q) (agent_name issue_type description : string)
    (resolution : option string) (c : recorder) : recorder :=
  _record_event (isoformat now)
    (Issue agent_name issue_type description resolution
       (match resolution with Some _ => true | None => false end))
    c.


(* ================================================================== *)
(** * The report *)
(* ================================================================== *)

Record summary : Type := {
  total_events : nat;
  total_agents_involved : nat;
  total_handoffs : nat;
  total_decisions : nat;
  total_issues : nat;
  total_collaborations : nat;
  duration_seconds : Q
}.

Record agent_stats : Type := {
  actions_count : nat;
  total_duration_ms : Q;
  avg_duration_ms : Q;
  actions : list string
}.

Record timeline_entry : Type := {
  time : string;
  sequence : nat;
  entry_type : string;
  description : string
}.

(** The two shapes of a bottleneck entry, by their ["type"]. *)
Inductive bottleneck : Type :=
| long_execution (agent action : string) (duration_ms : value)
                 (recommendation : string)
| unresolved_issues (count : nat) (issues : list string)
                    (recommendation : string).

Record report : Type := {
  report_session_id : option string;
  generated_at : string;
  report_summary : summary;
  agent_statistics : list (string * agent_stats);
  timeline : list timeline_entry;
  handoff_chain : string;
  decision_log : list event;
  issues_encountered : list event;
  collaboration_patterns : list event;
  bottlenecks : list bottleneck;
  recommendations : list string
}.

(** The lists filled by the loop of [_generate_report]. *)
Record buckets : Type := {
  agent_actions : list (string * list event);
  handoffs : list event;
  decisions : list event;
  issues : list event;
  collaborations : list event
}.

Definition no_buckets : buckets :=
  {| agent_actions := []; handoffs := []; decisions := []; issues := [];
     collaborations := [] |}.

(** [if agent not in agent_actions: agent_actions[agent] = []] followed by
    [agent_actions[agent].append(event)] *)
Fixpoint group_add (agent : string) (e : event)
    (g : list (string * list event)) : list (string * list event) :=
  match g with
  | [] => [(agent, [e])]
  | (a, es) :: g' =>
      if String.eqb agent a then (a, (es ++ [e])%list) :: g'
      else (a, es) :: group_add agent e g'
  end.

Definition bucket_step (b : buckets) (e : event) : buckets :=
  match body e with
  | AgentAction agent _ _ _ _ _ =>
      {| agent_actions := group_add agent e (agent_actions b);
         handoffs := handoffs b; decisions := decisions b;
         issues := issues b; collaborations := collaborations b |}
  | Handoff _ _ _ _ =>
      {| agent_actions := agent_actions b;
         handoffs := (handoffs b ++ [e])%list; decisions := decisions b;
         issues := issues b; collaborations := collaborations b |}
  | Decision _ _ _ _ =>
      {| agent_actions := agent_actions b;
         handoffs := handoffs b; decisions := (decisions b ++ [e])%list;
         issues := issues b; collaborations := collaborations b |}
  | Issue _ _ _ _ _ =>
      {| agent_actions := agent_actions b;
         handoffs := handoffs b; decisions := decisions b;
         issues := (issues b ++ [e])%list; collaborations := collaborations b |}
  | Collaboration _ _ _ =>
      {| agent_actions := agent_actions b;
         handoffs := handoffs b; decisions := decisions b;
         issues := issues b; collaborations := (collaborations b ++ [e])%list |}
  | _ => b
  end.

Definition fill_buckets (log : list event) : buckets :=
  fold_left bucket_step log no_buckets.

(** [a.get("duration_ms")] and [a["action"]] of an event of a group; the
    groups hold [agent_action] events only. *)
Definition duration_of (e : event) : value :=
  match body e with
  | AgentAction _ _ _ _ d _ => d
  | _ => VNone
  end.

Definition action_of (e : event) : string :=
  match body e with
  | AgentAction _ a _ _ _ _ => a
  | _ => ""
  end.

(** [sum(a.get("duration_ms", 0) for a in actions if a.get("duration_ms"))],
    from the accumulator [acc] on. *)
Fixpoint sum_durations (acc : Q) (l : list event) : res Q :=
  match l with
  | [] => Ok acc
  | a :: l' =>
      if truthy (duration_of a)
      then (let? acc' := py_add acc (duration_of a) in sum_durations acc' l')%res
      else sum_durations acc l'
  end.

Fixpoint _calculate_agent_stats (groups : list (string * list event))
    : res (list (string * agent_stats)) :=
  match groups with
  | [] => Ok []
  | (agent, acts) :: rest =>
      (let? total := sum_durations 0%Q acts in
       let st :=
         {| actions_count := List.length acts;
            total_duration_ms := total;
            avg_duration_ms :=
              match acts with
              | [] => 0%Q
              | _ => (total / inject_Z (Z.of_nat (List.length acts)))%Q
              end;
            actions := map action_of (firstn 5 acts) |} in
       let? stats := _calculate_agent_stats rest in
       Ok ((agent, st) :: stats))%res
  end.

Definition _describe_event (e : event) : string :=
  match body e with
  | AgentAction agent action _ _ _ _ => agent ++ " performed: " ++ action
  | Handoff from_agent to_agent artifact _ =>
      from_agent ++ " passed " ++ artifact ++ " to " ++ to_agent
  | Decision agent decision _ _ => agent ++ " decided: " ++ decision
  | Collaboration agents activity _ =>
      join " + " agents ++ " collaborated on: " ++ activity
  | Issue agent issue_type _ _ resolved =>
      "Issue [" ++ agent ++ "]: " ++ issue_type ++ " ("
        ++ (if resolved then "RESOLVED" else "UNRESOLVED") ++ ")"
  | Checkpoint stage status _ _ =>
      "Checkpoint: " ++ stage ++ " - " ++ py_str status
  | _ => type_of e ++ ": unknown"
  end.

Definition _generate_timeline (log : list event) : list timeline_entry :=
  map (fun e =>
         {| time := timestamp e;
            sequence := sequence_number e;
            entry_type := type_of e;
            description := _describe_event e |}) log.

Definition nl : string := String (ascii_of_nat 10) "".

Fixpoint handoff_lines (i : nat) (hs : list event) : list string :=
  match hs with
  | [] => []
  | h :: hs' =>
      app (match body h with
      | Handoff from_agent to_agent artifact _ =>
          [ "   Step " ++ str_of_nat i ++ ":";
            "   ┌─ " ++ from_agent;
            "   │  creates: " ++ artifact;
            "   ↓";
            "   └─ " ++ to_agent ++ " receives";
            "" ]
      | _ => []
      end) (handoff_lines (S i) hs')
  end.

Definition _visualize_handoffs (hs : list event) : string :=
  match hs with
  | [] => "No handoffs recorded"
  | _ => join nl ((nl ++ "📋 Handoff Chain:" ++ nl) :: handoff_lines 1 hs)
  end.

(** The first loop of [_identify_bottlenecks]. *)
Fixpoint long_executions (log : list event) : res (list bottleneck) :=
  match log with
  | [] => Ok []
  | e :: log' =>
      match body e with
      | AgentAction agent action _ _ d _ =>
          if truthy d
          then (let? slow := py_gt d 60000 in
                let? rest := long_executions log' in
                Ok (if slow
                    then long_execution agent action d
                           "Consider optimizing or parallelizing this step"
                         :: rest
                    else rest))%res
          else long_executions log'
      | _ => long_executions log'
      end
  end.

Definition is_unresolved (e : event) : bool :=
  match body e with
  | Issue _ _ _ _ resolved => negb resolved
  | _ => false
  end.

Definition description_of (e : event) : string :=
  match body e with
  | Issue _ _ d _ _ => d
  | _ => ""
  end.

Definition _identify_bottlenecks (log : list event) : res (list bottleneck) :=
  (let? slow := long_executions log in
   let unresolved := filter is_unresolved log in
   Ok (slow ++
       match unresolved with
       | [] => []
       | _ => [ unresolved_issues (List.length unresolved)
                  (map description_of unresolved)
                  "Resolve outstanding issues before deployment" ]
       end)%list)%res.

(** [retry_actions[key] = retry_actions.get(key, 0) + 1] *)
Fixpoint count_add (key : string * string)
    (t : list (string * string * nat)) : list (string * string * nat) :=
  match t with
  | [] => [(key, 1)]
  | (k, n) :: t' =>
      if (String.eqb (fst key) (fst k) && String.eqb (snd key) (snd k))%bool
      then (k, n + 1) :: t'
      else (k, n) :: count_add key t'
  end.

Definition retry_step (t : list (string * string * nat)) (e : event)
    : list (string * string * nat) :=
  match body e with
  | AgentAction agent action _ _ _ _ => count_add (agent, action) t
  | _ => t
  end.

Definition retry_actions (log : list event) : list (string * string * nat) :=
  fold_left retry_step log [].

Definition _generate_recommendations (log : list event) : list string :=
  app (if Nat.ltb 5 (List.length (filter (has_type "handoff") log))
       then ["Consider parallelizing some agent tasks to reduce sequential handoffs"]
       else [])
  (app (flat_map (fun kc : string * string * nat =>
                    let '(agent, action, count) := kc in
                    if Nat.ltb 3 count
                    then [ agent ++ " performed '" ++ action ++ "' "
                             ++ str_of_nat count
                             ++ " times - consider caching or optimization" ]
                    else [])
          (retry_actions log))
     [ "All agent interactions were logged successfully";
       "Review the handoff chain for potential optimizations";
       "Consider adding more granular checkpoints for better visibility" ]).

Definition _generate_report (now : Q) (c : recorder) : res report :=
  let log := event_log c in
  let b := fill_buckets log in
  (let? stats := _calculate_agent_stats (agent_actions b) in
   let? slow := _identify_bottlenecks log in
   Ok {| report_session_id := session_id c;
         generated_at := isoformat now;
         report_summary :=
           {| total_events := List.length log;
              total_agents_involved := List.length (agent_actions b);
              total_handoffs := List.length (handoffs b);
              total_decisions := List.length (decisions b);
              total_issues := List.length (issues b);
              total_collaborations := List.length (collaborations b);
              duration_seconds := elapsed now c |};
         agent_statistics := stats;
         timeline := _generate_timeline log;
         handoff_chain := _visualize_handoffs (handoffs b);
         decision_log := decisions b;
         issues_encountered := issues b;
         collaboration_patterns := collaborations b;
         bottlenecks := slow;
         recommendations := _generate_recommendations log |})%res.

(** What [_save_chronicle] writes: the report as JSON, and the narrative
    rendered from it ([_generate_narrative] is text templating over the
    report and stands here as the report it renders). *)
Inductive chronicle_file : Type :=
| ReportJson (r : report)
| Narrative (r : report).

Definition chronicle_path (c : recorder) (suffix : string) : string :=
  "data/chronicle/"
  ++ match session_id c with Some s => s | None => "None" end ++ suffix.

Definition _save_chronicle (c : recorder) (r : report)
    : list (string * chronicle_file) :=
  [ (chronicle_path c ".json", ReportJson r);
    (chronicle_path c "_narrative.md", Narrative r) ].

(** [end_session]: the [session_end] event is pushed first; the report is
    then derived from the log and saved.  The result is the recorder after
    the call, the files written by the call, and the report or the exception
    that left the call. *)
Definition end_session (now : Q) (final_status : string) (c : recorder)
    : recorder * list (string * chronicle_file) * res report :=
  let duration := elapsed now c in
  let c' := _record_event (isoformat now)
              (SessionEnd final_status duration (List.length (event_log c))) c in
  match _generate_report now c' with
  | Ok r => (c', _save_chronicle c' r, Ok r)
  | Exn e => (c', [], Exn e)
  end.


(* ================================================================== *)
(** * Sequences of recorder calls *)
(* ================================================================== *)

(** The public methods that record into the session in progress, with
    their arguments. *)
Inductive recorder_call : Type :=
| Call_record_agent_action (agent_name action : string)
    (input_data output_data : value) (metadata : option dict)
| Call_record_handoff (from_agent to_agent artifact_name artifact_summary : string)
| Call_record_decision (agent_name decision rationale : string)
    (alternatives_considered : option (list string))
| Call_record_collaboration (agents : list string) (activity result : string)
| Call_record_checkpoint (stage : string) (status metrics : value)
| Call_record_issue (agent_name issue_type description : string)
    (resolution : option string)
| Call_end_session (final_status : string).

(** The recorder after one call made at time [now]. *)
Definition run_call (now : Q) (k : recorder_call) (c : recorder) : recorder :=
  match k with
  | Call_record_agent_action a act i o m => record_agent_action now a act i o m c
  | Call_record_handoff f t a summ => record_handoff now f t a summ c
  | Call_record_decision a d r alts => record_decision now a d r alts c
  | Call_record_collaboration ags act r => record_collaboration now ags act r c
  | Call_record_checkpoint st status m => record_checkpoint now st status m c
  | Call_record_issue a ty d r => record_issue now a ty d r c
  | Call_end_session st => fst (fst (end_session now st c))
  end.

Definition run_calls (ks : list (Q * recorder_call)) (c : recorder) : recorder :=
  fold_left (fun c k => run_call (fst k) (snd k) c) ks c.

(** One session: [start_session] and the calls that follow it. *)
Definition run_session (now : Q) (feature_id trigger : string)
    (ks : list (Q * recorder_call)) (c : recorder) : recorder :=
  run_calls ks (snd (start_session now feature_id trigger c)).

(** The agents named by the [agent_action] events of a log. *)
Definition agents_of (log : list event) : list string :=
  flat_map (fun e => match body e with
                     | AgentAction agent _ _ _ _ _ => [agent]
                     | _ => []
                     end) log.

(* ================================================================== *)
(** * The pipeline run *)
(* ================================================================== *)

(** The [results] dictionary of [run_full_pipeline]; the keys set on some
    paths only are options. *)
Record run_record : Type := {
  pipeline_id : string;
  started_at : string;
  steps : list (string * value);
  status : option string;
  feature_id : option value;
  completed_at : option string;
  error : option string;
  chronicle : option report
}.

Inductive file : Type :=
| ChronicleFile (f : chronicle_file)
| PipelineRecord (r : run_record).

(** The stage methods of the orchestrator, [self._run_*]: what each returns
    or raises on its arguments. *)
Class Stages : Type := {
  _run_reverse_engineer : string -> res value;
  _run_web_scraper : string -> res value;
  _run_pm_agent : string -> value -> res value;
  _run_dev_agent : value -> res value;
  _run_qa_agent : value -> res value;
  _run_deploy_agent : value -> res value
}.

(** The state a run works on: the shared recorder, the local [results], the
    disk, the number of clock readings taken, and the stage calls made so
    far with what each returned or raised. *)
Record pstate : Type := {
  self_chronicle : recorder;
  results : run_record;
  calls : list (string * res value);
  disk : list (string * file);
  ticks : nat
}.

Definition M (A : Type) : Type := pstate -> res A * pstate.

Definition ret {A} (a : A) : M A := fun s => (Ok a, s).

Definition bind {A B} (m : M A) (f : A -> M B) : M B :=
  fun s =>
    match m s with
    | (Ok a, s') => f a s'
    | (Exn e, s') => (Exn e, s')
    end.

Definition lift {A} (r : res A) : M A := fun s => (r, s).

Declare Scope pipe_scope.
Delimit Scope pipe_scope with pipe.
Notation "x <- m ;; k" := (bind m (fun x => k))
  (at level 61, m at next level, right associativity) : pipe_scope.
Notation "m ;; k" := (bind m (fun _ => k))
  (at level 61, right associativity) : pipe_scope.

Section Pipeline.
Variable clock : nat -> Q.
Context {ST : Stages}.

Definition set_chronicle (c : recorder) (s : pstate) : pstate :=
  {| self_chronicle := c; results := results s; calls := calls s;
     disk := disk s; ticks := S (ticks s) |}.

Definition set_results (r : run_record) (s : pstate) : pstate :=
  {| self_chronicle := self_chronicle s; results := r; calls := calls s;
     disk := disk s; ticks := ticks s |}.

(** A call of a recorder method that returns nothing of interest. *)
Definition chronicle_do (op : Q -> recorder -> recorder) : M unit :=
  fun s => (Ok tt, set_chronicle (op (clock (ticks s)) (self_chronicle s)) s).

(** [self.chronicle.end_session(final_status)] *)
Definition chronicle_end (final_status : string) : M report :=
  fun s =>
    let '(c, files, r) :=
      end_session (clock (ticks s)) final_status (self_chronicle s) in
    (r, {| self_chronicle := c; results := results s; calls := calls s;
           disk := (disk s ++
                    map (fun pf => (fst pf, ChronicleFile (snd pf))) files)%list;
           ticks := S (ticks s) |}).

(** A call of a stage method, noted in [calls]. *)
Definition call_stage (name : string) (o : res value) : M value :=
  fun s =>
    (o, {| self_chronicle := self_chronicle s; results := results s;
           calls := (calls s ++ [(name, o)])%list;
           disk := disk s; ticks := ticks s |}).

(** [results["steps"].append({"step": name, "result": result})] *)
Definition add_step (name : string) (result : value) : M unit :=
  fun s =>
    let r := results s in
    (Ok tt,
     set_results
       {| pipeline_id := pipeline_id r; started_at := started_at r;
          steps := (steps r ++ [(name, result)])%list;
          status := status r; feature_id := feature_id r;
          completed_at := completed_at r; error := error r;
          chronicle := chronicle r |} s).

Definition set_status (st : string) : M unit :=
  fun s =>
    let r := results s in
    (Ok tt,
     set_results
       {| pipeline_id := pipeline_id r; started_at := started_at r;
          steps := steps r; status := Some st; feature_id := feature_id r;
          completed_at := completed_at r; error := error r;
          chronicle := chronicle r |} s).

Definition set_error (msg : string) : M unit :=
  fun s =>
    let r := results s in
    (Ok tt,
     set_results
       {| pipeline_id := pipeline_id r; started_at := started_at r;
          steps := steps r; status := status r; feature_id := feature_id r;
          completed_at := completed_at r; error := Some msg;
          chronicle := chronicle r |} s).

(** [results["feature_id"] = feature_id] and
    [results["completed_at"] = datetime.now().isoformat()] *)
Definition set_completed (fid : value) : M unit :=
  fun s =>
    let r := results s in
    (Ok tt,
     {| self_chronicle := self_chronicle s;
        results :=
          {| pipeline_id := pipeline_id r; started_at := started_at r;
             steps := steps r; status := status r; feature_id := Some fid;
             completed_at := Some (isoformat (clock (ticks s)));
             error := error r; chronicle := chronicle r |};
        calls := calls s; disk := disk s; ticks := S (ticks s) |}).

Definition set_report (rep : report) : M unit :=
  fun s =>
    let r := results s in
    (Ok tt,
     set_results
       {| pipeline_id := pipeline_id r; started_at := started_at r;
          steps := steps r; status := status r; feature_id := feature_id r;
          completed_at := completed_at r; error := error r;
          chronicle := Some rep |} s).

(** The exceptions [_print_summary] can raise on one entry of
    [results["steps"]]; what it prints is not kept. *)
Definition print_step (name : string) (step_result : value) : res unit :=
  (if String.eqb name "pm" then
     let? _ := py_get step_result "title" (VStr "N/A") in
     let? _ := py_get step_result "user_stories_count" (VInt 0) in
     Ok tt
   else if String.eqb name "reverse_engineer" then
     let? metrics := py_get step_result "metrics" (VDict []) in
     let? _ := py_get metrics "total_files" (VInt 0) in
     let? stack := py_get step_result "tech_stack" (VDict []) in
     let? _ := py_get stack "primary_language" (VStr "N/A") in
     Ok tt
   else if String.eqb name "web_scraper" then
     let? _ := py_get step_result "competitors_found" (VInt 0) in
     let? _ := py_get step_result "trends_identified" (VInt 0) in
     let? _ := py_get step_result "pain_points" (VInt 0) in
     Ok tt
   else if String.eqb name "dev" then
     let? _ := py_get step_result "files_generated" (VInt 0) in
     let? stack := py_get step_result "tech_stack_used" (VDict []) in
     let? frontend := py_get stack "frontend" (VDict []) in
     let? _ := py_get frontend "name" (VStr "N/A") in
     let? backend := py_get stack "backend" (VDict []) in
     let? _ := py_get backend "name" (VStr "N/A") in
     Ok tt
   else if String.eqb name "qa" then
     let? score := py_get step_result "overall_score" (VInt 0) in
     let? _ := py_ge score 70 in
     Ok tt
   else if String.eqb name "deploy" then
     let? urls := py_get step_result "urls" (VDict []) in
     let? _ := py_get step_result "status" (VStr "N/A") in
     match urls with
     | VDict _ => Ok tt
     | _ => Exn (Builtin (AttributeError urls "items"))
     end
   else Ok tt)%res.

Fixpoint print_steps (l : list (string * value)) : res unit :=
  match l with
  | [] => Ok tt
  | (name, step_result) :: l' =>
      (let? _ := print_step name step_result in print_steps l')%res
  end.

Definition _print_summary : M unit :=
  fun s => (print_steps (steps (results s)), s).

(** [list(urls.values())[0]] for a truthy [urls] *)
Definition first_value (urls : value) : res value :=
  match urls with
  | VDict ((_, v) :: _) => Ok v
  | VDict [] => Exn (Builtin IndexError)
  | _ => Exn (Builtin (AttributeError urls "values"))
  end.

(** Step 0, entered when [source_codebase] is given: the stage call, its
    record, and the new [idea] and [tech_stack]. *)
Definition step_reverse_engineer (source_codebase : string)
    (tech_stack : value) : M (string * value) :=
  (rev_result <- call_stage "reverse_engineer"
                   (_run_reverse_engineer source_codebase) ;;
   add_step "reverse_engineer" rev_result ;;
   metrics <- lift (py_get rev_result "metrics" (VDict [])) ;;
   total_files <- lift (py_get metrics "total_files" (VInt 0)) ;;
   chronicle_do (fun now =>
     record_agent_action now "reverse_engineer" "analyze_codebase"
       (VStr source_codebase) rev_result
       (Some [("files_analyzed", total_files)])) ;;
   spec <- lift (py_get rev_result "spec" (VDict [])) ;;
   title <- lift (py_get spec "title" (VStr "Application")) ;;
   tech_stack' <-
     (if truthy tech_stack then ret tech_stack
      else (stack <- lift (py_get rev_result "tech_stack" (VDict [])) ;;
            lift (py_get stack "primary_language" (VStr "React, Node.js")))) ;;
   ret ("Rebuild and improve: " ++ py_str title, tech_stack'))%pipe.

(** Step -1, entered when no [source_codebase] is given. *)
Definition step_web_scraper (idea : string) : M unit :=
  (scraper_result <- call_stage "web_scraper" (_run_web_scraper idea) ;;
   add_step "web_scraper" scraper_result ;;
   found <- lift (py_get scraper_result "competitors_found" (VInt 0)) ;;
   chronicle_do (fun now =>
     record_agent_action now "web_scraper" "market_research"
       (VStr idea) scraper_result (Some [("competitors_found", found)])) ;;
   found' <- lift (py_get scraper_result "competitors_found" (VInt 0)) ;;
   pain <- lift (py_get scraper_result "pain_points" (VInt 0)) ;;
   chronicle_do (fun now =>
     record_handoff now "web_scraper" "pm" "market_research_report"
       (py_str found' ++ " competitors, " ++ py_str pain ++ " pain points")))%pipe.

(** Step 1; the result is [feature_id]. *)
Definition step_pm (idea : string) (tech_stack : value) : M value :=
  (pm_result <- call_stage "pm" (_run_pm_agent idea tech_stack) ;;
   add_step "pm" pm_result ;;
   fid <- lift (py_subscript pm_result "feature_id") ;;
   stories <- lift (py_get pm_result "user_stories_count" (VInt 0)) ;;
   chronicle_do (fun now =>
     record_agent_action now "pm" "create_specification"
       (VStr idea) pm_result (Some [("user_stories", stories)])) ;;
   chronicle_do (fun now =>
     record_decision now "pm"
       ("Build with " ++ py_str (py_or tech_stack (VStr "default stack")))
       "Based on market research and technical requirements"
       (Some ["Alternative stacks evaluated"])) ;;
   chronicle_do (fun now =>
     record_checkpoint now "specification" (VStr "success") pm_result) ;;
   stories' <- lift (py_get pm_result "user_stories_count" (VInt 0)) ;;
   chronicle_do (fun now =>
     record_handoff now "pm" "dev" "feature_specification"
       (py_str stories' ++ " user stories, API spec, DB schema")) ;;
   ret fid)%pipe.

(** Step 2 *)
Definition step_dev (fid : value) : M unit :=
  (dev_result <- call_stage "dev" (_run_dev_agent fid) ;;
   add_step "dev" dev_result ;;
   files <- lift (py_get dev_result "files_generated" (VInt 0)) ;;
   chronicle_do (fun now =>
     record_agent_action now "dev" "generate_codebase"
       fid dev_result (Some [("files_generated", files)])) ;;
   chronicle_do (fun now =>
     record_checkpoint now "development" (VStr "success") dev_result) ;;
   files' <- lift (py_get dev_result "files_generated" (VInt 0)) ;;
   stack <- lift (py_get dev_result "tech_stack_used" (VDict [])) ;;
   frontend <- lift (py_get stack "frontend" (VDict [])) ;;
   fname <- lift (py_get frontend "name" (VStr "unknown")) ;;
   stack' <- lift (py_get dev_result "tech_stack_used" (VDict [])) ;;
   backend <- lift (py_get stack' "backend" (VDict [])) ;;
   bname <- lift (py_get backend "name" (VStr "unknown")) ;;
   chronicle_do (fun now =>
     record_handoff now "dev" "qa" "codebase"
       (py_str files' ++ " files in " ++ py_str fname ++ " + "
          ++ py_str bname)))%pipe.

(** Step 3, up to the checkpoint; the result is [qa_result]. *)
Definition step_qa (fid : value) : M value :=
  (qa_result <- call_stage "qa" (_run_qa_agent fid) ;;
   add_step "qa" qa_result ;;
   score <- lift (py_get qa_result "overall_score" (VInt 0)) ;;
   chronicle_do (fun now =>
     record_agent_action now "qa" "test_feature"
       fid qa_result (Some [("score", score)])) ;;
   st <- lift (py_get qa_result "status" (VStr "unknown")) ;;
   chronicle_do (fun now => record_checkpoint now "testing" st qa_result) ;;
   ret qa_result)%pipe.

(** [qa_result.get("test_report", {}).get("summary", {}).get("overall_score", 0)] *)
Definition gate_score (qa_result : value) : res value :=
  (let? test_report := py_get qa_result "test_report" (VDict []) in
   let? summary := py_get test_report "summary" (VDict []) in
   py_get summary "overall_score" (VInt 0))%res.

(** The check after step 3.  The result is [true] when the branch that
    ends in [return results] was taken. *)
Definition quality_gate (qa_result : value) : M bool :=
  (qa_score <- lift (gate_score qa_result) ;;
   low <- lift (py_lt qa_score 50) ;;
   if (low : bool) then
     chronicle_do (fun now =>
       record_issue now "qa" "low_test_score"
         ("QA score " ++ py_str qa_score ++ "% below threshold")
         (Some "Pipeline halted for fixes")) ;;
     set_status "failed_qa" ;;
     _ <- chronicle_end "failed_qa" ;;
     ret true
   else ret false)%pipe.

(** Step 4 and the end of the [try] block. *)
Definition step_deploy (fid : value) : M unit :=
  (deploy_result <- call_stage "deploy" (_run_deploy_agent fid) ;;
   add_step "deploy" deploy_result ;;
   chronicle_do (fun now =>
     record_agent_action now "deploy" "deploy_application"
       fid deploy_result
       (Some [("environment", VStr "local"); ("platform", VStr "docker")])) ;;
   urls <- lift (py_get deploy_result "urls" VNone) ;;
   place <-
     (if truthy urls
      then (urls' <- lift (py_get deploy_result "urls" (VDict [])) ;;
            lift (first_value urls'))
      else ret (VStr "local")) ;;
   chronicle_do (fun now =>
     record_handoff now "deploy" "user" "deployed_application"
       ("Available at " ++ py_str place)) ;;
   chronicle_do (fun now =>
     record_checkpoint now "deployment" (VStr "success") deploy_result) ;;
   chronicle_do (fun now =>
     record_collaboration now ["web_scraper"; "pm"; "dev"; "qa"; "deploy"]
       "Full pipeline execution"
       ("Successfully built and deployed " ++ py_str fid)) ;;
   set_status "success" ;;
   set_completed fid ;;
   chronicle_report <- chronicle_end "success" ;;
   set_report chronicle_report ;;
   _print_summary)%pipe.

(** [if source_codebase:] on an [Optional[str]] *)
Definition given (source_codebase : option string) : option string :=
  match source_codebase with
  | Some src => if String.eqb src "" then None else Some src
  | None => None
  end.

Definition value_of (tech_stack : option string) : value :=
  match tech_stack with
  | Some t => VStr t
  | None => VNone
  end.

(** The body of the [try] block.  The result is [true] when the body left
    the function by [return results]. *)
Definition try_body (idea : string) (tech_stack : option string)
    (source_codebase : option string) : M bool :=
  (it <-
     match given source_codebase with
     | Some src => step_reverse_engineer src (value_of tech_stack)
     | None => step_web_scraper idea ;; ret (idea, value_of tech_stack)
     end ;;
   fid <- step_pm (fst it) (snd it) ;;
   step_dev fid ;;
   qa_result <- step_qa fid ;;
   halted <- quality_gate qa_result ;;
   if (halted : bool) then ret true
   else step_deploy fid ;; ret false)%pipe.

(** The [except Exception as e] block. *)
Definition handler (e : exn) : M unit :=
  (set_status "failed" ;;
   set_error (exn_str e) ;;
   chronicle_do (fun now =>
     record_issue now "pipeline" "exception" (exn_str e) None) ;;
   _ <- chronicle_end "failed" ;;
   ret tt)%pipe.

(** The statements after the [try] statement: the run record goes to
    [data/<pipeline_id>.json]. *)
Definition save_results : M unit :=
  fun s =>
    (Ok tt,
     {| self_chronicle := self_chronicle s; results := results s;
        calls := calls s;
        disk := app (disk s)
                 [("data/" ++ pipeline_id (results s) ++ ".json",
                   PipelineRecord (results s))];
        ticks := ticks s |}).

(** [try: ... except Exception as e: ...] and what follows it. *)
Definition guarded (body : M bool) : M run_record :=
  fun s =>
    match body s with
    | (Ok true, s1) => (Ok (results s1), s1)
    | (Ok false, s1) =>
        let '(_, s2) := save_results s1 in (Ok (results s2), s2)
    | (Exn e, s1) =>
        match handler e s1 with
        | (Ok _, s2) =>
            let '(_, s3) := save_results s2 in (Ok (results s3), s3)
        | (Exn e', s2) => (Exn e', s2)
        end
    end.

(** [run_full_pipeline], started on a recorder [c] (the shared instance, in
    whatever state earlier runs left it), a disk [d] and a clock that has
    been read [t] times.  The result is the returned [results], or the
    exception that leaves the method. *)
Definition run_full_pipeline (idea : string) (tech_stack : option string)
    (source_codebase : option string)
    (c : recorder) (d : list (string * file)) (t : nat)
    : res run_record * pstate :=
  let pipeline_run_id := "pipeline_" ++ strftime (clock t) in
  let feature_id_placeholder := prefix_of 30 (replace_spaces idea) in
  let '(_, c1) :=
    start_session (clock (S t)) feature_id_placeholder "pipeline_run" c in
  let s0 :=
    {| self_chronicle := c1;
       results :=
         {| pipeline_id := pipeline_run_id;
            started_at := isoformat (clock (S (S t)));
            steps := []; status := None; feature_id := None;
            completed_at := None; error := None; chronicle := None |};
       calls := [];
       disk := d;
       ticks := S (S (S t)) |} in
  guarded (try_body idea tech_stack source_codebase) s0.

End Pipeline.
End WithRuntime.


(* ================================================================== *)
(** * The stage methods of the source *)
(* ================================================================== *)

(** The entry points of the agents, called by the stage methods: what each
    returns or raises on its arguments (importing the module and building
    the agent included). *)
Class Agents : Type := {
  analyze_codebase : string -> string -> res value;
  research_market : string -> string -> res value;
  generate_feature : string -> value -> res value;
  develop_feature : value -> res value;
  test_feature : value -> list string -> res value;
  deploy : value -> string -> string -> res value
}.

(** [len(v)] *)
Definition py_len (v : value) : res Z :=
  match v with
  | VStr s => Ok (Z.of_nat (String.length s))
  | VList l => Ok (Z.of_nat (List.length l))
  | VDict d => Ok (Z.of_nat (List.length d))
  | _ => Exn (Builtin (NoLen v))
  end.

(** [sum(len(c["criteria"]) for c in values)], from [acc] on *)
Fixpoint sum_criteria (acc : Z) (values : list value) : res Z :=
  match values with
  | [] => Ok acc
  | c :: rest =>
      (let? criteria := py_subscript c "criteria" in
       let? n := py_len criteria in
       sum_criteria (acc + n)%Z rest)%res
  end.

(** [v.values()] *)
Definition py_values (v : value) : res (list value) :=
  match v with
  | VDict d => Ok (map snd d)
  | _ => Exn (Builtin (AttributeError v "values"))
  end.

Module Source.
Section WithAgents.
Context {AG : Agents}.

Definition _run_reverse_engineer (source : string) : res value :=
  (let? result := analyze_codebase source "full" in
   let? id := py_subscript result "id" in
   let? tech_stack := py_subscript result "tech_stack" in
   let? spec := py_subscript result "reconstructed_spec" in
   let? metrics := py_subscript result "code_metrics" in
   Ok (VDict [("analysis_id", id); ("tech_stack", tech_stack);
              ("spec", spec); ("metrics", metrics)]))%res.

Definition _run_web_scraper (topic : string) : res value :=
  (let? result := research_market topic "medium" in
   let? id := py_subscript result "id" in
   let? competitors := py_subscript result "competitors" in
   let? n_competitors := py_len competitors in
   let? trends := py_subscript result "trends" in
   let? n_trends := py_len trends in
   let? pain_points := py_subscript result "pain_points" in
   let? n_pain_points := py_len pain_points in
   let? insights := py_subscript result "insights" in
   Ok (VDict [("research_id", id);
              ("competitors_found", VInt n_competitors);
              ("trends_identified", VInt n_trends);
              ("pain_points", VInt n_pain_points);
              ("insights", insights)]))%res.

Definition _run_pm_agent (idea : string) (tech_stack : value) : res value :=
  (let? result := generate_feature idea tech_stack in
   let? id := py_subscript result "id" in
   let? specification := py_subscript result "specification" in
   let? title := py_subscript specification "title" in
   let? user_stories := py_subscript result "user_stories" in
   let? n_stories := py_len user_stories in
   let? acceptance := py_subscript result "acceptance_criteria" in
   let? groups := py_values acceptance in
   let? n_criteria := sum_criteria 0%Z groups in
   Ok (VDict [("feature_id", id); ("title", title);
              ("user_stories_count", VInt n_stories);
              ("acceptance_criteria_count", VInt n_criteria)]))%res.

Definition _run_dev_agent (feature_id : value) : res value :=
  (let? result := develop_feature feature_id in
   let? development := py_subscript result "development" in
   let? tech_stack := py_subscript development "tech_stack" in
   let? development' := py_subscript result "development" in
   let? backend := py_subscript development' "backend" in
   let? backend_files := py_subscript backend "files" in
   let? n_backend := py_len backend_files in
   let? development'' := py_subscript result "development" in
   let? frontend := py_subscript development'' "frontend" in
   let? frontend_files := py_subscript frontend "files" in
   let? n_frontend := py_len frontend_files in
   Ok (VDict [("feature_id", feature_id); ("tech_stack_used", tech_stack);
              ("files_generated", VInt (n_backend + n_frontend))]))%res.

Definition _run_qa_agent (feature_id : value) : res value :=
  (let? result := test_feature feature_id ["unit"; "integration"] in
   let? summary := py_subscript result "summary" in
   let? overall_score := py_subscript summary "overall_score" in
   let? summary' := py_subscript result "summary" in
   let? status := py_subscript summary' "status" in
   Ok (VDict [("feature_id", feature_id); ("test_report", result);
              ("overall_score", overall_score); ("status", status)]))%res.

Definition _run_deploy_agent (feature_id : value) : res value :=
  (let? result := deploy feature_id "local" "docker" in
   let? deployment_id := py_subscript result "deployment_id" in
   let? status := py_subscript result "status" in
   let? deployment := py_get result "deployment" (VDict []) in
   let? urls := py_get deployment "urls" (VDict []) in
   Ok (VDict [("feature_id", feature_id); ("deployment_id", deployment_id);
              ("status", status); ("urls", urls)]))%res.

(** The stage methods as [PipelineOrchestrator] defines them. *)
Definition stages : Stages :=
  Build_Stages _run_reverse_engineer _run_web_scraper _run_pm_agent
               _run_dev_agent _run_qa_agent _run_deploy_agent.

End WithAgents.
End Source.

(* ================================================================== *)
(** * Notions used in the statements and proofs *)
(* ================================================================== *)

Section Notions.
Context {RT : Runtime}.
Variable clock : nat -> Q.
Context {ST : Stages}.

(** The event [_record_event] pushes on a log: it takes the next number. *)
Definition pushed (ts : string) (p : payload) (log : list event) : event :=
  {| timestamp := ts; sequence_number := List.length log + 1; body := p |}.

(** Sequence numbers run from 1 to the length of the log. *)
Definition dense (log : list event) : Prop :=
  map sequence_number log = seq 1 (List.length log).

(** The recommendation of a [long_execution] entry. *)
Definition slow_advice : string :=
  "Consider optimizing or parallelizing this step".

(** [duration_ms] is a number strictly greater than 60000. *)
Definition over_a_minute (d : value) : Prop :=
  exists q, num_of d = Some q /\ (60000 < q)%Q.

(** A recorded duration is absent, zero, or a number. *)
Definition timed (e : event) : Prop :=
  truthy (duration_of e) = true -> num_of (duration_of e) <> None.

(** Every event of the log of the recorder is [timed]. *)
Definition timed_log (c : recorder) : Prop := Forall timed (event_log c).

(** The state after an [end_session] that returned the report [r]. *)
Definition closed (final_status : string) (r : report) (s : pstate) : pstate :=
  let c' := _record_event (isoformat (clock (ticks s)))
              (SessionEnd final_status
                 (elapsed (clock (ticks s)) (self_chronicle s))
                 (List.length (event_log (self_chronicle s))))
              (self_chronicle s) in
  {| self_chronicle := c';
     results := results s;
     calls := calls s;
     disk := (disk s ++
              [ (chronicle_path c' ".json", ChronicleFile (ReportJson r));
                (chronicle_path c' "_narrative.md", ChronicleFile (Narrative r)) ])%list;
     ticks := S (ticks s) |}.

(** The event log of the recorder of a run. *)
Definition log_of (s : pstate) : list event := event_log (self_chronicle s).

(** The file is a run record, not a file of the recorder. *)
Definition is_run_record (f : string * file) : bool :=
  match snd f with
  | PipelineRecord _ => true
  | ChronicleFile _ => false
  end.

(** The number of run records on a disk. *)
Definition records_written (d : list (string * file)) : nat :=
  List.length (filter is_run_record d).

(** [framed P N m]: whatever the state, [m] leaves the events of the log in
    place and appends events that satisfy [P]; it calls stage methods whose
    names satisfy [N], and an exception raised by one of them is the
    exception that leaves [m]; it writes no run record. *)
Definition framed (P : event -> Prop) (N : string -> Prop) {A} (m : M A) : Prop :=
  forall s,
    (exists le, log_of (snd (m s)) = (log_of s ++ le)%list /\ Forall P le)
    /\ (exists lc, calls (snd (m s)) = (calls s ++ lc)%list
                   /\ Forall (fun c => N (fst c)) lc
                   /\ forall n e, In (n, Exn e) lc -> fst (m s) = Exn e)
    /\ records_written (disk (snd (m s))) = records_written (disk s).

(** No condition on the stage called. *)
Definition any_name (n : string) : Prop := True.

(** The stages before testing. *)
Definition upstream_name (n : string) : Prop := n <> "qa" /\ n <> "deploy".

(** The first stage of a run: step 0 or step -1. *)
Definition research (idea : string) (tech_stack : option string)
    (source_codebase : option string) : M (string * value) :=
  match given source_codebase with
  | Some src => step_reverse_engineer clock src (value_of tech_stack)
  | None =>
      bind (step_web_scraper clock idea) (fun _ => ret (idea, value_of tech_stack))
  end.

(** The steps from testing on. *)
Definition downstream (fid : value) : M bool :=
  bind (step_qa clock fid) (fun qa_result =>
  bind (quality_gate clock qa_result) (fun halted =>
  if (halted : bool) then ret true
  else bind (step_deploy clock fid) (fun _ => ret false))).

(** The state in which the [try] block starts. *)
Definition start_state (idea : string) (c : recorder)
    (d : list (string * file)) (t : nat) : pstate :=
  {| self_chronicle :=
       snd (start_session (clock (S t)) (prefix_of 30 (replace_spaces idea))
              "pipeline_run" c);
     results :=
       {| pipeline_id := "pipeline_" ++ strftime (clock t);
          started_at := isoformat (clock (S (S t)));
          steps := []; status := None; feature_id := None;
          completed_at := None; error := None; chronicle := None |};
     calls := [];
     disk := d;
     ticks := S (S (S t)) |}.


(** The stage result holds a test report whose summary has the
    [overall_score] [v]. *)
Definition has_score (qa_result v : value) : Prop :=
  exists d tr sm,
    qa_result = VDict d
    /\ lookup "test_report" d = Some (VDict tr)
    /\ lookup "summary" tr = Some (VDict sm)
    /\ lookup "overall_score" sm = Some v.


(** The steps before testing, with [feature_id] as their result. *)
Definition upstream (idea : string) (tech_stack : option string)
    (source_codebase : option string) : M value :=
  bind (research idea tech_stack source_codebase) (fun it =>
  bind (step_pm clock (fst it) (snd it)) (fun fid =>
  bind (step_dev clock fid) (fun _ => ret fid))).

(** The deployment stage. *)
Definition deploy_name (n : string) : Prop := n = "deploy".

(** Any other stage. *)
Definition other_name (n : string) : Prop := n <> "deploy".

(** The place of an event among those of the stage run by [agent] and
    checked under the name [stage], when the order is action, checkpoint,
    handoff; events of other stages have no place. *)
Definition action_checkpoint_handoff (agent stage : string) (e : event)
    : option nat :=
  match body e with
  | AgentAction a _ _ _ _ _ => if String.eqb a agent then Some 0 else None
  | Checkpoint st _ _ _ => if String.eqb st stage then Some 1 else None
  | Handoff f _ _ _ => if String.eqb f agent then Some 2 else None
  | _ => None
  end.

(** The same when the order is action, handoff, checkpoint. *)
Definition action_handoff_checkpoint (agent stage : string) (e : event)
    : option nat :=
  match body e with
  | AgentAction a _ _ _ _ _ => if String.eqb a agent then Some 0 else None
  | Handoff f _ _ _ => if String.eqb f agent then Some 1 else None
  | Checkpoint st _ _ _ => if String.eqb st stage then Some 2 else None
  | _ => None
  end.

(** In the log, an event with an earlier place stands before every event
    with a later place. *)
Definition in_order (place : event -> option nat) (log : list event) : Prop :=
  forall i j ei ej a b,
    nth_error log i = Some ei -> nth_error log j = Some ej ->
    place ei = Some a -> place ej = Some b ->
    a < b -> i < j.

(** The places of the events of a log, in log order. *)
Definition places (place : event -> option nat) (log : list event) : list nat :=
  flat_map (fun e => match place e with Some k => [k] | None => [] end) log.

(** The event has no place in the order of the stage. *)
Definition unplaced (place : event -> option nat) (e : event) : Prop :=
  place e = None.

(** [ordered place m]: run on a log without events of the stage, [m]
    leaves a log whose events of the stage are in order. *)
Definition ordered (place : event -> option nat) {A} (m : M A) : Prop :=
  forall s,
    Forall (unplaced place) (log_of s) ->
    StronglySorted le (places place (log_of (snd (m s)))).

End Notions.


(* ================================================================== *)
(** * Runs to evaluate *)
(* ================================================================== *)

(** An interpreter that renders every clock reading by its numerator and
    every other value by a fixed text. *)
Definition demo_runtime : Runtime :=
  {| repr_other := fun _ => "<value>";
     isoformat := fun t => "T" ++ str_of_Z (Qnum t);
     strftime := fun t => str_of_Z (Qnum t);
     builtin_msg := fun _ => "<error>" |}.

(** A clock that advances by one second per reading. *)
Definition demo_clock (n : nat) : Q := inject_Z (Z.of_nat (S n)).

(** The session of the demo mode of [chronicle_agent.py], before its
    [end_session]. *)
Definition demo_calls : list (Q * recorder_call) :=
  [ (2%Q, Call_record_agent_action "web_scraper" "market_research"
            (VStr "task management app") (VStr "6 competitors found")
            (Some [("duration_ms", VInt 5000)]));
    (3%Q, Call_record_handoff "web_scraper" "pm" "market_research_report"
            "6 competitors, 8 pain points");
    (4%Q, Call_record_agent_action "pm" "create_specification"
            (VStr "market research") (VStr "feature_spec.json")
            (Some [("duration_ms", VInt 8000)]));
    (5%Q, Call_record_decision "pm" "Use React + Node.js"
            "Best fit for team expertise"
            (Some ["Vue + Django"; "Angular + Java"]));
    (6%Q, Call_record_handoff "pm" "dev" "feature_spec" "6 user stories, API spec");
    (7%Q, Call_record_agent_action "dev" "generate_code"
            (VStr "feature spec") (VStr "codebase/ with 20 files")
            (Some [("duration_ms", VInt 45000)]));
    (8%Q, Call_record_checkpoint "development" (VStr "success")
            (VDict [("files", VInt 20)])) ].

Definition demo_session : recorder :=
  run_session (RT := demo_runtime) 1%Q "demo_feature" "demo" demo_calls
    new_recorder.

(** A session with one action of 60001 ms and one of 60000 ms. *)
Definition timing_session : recorder :=
  run_session (RT := demo_runtime) 1%Q "timing" "manual"
    [ (2%Q, Call_record_agent_action "dev" "generate_code" VNone VNone
              (Some [("duration_ms", VInt 60001)]));
      (3%Q, Call_record_agent_action "qa" "test_feature" VNone VNone
              (Some [("duration_ms", VInt 60000)])) ]
    new_recorder.

(** A result of the testing stage, in the shape [_run_qa_agent] gives it,
    with the score [score]. *)
Definition scored (score : value) : value :=
  VDict [ ("feature_id", VStr "feat_1");
          ("test_report",
           VDict [ ("feature_id", VStr "feat_1");
                   ("summary",
                    VDict [ ("overall_score", score);
                            ("status", VStr "done") ]) ]);
          ("overall_score", score);
          ("status", VStr "done") ].


Definition developed : value :=
  VDict [ ("feature_id", VStr "feat_1");
          ("tech_stack_used",
           VDict [ ("frontend", VDict [("name", VStr "React")]);
                   ("backend", VDict [("name", VStr "Node.js")]) ]);
          ("files_generated", VInt 20) ].

(** Stage methods with fixed results, but for those of development and
    testing. *)
Definition demo_stages (dev qa : res value) : Stages :=
  {| _run_reverse_engineer := fun _ =>
       Ok (VDict [ ("analysis_id", VStr "analysis_1");
                   ("tech_stack", VDict [("primary_language", VStr "Python")]);
                   ("spec", VDict [("title", VStr "Task app")]);
                   ("metrics", VDict [("total_files", VInt 12)]) ]);
     _run_web_scraper := fun _ =>
       Ok (VDict [ ("research_id", VStr "research_1");
                   ("competitors_found", VInt 6);
                   ("trends_identified", VInt 3);
                   ("pain_points", VInt 8);
                   ("insights", VList []) ]);
     _run_pm_agent := fun _ _ =>
       Ok (VDict [ ("feature_id", VStr "feat_1");
                   ("title", VStr "Task app");
                   ("user_stories_count", VInt 6);
                   ("acceptance_criteria_count", VInt 12) ]);
     _run_dev_agent := fun _ => dev;
     _run_qa_agent := fun _ => qa;
     _run_deploy_agent := fun _ =>
       Ok (VDict [ ("feature_id", VStr "feat_1");
                   ("deployment_id", VStr "deploy_1");
                   ("status", VStr "deployed");
                   ("urls", VDict [("frontend", VStr "http://localhost:3000")]) ]) |}.

(** The run of [python3 pipeline.py full 'Task management app'] with these
    stages, on a fresh recorder and an empty disk. *)
Definition demo_run (dev qa : res value) : res run_record * pstate :=
  run_full_pipeline (RT := demo_runtime) demo_clock (ST := demo_stages dev qa)
    "Task management app" None None new_recorder [] 0.

(* ================================================================== *)
(** * Notions for the report and the trace of a run *)
(* ================================================================== *)

Section ReportNotions.
Context {RT : Runtime}.

(** The event is an [agent_action] of the agent. *)
Definition is_action_by (agent : string) (e : event) : bool :=
  match body e with
  | AgentAction a _ _ _ _ _ => String.eqb a agent
  | _ => false
  end.

(** The [agent_action] events of an agent, in log order. *)
Definition actions_by (agent : string) (log : list event) : list event :=
  filter (is_action_by agent) log.

(** The [(agent, action)] pairs of the [agent_action] events, in log
    order. *)
Definition pairs_of (log : list event) : list (string * string) :=
  flat_map (fun e => match body e with
                     | AgentAction a act _ _ _ _ => [(a, act)]
                     | _ => []
                     end) log.

Definition same_pair (k k' : string * string) : bool :=
  (String.eqb (fst k) (fst k') && String.eqb (snd k) (snd k'))%bool.

(** How many times the agent performed the action. *)
Definition occurrences (k : string * string) (log : list event) : nat :=
  List.length (filter (same_pair k) (pairs_of log)).

(** The recommendation about a repeated action. *)
Definition caching_advice (agent action : string) (count : nat) : string :=
  agent ++ " performed '" ++ action ++ "' " ++ str_of_nat count
    ++ " times - consider caching or optimization".

(** The recommendations every report ends with. *)
Definition general_advice : list string :=
  [ "All agent interactions were logged successfully";
    "Review the handoff chain for potential optimizations";
    "Consider adding more granular checkpoints for better visibility" ].

(** The elements of a list in the order of their first occurrences. *)
Definition first_seen (l : list string) : list string :=
  fold_left (fun seen a => if in_dec string_dec a seen then seen
                           else (seen ++ [a])%list) l [].

(** The two names an event is told by: the agent and the action of an
    action, the two ends of a handoff, the agent of a decision, the
    activity of a collaboration, the stage of a checkpoint, the agent and
    the type of an issue, the feature and the trigger of a session start,
    the final status of a session end. *)
Definition parties (e : event) : string * string :=
  match body e with
  | SessionStart fid trigger _ => (fid, trigger)
  | AgentAction agent action _ _ _ _ => (agent, action)
  | Handoff from_agent to_agent _ _ => (from_agent, to_agent)
  | Decision agent _ _ _ => (agent, "")
  | Collaboration _ activity _ => ("", activity)
  | Checkpoint stage _ _ _ => (stage, "")
  | Issue agent issue_type _ _ _ => (agent, issue_type)
  | SessionEnd final_status _ _ => ("", final_status)
  end.

(** The type of an event with its two names. *)
Definition outline (e : event) : string * (string * string) :=
  (type_of e, parties e).

(** The event is an issue recorded without a resolution. *)
Definition lacks_resolution (e : event) : bool :=
  match body e with
  | Issue _ _ _ None _ => true
  | _ => false
  end.

(** The sum of the recorded durations of a list of events: an event
    without a duration, or with a zero one, counts for nothing. *)
Fixpoint duration_sum (l : list event) : Q :=
  match l with
  | [] => 0%Q
  | e :: l' =>
      ((if truthy (duration_of e)
        then match num_of (duration_of e) with Some q => q | None => 0 end
        else 0) + duration_sum l')%Q
  end.

End ReportNotions.

Section RunNotions.
Context {RT : Runtime}.
Variable clock : nat -> Q.
Context {ST : Stages}.


(** The stages of a run, in the order of the [try] block. *)
Definition stage_order (source_codebase : option string) : list string :=
  [ match given source_codebase with
    | Some _ => "reverse_engineer"
    | None => "web_scraper"
    end; "pm"; "dev"; "qa"; "deploy" ].

(** A call that raised is the last call made. *)
Definition only_last_raises (lc : list (string * res value)) : Prop :=
  forall i n e, nth_error lc i = Some (n, Exn e) -> S i = List.length lc.

(** [m] calls no stage method. *)
Definition quiet {A} (m : M A) : Prop :=
  forall s, calls (snd (m s)) = calls s.

(** [m] makes one stage call, the one of [name] with the outcome [o], and
    an exception raised by it leaves [m]. *)
Definition one_call (name : string) (o : res value) {A} (m : M A) : Prop :=
  forall s,
    calls (snd (m s)) = (calls s ++ [(name, o)])%list
    /\ forall e, o = Exn e -> fst (m s) = Exn e.

(** The first stage call of a run. *)
Definition first_call (idea : string) (source_codebase : option string)
    : res value :=
  match given source_codebase with
  | Some src => _run_reverse_engineer src
  | None => _run_web_scraper idea
  end.

(** The stage methods that take the feature id. *)
Definition stage_on (name : string) (fid : value) : res value :=
  if String.eqb name "dev" then _run_dev_agent fid
  else if String.eqb name "qa" then _run_qa_agent fid
  else _run_deploy_agent fid.

(** [m] records no event. *)
Definition mute {A} (m : M A) : Prop :=
  forall s, log_of (snd (m s)) = log_of s.

(** When [m] returns, it has recorded events with the outlines [l], in
    this order, after those of the log. *)
Definition emits (l : list (string * (string * string))) {A} (m : M A) : Prop :=
  forall s a s',
    m s = (Ok a, s') ->
    exists le, log_of s' = (log_of s ++ le)%list /\ map outline le = l.


(** The events of the first step of a run. *)
Definition research_outline (source_codebase : option string)
    : list (string * (string * string)) :=
  match given source_codebase with
  | Some _ => [ ("agent_action", ("reverse_engineer", "analyze_codebase")) ]
  | None => [ ("agent_action", ("web_scraper", "market_research"));
              ("handoff", ("web_scraper", "pm")) ]
  end.

(** The events of specification, development and testing. *)
Definition build_outline : list (string * (string * string)) :=
  [ ("agent_action", ("pm", "create_specification"));
    ("decision", ("pm", ""));
    ("checkpoint", ("specification", ""));
    ("handoff", ("pm", "dev"));
    ("agent_action", ("dev", "generate_codebase"));
    ("checkpoint", ("development", ""));
    ("handoff", ("dev", "qa"));
    ("agent_action", ("qa", "test_feature"));
    ("checkpoint", ("testing", "")) ].

(** The events of a deployment that returned. *)
Definition deploy_outline : list (string * (string * string)) :=
  [ ("agent_action", ("deploy", "deploy_application"));
    ("handoff", ("deploy", "user"));
    ("checkpoint", ("deployment", ""));
    ("collaboration", ("", "Full pipeline execution"));
    ("session_end", ("", "success")) ].

(** The events of a gate that halts the run. *)
Definition halt_outline : list (string * (string * string)) :=
  [ ("issue", ("qa", "low_test_score")); ("session_end", ("", "failed_qa")) ].



(** [m] calls stage methods along [names], from the first one on, and
    stops at the first that raises. *)
Definition chain (names : list string) {A} (m : M A) : Prop :=
  forall s, exists lc,
    calls (snd (m s)) = (calls s ++ lc)%list
    /\ map fst lc = firstn (List.length lc) names
    /\ only_last_raises lc.


End RunNotions.

(** A session with an issue recorded without a resolution and one
    recorded with a resolution. *)
Definition issue_calls : list (Q * recorder_call) :=
  [ (2%Q, Call_record_issue "qa" "flaky_test" "Tests are flaky" None);
    (3%Q, Call_record_issue "dev" "lint" "Lint errors" (Some "Fixed")) ].

Definition issue_session : recorder :=
  run_session (RT := demo_runtime) 1%Q "issues" "manual" issue_calls
    new_recorder.

(* ================================================================== *)
(** * The deploy agent, up to its pre-deployment checks *)
(* ================================================================== *)

(** What [DeployAgent.deploy] finds on the machine: the directories and
    files of the feature, the configuration of the agent, the rendering of
    [f"{x:.1f}"], and what the method does once the checks have passed
    (the deployment itself, its verification and its records). *)
Record deploy_site : Type := {
  feature_dir_exists : string -> bool;
  feature_spec : string -> res value;
  codebase_exists : string -> bool;
  compose_exists : string -> bool;
  deploy_config : dict;
  format_1f : value -> string;
  proceed : string -> string -> string -> value -> value -> res value
}.

Module DeployAgent.
Section WithSite.
Variable site : deploy_site.

(** [self.config.get(key)] *)
Definition config_get (key : string) : value :=
  match lookup key (deploy_config site) with
  | Some v => v
  | None => VNone
  end.

Definition _run_pre_deploy_checks (feature_id : string) (feature_data : value)
    : res value :=
  (let? test_results := py_get feature_data "test_results" (VDict []) in
   let? summary := py_get test_results "summary" (VDict []) in
   let? test_score := py_get summary "overall_score" (VInt 0) in
   let? test_passed := py_ge test_score 70 in
   let check1 :=
     VDict [ ("name", VStr "Tests passed");
             ("status", VStr (if test_passed then "passed" else "failed"));
             ("details", VStr ("Score: " ++ format_1f site test_score ++ "%")) ] in
   let codebase := codebase_exists site feature_id in
   let check2 :=
     VDict [ ("name", VStr "Codebase exists");
             ("status", VStr (if codebase then "passed" else "failed")) ] in
   let dockerfile := compose_exists site feature_id in
   let check3 :=
     VDict [ ("name", VStr "Docker configuration");
             ("status", VStr (if dockerfile then "passed" else "warning"));
             ("details", VStr (if dockerfile then "docker-compose.yml found"
                               else "Will use fallback")) ] in
   let env_configured :=
     truthy (py_or (config_get "JWT_SECRET") (config_get "DATABASE_URL")) in
   let check4 :=
     VDict [ ("name", VStr "Environment configured");
             ("status", VStr (if env_configured then "passed" else "warning")) ] in
   Ok (VDict [ ("passed", VBool (test_passed && codebase));
               ("checks", VList [check1; check2; check3; check4]) ]))%res.

(** [deploy], for a [feature_id] that is a string (the path of the feature
    cannot be built from anything else). *)
Definition deploy (feature_id : value) (environment platform : string)
    : res value :=
  match feature_id with
  | VStr fid =>
      if negb (feature_dir_exists site fid)
      then Exn (Raised ("Feature " ++ fid ++ " not found"))
      else
        (let? feature_data := feature_spec site fid in
         let? checks := _run_pre_deploy_checks fid feature_data in
         let? passed := py_subscript checks "passed" in
         if negb (truthy passed) then Ok checks
         else proceed site fid environment platform feature_data checks)%res
  | _ => Exn (Builtin (UnsupportedOperand "/" feature_id))
  end.

End WithSite.
End DeployAgent.

(* ================================================================== *)
(** * The status of a test report *)
(* ================================================================== *)

Module QAAgent.

(** [_determine_status]; its first argument is not read. *)
Definition _determine_status (score : value) : res string :=
  (let? passed := py_ge score 90 in
   if (passed : bool) then Ok "passed"
   else
     let? warnings := py_ge score 70 in
     if (warnings : bool) then Ok "passed_with_warnings"
     else
       let? improvable := py_ge score 50 in
       if (improvable : bool) then Ok "needs_improvement"
       else Ok "failed")%res.

(** [feature_data['status']] after a test run *)
Definition feature_status (status : string) : string :=
  if String.eqb status "passed" then "tested" else "needs_fix".

End QAAgent.

Section DeployNotions.
Context {RT : Runtime}.



End DeployNotions.

(** A machine on which the feature was tested with a score of 60. *)
Definition demo_site : deploy_site :=
  {| feature_dir_exists := fun _ => true;
     feature_spec := fun _ =>
       Ok (VDict [ ("id", VStr "feat_1");
                   ("test_results",
                    VDict [ ("summary",
                             VDict [ ("overall_score", VInt 60);
                                     ("status", VStr "needs_improvement") ]) ]) ]);
     codebase_exists := fun _ => true;
     compose_exists := fun _ => false;
     deploy_config := [];
     format_1f := fun _ => "60.0";
     proceed := fun _ _ _ _ _ => Exn (Raised "deployment is not simulated") |}.

(** Agents with fixed results, and the deploy agent on that machine. *)
Definition demo_agents : Agents :=
  {| analyze_codebase := fun _ _ =>
       Ok (VDict [ ("id", VStr "analysis_1");
                   ("tech_stack", VDict [("primary_language", VStr "Python")]);
                   ("reconstructed_spec", VDict [("title", VStr "Task app")]);
                   ("code_metrics", VDict [("total_files", VInt 12)]) ]);
     research_market := fun _ _ =>
       Ok (VDict [ ("id", VStr "research_1");
                   ("competitors", VList []);
                   ("trends", VList []);
                   ("pain_points", VList []);
                   ("insights", VList []) ]);
     generate_feature := fun _ _ =>
       Ok (VDict [ ("id", VStr "feat_1");
                   ("specification", VDict [("title", VStr "Task app")]);
                   ("user_stories", VList []);
                   ("acceptance_criteria", VDict []) ]);
     develop_feature := fun _ =>
       Ok (VDict [ ("development",
                    VDict [ ("tech_stack",
                             VDict [ ("frontend", VDict [("name", VStr "React")]);
                                     ("backend", VDict [("name", VStr "Node.js")]) ]);
                            ("backend", VDict [("files", VList [])]);
                            ("frontend", VDict [("files", VList [])]) ]) ]);
     test_feature := fun _ _ =>
       Ok (VDict [ ("summary",
                    VDict [ ("overall_score", VInt 60);
                            ("status", VStr "needs_improvement") ]) ]);
     deploy := DeployAgent.deploy demo_site |}.

(** The run of [python3 pipeline.py full 'Task management app'] with the
    stage methods of the source over these agents. *)
Definition source_run : res run_record * pstate :=
  run_full_pipeline (RT := demo_runtime) demo_clock
    (ST := Source.stages (AG := demo_agents))
    "Task management app" None None new_recorder [] 0.


(** The number of [session_end] events of a log. *)
Definition session_ends (log : list event) : nat :=
  List.length (filter (has_type "session_end") log).



Section FilingNotions.
Context {RT : Runtime}.

(** The two files of a chronicle, per report written for the session
    [sid]. *)
Definition chronicle_files (sid : string) (reports : list report)
    : list (string * file) :=
  flat_map (fun rep =>
              [ ("data/chronicle/" ++ sid ++ ".json",
                 ChronicleFile (ReportJson rep));
                ("data/chronicle/" ++ sid ++ "_narrative.md",
                 ChronicleFile (Narrative rep)) ]) reports.

(** Run in the session [sid] on a log without bad durations, [m] stays in
    the session, keeps the log without bad durations, and writes the files
    of one chronicle per [session_end] it records, and nothing else. *)
Definition filing (sid : string) {A} (m : M A) : Prop :=
  forall s,
    session_id (self_chronicle s) = Some sid ->
    timed_log (self_chronicle s) ->
    session_id (self_chronicle (snd (m s))) = Some sid
    /\ timed_log (self_chronicle (snd (m s)))
    /\ exists le reports,
         log_of (snd (m s)) = (log_of s ++ le)%list
         /\ disk (snd (m s)) = (disk s ++ chronicle_files sid reports)%list
         /\ List.length reports = session_ends le.

End FilingNotions.


(* ================================================================== *)
(** * Properties of the recorder *)
(* ================================================================== *)

Section RecorderProperties.
Context {RT : Runtime}.

Lemma record_event_log ts p c :
  event_log (_record_event ts p c) = (event_log c ++ [pushed ts p (event_log c)])%list.
Proof. reflexivity. Qed.

Lemma dense_nil : dense [].
Proof. reflexivity. Qed.

Lemma dense_push ts p log : dense log -> dense (log ++ [pushed ts p log]).
Proof.
  unfold dense. intros H.
  rewrite map_app, H, length_app. simpl.
  rewrite Nat.add_1_r, seq_S. reflexivity.
Qed.

(** Each recording call is one [_record_event]. *)
Lemma run_call_pushes now k c :
  exists ts p, run_call now k c = _record_event ts p c.
Proof.
  destruct k; simpl; try (eexists; eexists; reflexivity).
  unfold end_session.
  destruct (_generate_report _ _); simpl; eexists; eexists; reflexivity.
Qed.

Lemma run_call_dense now k c :
  dense (event_log c) -> dense (event_log (run_call now k c)).
Proof.
  intros H. destruct (run_call_pushes now k c) as (ts & p & ->).
  rewrite record_event_log. now apply dense_push.
Qed.

Lemma run_call_length now k c :
  List.length (event_log (run_call now k c)) = S (List.length (event_log c)).
Proof.
  destruct (run_call_pushes now k c) as (ts & p & ->).
  rewrite record_event_log, length_app. simpl. lia.
Qed.

Lemma run_calls_dense ks : forall c,
  dense (event_log c) -> dense (event_log (run_calls ks c)).
Proof.
  unfold run_calls.
  induction ks as [|k ks IH]; intros c H; simpl; auto using run_call_dense.
Qed.

Lemma run_calls_length ks : forall c,
  List.length (event_log (run_calls ks c))
  = List.length ks + List.length (event_log c).
Proof.
  unfold run_calls.
  induction ks as [|k ks IH]; intros c; simpl; auto.
  rewrite IH, run_call_length. lia.
Qed.

Lemma start_session_log now fid trig c :
  event_log (snd (start_session now fid trig c))
  = [pushed (isoformat now) (SessionStart fid trig "1.0") []].
Proof. reflexivity. Qed.

(** C1.  A session is [start_session] followed by any calls of the
    recording methods and of [end_session], [N] calls in all.  Whatever
    state the recorder was in before, the log of the session has [N] events
    and their sequence numbers are 1, 2, ..., [N] in log order. *)
Theorem sequence_numbers_dense now fid trig ks c :
  let log := event_log (run_session now fid trig ks c) in
  let N := S (List.length ks) in
  List.length log = N /\ map sequence_number log = seq 1 N.
Proof.
  unfold run_session. cbv zeta.
  assert (L : List.length (event_log (run_calls ks (snd (start_session now fid trig c))))
              = S (List.length ks)).
  { rewrite run_calls_length, start_session_log. simpl. lia. }
  split; [exact L|].
  rewrite <- L. apply run_calls_dense.
  rewrite start_session_log. reflexivity.
Qed.

(** C7.  A call of a recording method or of [end_session] leaves the events
    already in the log as they are and in place, and adds one event after
    them, numbered with the new length of the log. *)
Theorem recorder_calls_append_only now k c :
  exists e, event_log (run_call now k c) = (event_log c ++ [e])%list
            /\ sequence_number e = S (List.length (event_log c)).
Proof.
  destruct (run_call_pushes now k c) as (ts & p & ->).
  exists (pushed ts p (event_log c)). split; [apply record_event_log|].
  simpl. lia.
Qed.

(** C5.  [end_session] pushes one [session_end] event, whose
    [total_events] is the number of events the log held before the call;
    the log is then one event longer.  This holds whether or not the report
    can be derived afterwards. *)
Theorem end_session_appends_one now final_status c :
  let K := List.length (event_log c) in
  let c' := fst (fst (end_session now final_status c)) in
  exists e,
    event_log c' = (event_log c ++ [e])%list
    /\ body e = SessionEnd final_status (elapsed now c) K
    /\ List.length (event_log c') = K + 1.
Proof.
  cbv zeta. unfold end_session.
  exists (pushed (isoformat now)
            (SessionEnd final_status (elapsed now c) (List.length (event_log c)))
            (event_log c)).
  destruct (_generate_report _ _); simpl; rewrite length_app; simpl; auto.
Qed.

(** ** The counts of the report *)

Lemma fill_handoffs log : forall b,
  handoffs (fold_left bucket_step log b)
  = (handoffs b ++ filter (has_type "handoff") log)%list.
Proof.
  induction log as [|e log IH]; intros b; simpl.
  - now rewrite app_nil_r.
  - rewrite IH. unfold bucket_step, has_type, type_of.
    destruct (body e); simpl; auto. now rewrite <- app_assoc.
Qed.

Lemma fill_decisions log : forall b,
  decisions (fold_left bucket_step log b)
  = (decisions b ++ filter (has_type "decision") log)%list.
Proof.
  induction log as [|e log IH]; intros b; simpl.
  - now rewrite app_nil_r.
  - rewrite IH. unfold bucket_step, has_type, type_of.
    destruct (body e); simpl; auto. now rewrite <- app_assoc.
Qed.

Lemma fill_issues log : forall b,
  issues (fold_left bucket_step log b)
  = (issues b ++ filter (has_type "issue") log)%list.
Proof.
  induction log as [|e log IH]; intros b; simpl.
  - now rewrite app_nil_r.
  - rewrite IH. unfold bucket_step, has_type, type_of.
    destruct (body e); simpl; auto. now rewrite <- app_assoc.
Qed.

Lemma fill_collaborations log : forall b,
  collaborations (fold_left bucket_step log b)
  = (collaborations b ++ filter (has_type "collaboration") log)%list.
Proof.
  induction log as [|e log IH]; intros b; simpl.
  - now rewrite app_nil_r.
  - rewrite IH. unfold bucket_step, has_type, type_of.
    destruct (body e); simpl; auto. now rewrite <- app_assoc.
Qed.

(** The keys of the grouping: [group_add] adds a key when it is new. *)
Lemma group_add_keys agent e g :
  map fst (group_add agent e g)
  = if in_dec string_dec agent (map fst g) then map fst g
    else (map fst g ++ [agent])%list.
Proof.
  induction g as [|[a es] g IH]; simpl; auto.
  destruct (String.eqb_spec agent a) as [->|N].
  - destruct (string_dec a a); [reflexivity | congruence].
  - simpl. rewrite IH.
    destruct (string_dec a agent); [congruence|].
    destruct (in_dec string_dec agent (map fst g)); reflexivity.
Qed.

Lemma group_add_NoDup agent e g :
  NoDup (map fst g) -> NoDup (map fst (group_add agent e g)).
Proof.
  intros H. rewrite group_add_keys.
  destruct (in_dec string_dec agent (map fst g)); auto.
  apply NoDup_app; auto.
  - constructor; [intros []|constructor].
  - intros x Hx [<-|[]]. contradiction.
Qed.

Lemma group_add_In agent e g x :
  In x (map fst (group_add agent e g)) <-> x = agent \/ In x (map fst g).
Proof.
  rewrite group_add_keys.
  destruct (in_dec string_dec agent (map fst g)).
  - split; [auto|]. intros [->|]; auto.
  - rewrite in_app_iff. simpl. intuition.
Qed.

Lemma fill_agent_keys log : forall b,
  NoDup (map fst (agent_actions b)) ->
  let g := agent_actions (fold_left bucket_step log b) in
  NoDup (map fst g)
  /\ forall x, In x (map fst g)
               <-> In x (map fst (agent_actions b)) \/ In x (agents_of log).
Proof.
  induction log as [|e log IH]; intros b H; simpl.
  - split; [assumption | intuition].
  - assert (S : NoDup (map fst (agent_actions (bucket_step b e)))).
    { unfold bucket_step. destruct (body e); simpl; auto using group_add_NoDup. }
    destruct (IH _ S) as [N I]. split; [exact N|].
    intros x. rewrite I. unfold bucket_step.
    destruct (body e); simpl; try tauto.
    rewrite group_add_In. intuition.
Qed.

(** The number of groups is the number of distinct agents. *)
Lemma fill_agents_count log :
  List.length (agent_actions (fill_buckets log))
  = List.length (nodup string_dec (agents_of log)).
Proof.
  unfold fill_buckets.
  destruct (fill_agent_keys log no_buckets (NoDup_nil _)) as [N I].
  simpl in I. rewrite <- (length_map fst).
  apply Nat.le_antisymm; apply NoDup_incl_length;
    auto using NoDup_nodup; intros x Hx.
  - apply nodup_In. apply I in Hx. tauto.
  - apply I. right. now apply nodup_In in Hx.
Qed.

Lemma generate_report_summary now c r :
  _generate_report now c = Ok r ->
  let log := event_log c in
  let count t := List.length (filter (has_type t) log) in
  total_events (report_summary r) = List.length log
  /\ total_handoffs (report_summary r) = count "handoff"
  /\ total_decisions (report_summary r) = count "decision"
  /\ total_issues (report_summary r) = count "issue"
  /\ total_collaborations (report_summary r) = count "collaboration"
  /\ total_agents_involved (report_summary r)
     = List.length (nodup string_dec (agents_of log)).
Proof.
  unfold _generate_report. intros H.
  destruct (_calculate_agent_stats _); simpl in H; [|discriminate].
  destruct (_identify_bottlenecks _); simpl in H; [|discriminate].
  injection H as <-. simpl.
  unfold fill_buckets.
  rewrite fill_handoffs, fill_decisions, fill_issues, fill_collaborations.
  repeat split; auto. apply fill_agents_count.
Qed.

(** C6.  When [end_session] returns a report, the session is closed: the
    log then ends with the [session_end] event.  The report's
    [total_events] is the length of that log, [total_handoffs],
    [total_decisions], [total_issues] and [total_collaborations] are the
    numbers of its events of the type, and [total_agents_involved] is the
    number of distinct agents of its [agent_action] events. *)
Theorem report_summary_counts now final_status c c' files r :
  end_session now final_status c = (c', files, Ok r) ->
  let log := event_log c' in
  let count t := List.length (filter (has_type t) log) in
  (exists e, log = (event_log c ++ [e])%list /\ type_of e = "session_end")
  /\ total_events (report_summary r) = List.length log
  /\ total_handoffs (report_summary r) = count "handoff"
  /\ total_decisions (report_summary r) = count "decision"
  /\ total_issues (report_summary r) = count "issue"
  /\ total_collaborations (report_summary r) = count "collaboration"
  /\ total_agents_involved (report_summary r)
     = List.length (nodup string_dec (agents_of log)).
Proof.
  unfold end_session. intros H.
  destruct (_generate_report _ _) as [r'|] eqn:G; [|discriminate].
  injection H as <- _ <-. cbv zeta. split.
  - eexists. split; [apply record_event_log | reflexivity].
  - exact (generate_report_summary _ _ G).
Qed.

(** ** Bottlenecks *)

Lemma Qltb_lt a b : Qltb a b = true <-> (a < b)%Q.
Proof.
  unfold Qltb. rewrite negb_true_iff.
  split.
  - intros H. apply Qnot_le_lt. intros L.
    apply Qle_bool_iff in L. congruence.
  - intros H. destruct (Qle_bool b a) eqn:E; auto.
    apply Qle_bool_iff in E. exfalso. now apply (Qlt_not_le a b).
Qed.

Lemma falsy_not_over d : truthy d = false -> ~ over_a_minute d.
Proof.
  intros T (q & N & L). destruct d; simpl in *; try discriminate.
  - subst b. injection N as <-. now apply Qlt_not_le in L; apply L.
  - apply negb_false_iff, Z.eqb_eq in T. subst z. injection N as <-.
    now apply Qlt_not_le in L; apply L.
  - apply negb_false_iff, Qeq_bool_iff in T. injection N as <-.
    rewrite T in L. now apply Qlt_not_le in L; apply L.
Qed.

Lemma py_gt_over d b : py_gt d 60000 = Ok b -> (b = true <-> over_a_minute d).
Proof.
  unfold py_gt, over_a_minute. destruct (num_of d) as [q|]; [|discriminate].
  intros H. injection H as <-. rewrite Qltb_lt. split.
  - intros L. now exists q.
  - intros (q' & E & L). now injection E as ->.
Qed.

Lemma long_executions_spec log : forall bs,
  long_executions log = Ok bs ->
  forall agent action d advice,
    In (long_execution agent action d advice) bs
    <-> advice = slow_advice
        /\ over_a_minute d
        /\ exists e i o m, In e log /\ body e = AgentAction agent action i o d m.
Proof.
  induction log as [|e log IH]; simpl; intros bs H agent action d advice.
  - injection H as <-. simpl. split; [tauto|]. intros (_ & _ & e & ? & ? & ? & [] & _).
  - assert (SKIP : forall bs', long_executions log = Ok bs' ->
              (forall i o m, body e = AgentAction agent action i o d m ->
                             ~ over_a_minute d) ->
              (In (long_execution agent action d advice) bs'
               <-> advice = slow_advice /\ over_a_minute d
                   /\ exists e0 i o m, (e = e0 \/ In e0 log)
                        /\ body e0 = AgentAction agent action i o d m)).
    { intros bs' H' NO. rewrite (IH _ H'). split.
      - intros (A & O & e0 & i & o & m & I & B). repeat split; auto.
        exists e0, i, o, m. auto.
      - intros (A & O & e0 & i & o & m & [<-|I] & B).
        + exfalso. eapply NO; eauto.
        + repeat split; auto. exists e0, i, o, m. auto. }
    destruct (body e)
      as [? ? ?|ag act i0 o0 d0 m0|? ? ? ?|? ? ? ?|? ? ?|? ? ? ?|? ? ? ? ?|? ? ?]
      eqn:B;
      try (apply SKIP; [assumption | intros; discriminate]).
    destruct (truthy d0) eqn:T.
    + destruct (py_gt d0 60000) as [slow|] eqn:G; [|discriminate].
      destruct (long_executions log) as [rest|] eqn:R; [|discriminate].
      simpl in H. injection H as <-.
      pose proof (py_gt_over _ G) as GO.
      destruct slow.
      * simpl. rewrite (IH _ eq_refl). split.
        -- intros [E|(A & O & e0 & i & o & m & I & B')].
           ++ injection E as <- <- <- <-. repeat split; [now apply GO|].
              exists e. do 3 eexists. split; [now left|]. rewrite B. reflexivity.
           ++ repeat split; auto. exists e0, i, o, m. auto.
        -- intros (A & O & e0 & i & o & m & [<-|I] & B').
           ++ left. rewrite B in B'. injection B' as <- <- _ _ <- _.
              now rewrite A.
           ++ right. repeat split; auto. exists e0, i, o, m. auto.
      * apply SKIP; [reflexivity|].
        intros i o m E. injection E as _ _ _ _ <- _.
        intros O. apply GO in O. discriminate.
    + apply SKIP; [assumption|].
      intros i o m E. injection E as _ _ _ _ <- _.
      now apply falsy_not_over.
Qed.

(** C9.  In the report of a closed session, an [agent_action] event of the
    log has its [long_execution] entry among the bottlenecks exactly when
    its [duration_ms] is a number strictly greater than 60000. *)
Theorem bottleneck_threshold now final_status c c' files r :
  end_session now final_status c = (c', files, Ok r) ->
  forall e agent action i o d m,
    In e (event_log c') ->
    body e = AgentAction agent action i o d m ->
    (In (long_execution agent action d slow_advice) (bottlenecks r)
     <-> over_a_minute d).
Proof.
  unfold end_session. intros H e agent action i o d m I B.
  destruct (_generate_report _ _) as [r'|] eqn:G; [|discriminate].
  injection H as <- _ <-.
  unfold _generate_report in G.
  destruct (_calculate_agent_stats _); simpl in G; [|discriminate].
  unfold _identify_bottlenecks in G.
  destruct (long_executions _) as [slow|] eqn:L; simpl in G; [|discriminate].
  injection G as <-. simpl.
  rewrite in_app_iff, (long_executions_spec _ L).
  split.
  - intros [(_ & O & _)|U]; auto.
    destruct (filter is_unresolved _); simpl in U; [tauto|].
    destruct U as [U|[]]; discriminate.
  - intros O. left. repeat split; auto. exists e, i, o, m. auto.
Qed.

End RecorderProperties.

(* ================================================================== *)
(** * When [end_session] returns a report *)
(* ================================================================== *)

Section ReportExists.
Context {RT : Runtime}.

Lemma sum_durations_ok l : forall acc,
  Forall timed l -> exists q, sum_durations acc l = Ok q.
Proof.
  induction l as [|a l IH]; intros acc H; simpl; [eauto|].
  inversion H as [|? ? Ta Tl]; subst.
  destruct (truthy (duration_of a)) eqn:T; auto.
  unfold py_add. specialize (Ta T).
  destruct (num_of (duration_of a)); [simpl; auto | congruence].
Qed.

Lemma agent_stats_ok groups :
  Forall (fun g => Forall timed (snd g)) groups ->
  exists st, _calculate_agent_stats groups = Ok st.
Proof.
  induction groups as [|[agent acts] groups IH]; intros H; simpl; [eauto|].
  inversion H as [|? ? Ha Hg]; subst. simpl in Ha.
  destruct (sum_durations_ok 0%Q Ha) as [q ->]. simpl.
  destruct (IH Hg) as [st ->]. simpl. eauto.
Qed.

Lemma group_add_timed agent e g :
  timed e -> Forall (fun g => Forall timed (snd g)) g ->
  Forall (fun g => Forall timed (snd g)) (group_add agent e g).
Proof.
  intros Te. induction 1 as [|[a es] g Ha Hg IH]; simpl.
  - repeat constructor. assumption.
  - destruct (String.eqb agent a); constructor; auto.
    simpl in *. apply Forall_app. auto.
Qed.

Lemma fill_timed log : forall b,
  Forall timed log ->
  Forall (fun g => Forall timed (snd g)) (agent_actions b) ->
  Forall (fun g => Forall timed (snd g))
         (agent_actions (fold_left bucket_step log b)).
Proof.
  induction log as [|e log IH]; intros b H Hb; simpl; auto.
  inversion H; subst. apply IH; auto.
  unfold bucket_step. destruct (body e); simpl; auto using group_add_timed.
Qed.

Lemma long_executions_ok log :
  Forall timed log -> exists bs, long_executions log = Ok bs.
Proof.
  induction 1 as [|e log Te Tl [bs IH]]; simpl; [eauto|].
  unfold timed, duration_of in Te.
  destruct (body e) as [| ? ? ? ? d ? | | | | | |]; eauto.
  destruct (truthy d) eqn:T; eauto.
  unfold py_gt. specialize (Te eq_refl).
  destruct (num_of d); [|congruence].
  simpl. rewrite IH. simpl. eauto.
Qed.

Lemma generate_report_ok now c :
  timed_log c -> exists r, _generate_report now c = Ok r.
Proof.
  intros H. unfold _generate_report.
  destruct (agent_stats_ok (fill_timed no_buckets H (Forall_nil _))) as [st E].
  unfold fill_buckets. rewrite E. simpl.
  unfold _identify_bottlenecks.
  destruct (long_executions_ok H) as [bs ->]. simpl. eauto.
Qed.

Lemma record_event_timed ts p c :
  timed_log c ->
  (forall a b i o d m, p = AgentAction a b i o d m ->
                       truthy d = true -> num_of d <> None) ->
  timed_log (_record_event ts p c).
Proof.
  unfold timed_log. intros H Hp. rewrite record_event_log.
  apply Forall_app. split; auto. constructor; [|constructor].
  unfold timed, pushed, duration_of. simpl.
  destruct p; try discriminate. eauto.
Qed.

(** [end_session] returns a report on every log whose recorded durations
    are numbers, and then writes its two files. *)
Lemma end_session_ok now final_status c :
  timed_log c ->
  exists r,
    end_session now final_status c
    = (_record_event (isoformat now)
         (SessionEnd final_status (elapsed now c) (List.length (event_log c))) c,
       _save_chronicle
         (_record_event (isoformat now)
            (SessionEnd final_status (elapsed now c) (List.length (event_log c))) c)
         r,
       Ok r).
Proof.
  intros H. unfold end_session.
  destruct (generate_report_ok now (c := _record_event (isoformat now)
              (SessionEnd final_status (elapsed now c) (List.length (event_log c))) c))
    as [r ->]; eauto.
  apply record_event_timed; auto. intros; discriminate.
Qed.

End ReportExists.

(* ================================================================== *)
(** * Properties of the pipeline run *)
(* ================================================================== *)

Section PipelineProperties.
Context {RT : Runtime}.
Variable clock : nat -> Q.
Context {ST : Stages}.

Lemma chronicle_end_ok final_status s :
  timed_log (self_chronicle s) ->
  exists r, chronicle_end clock final_status s = (Ok r, closed clock final_status r s).
Proof.
  intros H. unfold chronicle_end.
  destruct (end_session_ok (clock (ticks s)) final_status H) as [r ->].
  exists r. reflexivity.
Qed.

Lemma timed_start now fid trig c : timed_log (snd (start_session now fid trig c)).
Proof.
  unfold start_session. simpl. apply record_event_timed.
  - constructor.
  - intros; discriminate.
Qed.


Lemma timed_other now c :
  timed_log c ->
  (forall f t a summ, timed_log (record_handoff now f t a summ c))
  /\ (forall a d r alts, timed_log (record_decision now a d r alts c))
  /\ (forall ags act r, timed_log (record_collaboration now ags act r c))
  /\ (forall st status m, timed_log (record_checkpoint now st status m c))
  /\ (forall a ty d r, timed_log (record_issue now a ty d r c)).
Proof.
  intros H. repeat split; intros;
    apply record_event_timed; auto; intros; discriminate.
Qed.

End PipelineProperties.

(** ** What a computation may do to the state *)

Section Frames.
Context {RT : Runtime}.
Variable clock : nat -> Q.

Lemma framed_bind P N A B (m : M A) (f : A -> M B) :
  framed P N m -> (forall a, framed P N (f a)) -> framed P N (bind m f).
Proof.
  intros Hm Hf s. unfold bind.
  destruct (Hm s) as ((le & L & PL) & (lc & C & NC & R) & D).
  destruct (m s) as [[a|e] s1]; simpl in *.
  - destruct (Hf a s1) as ((le' & L' & PL') & (lc' & C' & NC' & R') & D').
    repeat split.
    + exists (le ++ le')%list. rewrite L', L, app_assoc. split; auto.
      apply Forall_app; auto.
    + exists (lc ++ lc')%list. rewrite C', C, app_assoc. split; auto.
      split; [apply Forall_app; auto|].
      intros n e' I. apply in_app_iff in I. destruct I as [I|I]; eauto.
      apply R in I. discriminate.
    + congruence.
  - split; [exists le; auto|].
    split; [exists lc; split; [|split]; try assumption | assumption].
    intros n e0 I. apply R in I. now injection I as <-.
Qed.

(** A computation that touches neither the log, the calls nor the disk. *)
Lemma framed_silent P N A (m : M A) :
  (forall s, log_of (snd (m s)) = log_of s
             /\ calls (snd (m s)) = calls s
             /\ disk (snd (m s)) = disk s) ->
  framed P N m.
Proof.
  intros H s. destruct (H s) as (L & C & D). repeat split.
  - exists []. rewrite L, app_nil_r. auto.
  - exists []. rewrite C, app_nil_r. repeat split; auto. intros ? ? [].
  - now rewrite D.
Qed.

Lemma framed_call P (N : string -> Prop) name o :
  N name -> framed P N (call_stage name o).
Proof.
  intros H s. repeat split.
  - exists []. unfold log_of. simpl. rewrite app_nil_r. auto.
  - exists [(name, o)]. simpl. repeat split; auto.
    intros n e [E|[]]. now injection E as _ ->.
Qed.

Lemma framed_do (P : event -> Prop) N (op : Q -> recorder -> recorder) :
  (forall now c, exists e,
      event_log (op now c) = (event_log c ++ [e])%list /\ P e) ->
  framed P N (chronicle_do clock op).
Proof.
  intros H s. repeat split.
  - destruct (H (clock (ticks s)) (self_chronicle s)) as (e & L & Pe).
    exists [e]. unfold log_of. simpl. rewrite L. auto.
  - exists []. simpl. rewrite app_nil_r. repeat split; auto. intros ? ? [].
Qed.

Lemma end_session_log now final_status c :
  event_log (fst (fst (end_session now final_status c)))
  = (event_log c
     ++ [pushed (isoformat now)
           (SessionEnd final_status (elapsed now c) (List.length (event_log c)))
           (event_log c)])%list.
Proof. unfold end_session. destruct (_generate_report _ _); reflexivity. Qed.

Lemma end_session_files now final_status c :
  records_written
    (map (fun pf => (fst pf, ChronicleFile (snd pf)))
       (snd (fst (end_session now final_status c)))) = 0.
Proof. unfold end_session. destruct (_generate_report _ _); reflexivity. Qed.

Lemma records_written_app d d' :
  records_written (d ++ d') = records_written d + records_written d'.
Proof. unfold records_written. now rewrite filter_app, length_app. Qed.

Lemma framed_end (P : event -> Prop) N final_status :
  (forall ts d n l, P (pushed ts (SessionEnd final_status d n) l)) ->
  framed P N (chronicle_end clock final_status).
Proof.
  intros H s. unfold chronicle_end.
  pose proof (end_session_log (clock (ticks s)) final_status (self_chronicle s)) as L.
  pose proof (end_session_files (clock (ticks s)) final_status (self_chronicle s)) as F.
  destruct (end_session _ _ _) as [[c files] r]. simpl in *.
  repeat split.
  - eexists. unfold log_of. simpl. rewrite L. eauto.
  - exists []. rewrite app_nil_r. repeat split; auto. intros ? ? [].
  - rewrite records_written_app, F. lia.
Qed.

End Frames.

(** Decomposition of a computation along its binds. *)
Ltac event_side :=
  solve [ reflexivity
        | unfold timed, pushed, duration_of; cbn; congruence
        | cbn; tauto
        | cbn; congruence ].

Ltac name_side :=
  solve [ exact I | hnf; intuition discriminate | hnf; cbn; tauto ].

Ltac framed_step :=
  lazymatch goal with
  | |- framed _ _ (bind _ _) => apply framed_bind; [|intros ?]
  | |- framed _ _ (call_stage _ _) => apply framed_call; name_side
  | |- framed _ _ (chronicle_do _ _) =>
      apply framed_do; intros ? ?; eexists; split; [reflexivity | event_side]
  | |- framed _ _ (chronicle_end _ _) =>
      apply framed_end; intros ? ? ? ?; event_side
  | |- framed _ _ (if ?b then _ else _) => destruct b
  | |- framed _ _ _ => apply framed_silent; intros ?; repeat split
  end.

Ltac framed_auto :=
  unfold step_reverse_engineer, step_web_scraper, step_pm, step_dev, step_qa,
         quality_gate, step_deploy, handler;
  repeat framed_step.

(** Symbolic execution of one step: reduce the monadic code as far as it
    goes, then split on the stage result, interpreter operation or test
    that blocks it. *)
Ltac reduce_run :=
  cbv beta iota zeta delta
    [bind ret lift call_stage add_step chronicle_do set_status set_error
     set_completed set_report set_results set_chronicle save_results
     _print_summary];
  cbn [fst snd self_chronicle results calls disk ticks
       pipeline_id started_at steps status feature_id completed_at error
       chronicle].

Ltac not_a_match x :=
  lazymatch x with
  | match _ with _ => _ end => fail
  | _ => idtac
  end.

Ltac split_run :=
  match goal with
  | H : ?x = _ |- context [match ?x with Ok _ => _ | Exn _ => _ end] =>
      rewrite H
  | |- context [match ?x with Ok _ => _ | Exn _ => _ end] =>
      not_a_match x; destruct x eqn:?
  | |- context [if ?b then _ else _] =>
      not_a_match b; destruct b eqn:?
  end.

Ltac run_step := reduce_run; split_run.

Section RunFrames.
Context {RT : Runtime}.
Variable clock : nat -> Q.
Context {ST : Stages}.

Lemma try_body_eq idea tech_stack source_codebase :
  try_body clock idea tech_stack source_codebase
  = bind (research clock idea tech_stack source_codebase) (fun it =>
    bind (step_pm clock (fst it) (snd it)) (fun fid =>
    bind (step_dev clock fid) (fun _ => downstream clock fid))).
Proof. reflexivity. Qed.

Lemma try_body_timed idea tech_stack source_codebase :
  framed timed any_name (try_body clock idea tech_stack source_codebase).
Proof.
  unfold try_body. destruct (given source_codebase); framed_auto.
Qed.

Lemma framed_timed A (m : M A) N s :
  framed timed N m -> timed_log (self_chronicle s) ->
  timed_log (self_chronicle (snd (m s))).
Proof.
  intros F H. destruct (F s) as ((le & L & PL) & _).
  unfold timed_log. fold (log_of (snd (m s))). rewrite L.
  apply Forall_app. auto.
Qed.

(** [end_session] changes neither [results] nor the calls made. *)
Lemma chronicle_end_keeps final_status s :
  results (snd (chronicle_end clock final_status s)) = results s
  /\ calls (snd (chronicle_end clock final_status s)) = calls s.
Proof.
  unfold chronicle_end. destruct (end_session _ _ _) as [[c files] r].
  split; reflexivity.
Qed.

(** The [except] block on a log of timed events: it does not raise. *)
Lemma handler_ok e s :
  timed_log (self_chronicle s) ->
  exists s',
    handler clock e s = (Ok tt, s')
    /\ status (results s') = Some "failed"
    /\ error (results s') = Some (exn_str e)
    /\ pipeline_id (results s') = pipeline_id (results s)
    /\ calls s' = calls s
    /\ records_written (disk s') = records_written (disk s)
    /\ exists ts ts' d n,
         log_of s'
         = (log_of s
            ++ [ pushed ts (Issue "pipeline" "exception" (exn_str e) None false)
                   (log_of s);
                 {| timestamp := ts'; sequence_number := n;
                    body := SessionEnd "failed" d (S (List.length (log_of s))) |} ])%list.
Proof.
  intros H. unfold handler. reduce_run.
  match goal with
  | |- context [chronicle_end ?cl ?st ?s0] =>
      destruct (@chronicle_end_ok _ cl st s0) as [r E]
  end.
  { cbn [self_chronicle]. apply timed_other. exact H. }
  rewrite E. unfold closed. cbn [self_chronicle results calls disk ticks].
  eexists. split; [reflexivity|].
  cbn [self_chronicle results calls disk ticks status error pipeline_id].
  repeat split.
  - rewrite records_written_app. cbn. lia.
  - unfold log_of. cbn [self_chronicle].
    do 4 eexists. unfold record_issue. rewrite !record_event_log.
    rewrite <- app_assoc. cbn [app]. f_equal. f_equal. f_equal.
    unfold pushed. f_equal. rewrite length_app. cbn. f_equal. f_equal. lia.
Qed.

Lemma run_eq idea tech_stack source_codebase c d t :
  run_full_pipeline clock idea tech_stack source_codebase c d t
  = guarded clock (try_body clock idea tech_stack source_codebase)
      (start_state clock idea c d t).
Proof. reflexivity. Qed.

Lemma start_state_timed idea c d t :
  timed_log (self_chronicle (start_state clock idea c d t)).
Proof. apply timed_start. Qed.

(** The three ways a run ends: by the [return] of the quality gate, at the
    end of the [try] block, or in the [except] block. *)
Lemma run_cases idea tech_stack source_codebase c d t :
  exists b s1,
    try_body clock idea tech_stack source_codebase (start_state clock idea c d t)
    = (b, s1)
    /\ timed_log (self_chronicle s1)
    /\ match b with
       | Ok true =>
           run_full_pipeline clock idea tech_stack source_codebase c d t
           = (Ok (results s1), s1)
       | Ok false =>
           run_full_pipeline clock idea tech_stack source_codebase c d t
           = (Ok (results s1), snd (save_results s1))
       | Exn e =>
           exists s2,
             handler clock e s1 = (Ok tt, s2)
             /\ run_full_pipeline clock idea tech_stack source_codebase c d t
                = (Ok (results s2), snd (save_results s2))
       end.
Proof.
  rewrite run_eq. unfold guarded.
  pose proof (framed_timed (start_state clock idea c d t)
                (try_body_timed idea tech_stack source_codebase)
                (start_state_timed idea c d t)) as T.
  destruct (try_body _ _ _ _ _) as [[[|]|e] s1]; cbn [snd] in T;
    exists s1 || idtac.
  - eexists _, s1. repeat split; auto.
  - eexists _, s1. repeat split; auto.
  - eexists _, s1. split; [reflexivity|]. split; [exact T|].
    destruct (handler_ok e s1 T) as (s2 & -> & _). exists s2. split; reflexivity.
Qed.

End RunFrames.

Ltac end_session_any :=
  match goal with
  | |- context [chronicle_end ?cl ?st ?s] =>
      let K := fresh "K" in
      pose proof (chronicle_end_keeps cl st s) as K;
      destruct (chronicle_end cl st s) as [[?|?] ?];
      cbn [fst snd results calls] in K;
      let Kr := fresh "Kr" in
      let Kc := fresh "Kc" in
      destruct K as [Kr Kc]
  end.

Ltac by_results :=
  repeat match goal with
         | H : results _ = _ |- _ => rewrite H; clear H
         | H : calls _ = _ |- _ => rewrite H; clear H
         end;
  cbn [results calls status]; auto.

Section RunStatus.
Context {RT : Runtime}.
Variable clock : nat -> Q.
Context {ST : Stages}.

(** ** The status with which the [try] block ends *)

Lemma gate_status qa_result s :
  match quality_gate clock qa_result s with
  | (Ok true, s') => status (results s') = Some "failed_qa"
  | (Ok false, s') => s' = s
  | (Exn _, _) => True
  end.
Proof.
  unfold quality_gate.
  repeat first [run_step | reduce_run; end_session_any]; reduce_run; auto.
  by_results.
Qed.

Lemma deploy_status fid s :
  match step_deploy clock fid s with
  | (Ok _, s') => status (results s') = Some "success"
  | (Exn _, _) => True
  end.
Proof.
  unfold step_deploy.
  repeat first [run_step | reduce_run; end_session_any]; reduce_run; auto.
  all: by_results.
Qed.

Lemma try_body_status idea tech_stack source_codebase s :
  match try_body clock idea tech_stack source_codebase s with
  | (Ok true, s') => status (results s') = Some "failed_qa"
  | (Ok false, s') => status (results s') = Some "success"
  | (Exn _, _) => True
  end.
Proof.
  rewrite try_body_eq. unfold bind at 1.
  destruct (research _ _ _ _ _) as [[it|] s1]; auto.
  unfold bind at 1. destruct (step_pm _ _ _ _) as [[fid|] s2]; auto.
  unfold bind at 1. destruct (step_dev _ _ _) as [[|] s3]; auto.
  unfold downstream. unfold bind at 1.
  destruct (step_qa _ _ _) as [[qa|] s4]; auto.
  unfold bind at 1. pose proof (gate_status qa s4) as G.
  destruct (quality_gate _ _ _) as [[[|]|] s5]; auto.
  subst s5. unfold bind at 1. pose proof (deploy_status fid s4) as D.
  destruct (step_deploy _ _ _) as [[|] s6]; auto.
Qed.

End RunStatus.

Section RunOutcome.
Context {RT : Runtime}.
Variable clock : nat -> Q.
Context {ST : Stages}.




End RunOutcome.

(* ================================================================== *)
(** * The quality gate *)
(* ================================================================== *)

Section QualityGate.
Context {RT : Runtime}.
Variable clock : nat -> Q.
Context {ST : Stages}.




Lemma try_body_split idea tech_stack source_codebase s :
  try_body clock idea tech_stack source_codebase s
  = bind (upstream clock idea tech_stack source_codebase) (downstream clock) s.
Proof.
  rewrite try_body_eq. unfold upstream, bind.
  destruct (research _ _ _ _ _) as [[it|] s1]; auto.
  destruct (step_pm _ _ _ _) as [[fid|] s2]; auto.
  destruct (step_dev _ _ _) as [[|] s3]; auto.
Qed.

Lemma upstream_framed idea tech_stack source_codebase :
  framed timed upstream_name (upstream clock idea tech_stack source_codebase).
Proof.
  unfold upstream, research. destruct (given source_codebase); framed_auto.
Qed.

Lemma bind_assoc A B C (m : M A) (f : A -> M B) (g : B -> M C) s :
  bind (bind m f) g s = bind m (fun a => bind (f a) g) s.
Proof. unfold bind. destruct (m s) as [[a|e] s1]; reflexivity. Qed.

(** From testing on, the stage calls are the call of the testing stage and
    then, at most, calls of the deployment stage. *)
Lemma downstream_calls fid s :
  exists lc,
    calls (snd (downstream clock fid s))
    = (calls s ++ ("qa", _run_qa_agent fid) :: lc)%list
    /\ Forall (fun c => deploy_name (fst c)) lc.
Proof.
  unfold downstream, step_qa. rewrite bind_assoc.
  unfold bind at 1. cbn [call_stage].
  destruct (_run_qa_agent fid) as [qa|e].
  - match goal with
    | |- context [bind ?m ?k ?s0] =>
        assert (F : framed timed deploy_name (bind m k)) by framed_auto;
        destruct (F s0) as (_ & (lc & C & N & _) & _)
    end.
    exists lc. rewrite C. cbn [calls]. rewrite <- app_assoc. auto.
  - exists []. cbn [snd calls]. auto.
Qed.







(** The calls of a run are those of the [try] block. *)
Lemma run_calls_eq idea tech_stack source_codebase c d t :
  calls (snd (run_full_pipeline clock idea tech_stack source_codebase c d t))
  = calls (snd (try_body clock idea tech_stack source_codebase
                  (start_state clock idea c d t))).
Proof.
  destruct (run_cases clock idea tech_stack source_codebase c d t)
    as (b & s1 & E & T & R).
  rewrite E. destruct b as [[|]|e].
  - now rewrite R.
  - now rewrite R.
  - destruct R as (s2 & H & R). rewrite R. cbn [snd save_results calls].
    destruct (handler_ok clock e s1 T) as (s2' & H' & _ & _ & _ & Hc & _).
    rewrite H in H'. injection H' as <-. exact Hc.
Qed.

(** A run in which the testing stage returned [qa_result]: the steps before
    testing returned, and testing was called on their [feature_id]. *)
Lemma run_reaches_testing idea tech_stack source_codebase c d t qa_result :
  In ("qa", Ok qa_result)
     (calls (snd (run_full_pipeline clock idea tech_stack source_codebase c d t))) ->
  exists fid s,
    upstream clock idea tech_stack source_codebase (start_state clock idea c d t)
    = (Ok fid, s)
    /\ timed_log (self_chronicle s)
    /\ Forall (fun c => upstream_name (fst c)) (calls s)
    /\ _run_qa_agent fid = Ok qa_result.
Proof.
  rewrite run_calls_eq, try_body_split. intros I.
  destruct (upstream_framed idea tech_stack source_codebase
              (start_state clock idea c d t)) as (_ & (lc & C & N & _) & _).
  pose proof (framed_timed (start_state clock idea c d t)
                (upstream_framed idea tech_stack source_codebase)
                (start_state_timed clock idea c d t)) as T.
  unfold bind in I.
  destruct (upstream _ _ _ _ _) as [[fid|e] s]; cbn [snd start_state calls app] in *;
    subst lc.
  - exists fid, s. repeat split; auto.
    destruct (downstream_calls fid s) as (lc & C & D). rewrite C in I.
    apply in_app_iff in I. destruct I as [I|[I|I]].
    + rewrite Forall_forall in N. apply N in I. destruct I as [I _]. now elim I.
    + now injection I.
    + rewrite Forall_forall in D. apply D in I. discriminate.
  - rewrite Forall_forall in N. apply N in I. destruct I as [I _]. now elim I.
Qed.


End QualityGate.

Section GateTheorems.
Context {RT : Runtime}.
Variable clock : nat -> Q.
Context {ST : Stages}.




Lemma step_qa_result fid s qa_result :
  fst (step_qa clock fid s) = Ok qa_result -> _run_qa_agent fid = Ok qa_result.
Proof.
  unfold step_qa. repeat run_step; reduce_run; try discriminate.
  intros H. now injection H as <-.
Qed.

Lemma gate_passed qa_result s :
  fst (quality_gate clock qa_result s) = Ok false ->
  exists v, gate_score qa_result = Ok v /\ py_lt v 50 = Ok false.
Proof.
  unfold quality_gate.
  repeat first [run_step | reduce_run; end_session_any]; reduce_run;
    try discriminate.
  eauto.
Qed.

(** The deployment stage is called only after the gate has computed, from
    the result of testing, a score that is not below 50. *)
Lemma deployment_requires_passing_score
    idea tech_stack source_codebase c d t qa_result o :
  let run := run_full_pipeline clock idea tech_stack source_codebase c d t in
  In ("qa", Ok qa_result) (calls (snd run)) ->
  In ("deploy", o) (calls (snd run)) ->
  exists v, gate_score qa_result = Ok v /\ py_lt v 50 = Ok false.
Proof.
  cbv zeta. intros I D.
  destruct (@run_reaches_testing _ clock _ _ _ _ _ _ _ _ I)
    as (fid & s & U & T & N & Hqa).
  assert (ND : forall s' o', Forall (fun c => other_name (fst c)) (calls s') ->
                             ~ In ("deploy", o') (calls s')).
  { intros s' o' F J. rewrite Forall_forall in F. apply F in J. now apply J. }
  assert (N0 : Forall (fun c => other_name (fst c)) (calls s)).
  { eapply Forall_impl; [|exact N]. intros a [_ A]. exact A. }
  rewrite run_calls_eq, try_body_split in D. unfold bind at 1 in D.
  rewrite U in D. unfold downstream, bind at 1 in D.
  assert (F1 : framed timed other_name (step_qa clock fid)) by framed_auto.
  destruct (F1 s) as (_ & (lc1 & C1 & N1 & _) & _).
  pose proof (@step_qa_result fid s) as R1.
  destruct (step_qa clock fid s) as [[qa|e] s1]; cbn [fst snd] in *.
  2: { exfalso. apply (ND s1 o); [|exact D]. rewrite C1. apply Forall_app. auto. }
  specialize (R1 qa eq_refl). rewrite Hqa in R1. injection R1 as <-.
  assert (F2 : framed timed other_name (quality_gate clock qa_result)) by framed_auto.
  destruct (F2 s1) as (_ & (lc2 & C2 & N2 & _) & _).
  pose proof (@gate_passed qa_result s1) as G.
  unfold bind at 1 in D.
  destruct (quality_gate clock qa_result s1) as [[[|]|e] s2]; cbn [fst snd] in *.
  - exfalso. apply (ND s2 o); [|exact D].
    rewrite C2, C1. repeat (apply Forall_app; split); auto.
  - now apply G.
  - exfalso. apply (ND s2 o); [|exact D].
    rewrite C2, C1. repeat (apply Forall_app; split); auto.
Qed.


End GateTheorems.

(* ================================================================== *)
(** * The order of the events of a stage *)
(* ================================================================== *)

Section StageOrder.
Context {RT : Runtime}.
Variable clock : nat -> Q.
Context {ST : Stages}.

Lemma places_app place l l' :
  places place (l ++ l') = (places place l ++ places place l')%list.
Proof. apply flat_map_app. Qed.

Lemma places_unplaced place l :
  Forall (unplaced place) l -> places place l = [].
Proof.
  induction 1 as [|e l U _ IH]; simpl; auto. unfold unplaced in U. now rewrite U.
Qed.

Lemma places_In place l i e a :
  nth_error l i = Some e -> place e = Some a -> In a (places place l).
Proof.
  intros H P. apply nth_error_In in H. unfold places.
  apply in_flat_map. exists e. split; auto. rewrite P. now left.
Qed.

Lemma sorted_in_order place log :
  StronglySorted le (places place log) -> in_order place log.
Proof.
  induction log as [|e log IH]; intros S i j ei ej a b Hi Hj Pi Pj Lt.
  - destruct i; discriminate.
  - simpl in S.
    assert (St : StronglySorted le (places place log)).
    { destruct (place e); simpl in S; auto. now inversion S. }
    destruct i as [|i], j as [|j]; simpl in Hi, Hj.
    + injection Hi as <-. injection Hj as <-. rewrite Pi in Pj.
      injection Pj as <-. lia.
    + lia.
    + injection Hj as <-. rewrite Pj in S. simpl in S.
      inversion S as [|? ? _ F]; subst.
      rewrite Forall_forall in F.
      specialize (F a (places_In place log i Hi Pi)). lia.
    + apply -> Nat.succ_lt_mono. eapply IH; eauto.
Qed.

Lemma framed_unplaced place N A (m : M A) s :
  framed (unplaced place) N m ->
  Forall (unplaced place) (log_of s) ->
  Forall (unplaced place) (log_of (snd (m s))).
Proof.
  intros F H. destruct (F s) as ((le & L & PL) & _).
  rewrite L. apply Forall_app. auto.
Qed.

Lemma framed_places place N A (m : M A) s :
  framed (unplaced place) N m ->
  places place (log_of (snd (m s))) = places place (log_of s).
Proof.
  intros F. destruct (F s) as ((le & L & PL) & _).
  now rewrite L, places_app, (places_unplaced PL), app_nil_r.
Qed.

Lemma ordered_framed place N A (m : M A) :
  framed (unplaced place) N m -> ordered place m.
Proof.
  intros F s H. rewrite (places_unplaced (framed_unplaced s F H)). constructor.
Qed.

Lemma ordered_skip place N A B (m : M A) (f : A -> M B) :
  framed (unplaced place) N m -> (forall a, ordered place (f a)) ->
  ordered place (bind m f).
Proof.
  intros F O s H. unfold bind.
  pose proof (framed_unplaced s F H) as H1.
  destruct (m s) as [[a|e] s1]; cbn [snd] in *.
  - now apply O.
  - rewrite (places_unplaced H1). constructor.
Qed.

Lemma ordered_here place N A B (m : M A) (f : A -> M B) :
  ordered place m -> (forall a, framed (unplaced place) N (f a)) ->
  ordered place (bind m f).
Proof.
  intros O F s H. unfold bind. specialize (O s H).
  destruct (m s) as [[a|e] s1]; cbn [snd] in *; auto.
  now rewrite (framed_places s1 (F a)).
Qed.

Lemma chronicle_end_log final_status s :
  log_of (snd (chronicle_end clock final_status s))
  = (log_of s
     ++ [pushed (isoformat (clock (ticks s)))
           (SessionEnd final_status
              (elapsed (clock (ticks s)) (self_chronicle s))
              (List.length (log_of s)))
           (log_of s)])%list.
Proof.
  unfold chronicle_end, log_of.
  pose proof (end_session_log (clock (ticks s)) final_status (self_chronicle s)) as L.
  destruct (end_session _ _ _) as [[c files] r]. exact L.
Qed.

Ltac end_session_logged :=
  match goal with
  | |- context [chronicle_end ?cl ?st ?s] =>
      let K := fresh "K" in
      pose proof (chronicle_end_log st s) as K;
      destruct (chronicle_end cl st s) as [[?|?] ?];
      cbn [fst snd] in K
  end.

(** The events of one step, read off the state it ends in. *)
Ltac stage_events H :=
  unfold log_of in *; cbn [self_chronicle] in *;
  repeat match goal with
         | K : event_log _ = _ |- _ => rewrite K; clear K
         end;
  unfold record_agent_action, record_handoff, record_decision,
         record_checkpoint, record_collaboration, record_issue;
  rewrite ?record_event_log, ?places_app, (places_unplaced H);
  cbn; repeat constructor; lia.

Ltac ordered_step :=
  intros s H;
  repeat first [run_step | reduce_run; end_session_logged];
  reduce_run; stage_events H.

Lemma step_pm_ordered idea tech_stack :
  ordered (action_checkpoint_handoff "pm" "specification")
          (step_pm clock idea tech_stack).
Proof. unfold step_pm. ordered_step. Qed.

Lemma step_dev_ordered fid :
  ordered (action_checkpoint_handoff "dev" "development") (step_dev clock fid).
Proof. unfold step_dev. ordered_step. Qed.

Lemma step_deploy_ordered fid :
  ordered (action_handoff_checkpoint "deploy" "deployment")
          (step_deploy clock fid).
Proof. unfold step_deploy. ordered_step. Qed.

Lemma try_body_pm_ordered idea tech_stack source_codebase :
  ordered (action_checkpoint_handoff "pm" "specification")
          (try_body clock idea tech_stack source_codebase).
Proof.
  rewrite try_body_eq.
  apply ordered_skip with (N := any_name).
  { unfold research. destruct (given source_codebase); framed_auto. }
  intros it. apply ordered_here with (N := any_name).
  { apply step_pm_ordered. }
  intros fid. unfold downstream. framed_auto.
Qed.

Lemma try_body_dev_ordered idea tech_stack source_codebase :
  ordered (action_checkpoint_handoff "dev" "development")
          (try_body clock idea tech_stack source_codebase).
Proof.
  rewrite try_body_eq.
  apply ordered_skip with (N := any_name).
  { unfold research. destruct (given source_codebase); framed_auto. }
  intros it. apply ordered_skip with (N := any_name); [framed_auto|].
  intros fid. apply ordered_here with (N := any_name).
  { apply step_dev_ordered. }
  intros _. unfold downstream. framed_auto.
Qed.

Lemma try_body_deploy_ordered idea tech_stack source_codebase :
  ordered (action_handoff_checkpoint "deploy" "deployment")
          (try_body clock idea tech_stack source_codebase).
Proof.
  rewrite try_body_eq.
  apply ordered_skip with (N := any_name).
  { unfold research. destruct (given source_codebase); framed_auto. }
  intros it. apply ordered_skip with (N := any_name); [framed_auto|].
  intros fid. apply ordered_skip with (N := any_name); [framed_auto|].
  intros _. unfold downstream.
  apply ordered_skip with (N := any_name); [framed_auto|].
  intros qa. apply ordered_skip with (N := any_name); [framed_auto|].
  intros [|].
  - apply ordered_framed with (N := any_name). framed_auto.
  - apply ordered_here with (N := any_name).
    + apply step_deploy_ordered.
    + intros _. framed_auto.
Qed.

(** What the run adds to the log of the [try] block has no place in the
    order of a stage. *)
Lemma run_places place idea tech_stack source_codebase c d t :
  (forall e, (forall a b i o du m, body e <> AgentAction a b i o du m) ->
             (forall a b x y, body e <> Checkpoint a b x y) ->
             (forall a b x y, body e <> Handoff a b x y) ->
             place e = None) ->
  ordered place (try_body clock idea tech_stack source_codebase) ->
  in_order place
    (log_of (snd (run_full_pipeline clock idea tech_stack source_codebase c d t))).
Proof.
  intros Free O. apply sorted_in_order.
  destruct (run_cases clock idea tech_stack source_codebase c d t)
    as (b & s1 & E & T & R).
  assert (S1 : StronglySorted le (places place (log_of s1))).
  { specialize (O (start_state clock idea c d t)). rewrite E in O. apply O.
    unfold log_of, start_state. cbn [self_chronicle].
    rewrite start_session_log. repeat constructor.
    apply Free; intros; discriminate. }
  destruct b as [[|]|e].
  - now rewrite R.
  - now rewrite R.
  - destruct R as (s2 & H & R). rewrite R.
    destruct (handler_ok clock e s1 T)
      as (s2' & H' & _ & _ & _ & _ & _ & (ts & ts' & dur & n & L)).
    rewrite H in H'. injection H' as <-.
    unfold log_of in *. cbn [snd save_results self_chronicle]. rewrite L.
    rewrite places_app.
    replace (places place [_; _]) with (@nil nat); [now rewrite app_nil_r|].
    cbn. rewrite !Free; auto; intros; discriminate.
Qed.

(** C8, as the code has it.  In the log of every run, the events of the
    specification stage and those of the development stage stand in the
    order action, checkpoint, handoff; those of the deployment stage stand
    in the order action, handoff, checkpoint. *)
Theorem stage_events_in_order idea tech_stack source_codebase c d t :
  let log :=
    log_of (snd (run_full_pipeline clock idea tech_stack source_codebase c d t)) in
  in_order (action_checkpoint_handoff "pm" "specification") log
  /\ in_order (action_checkpoint_handoff "dev" "development") log
  /\ in_order (action_handoff_checkpoint "deploy" "deployment") log.
Proof.
  cbv zeta. repeat split; apply run_places;
    auto using try_body_pm_ordered, try_body_dev_ordered,
               try_body_deploy_ordered;
    intros e A C H;
    unfold action_checkpoint_handoff, action_handoff_checkpoint;
    destruct (body e) as [| a b i o du m | a b x y | | | a b x y | |];
    try reflexivity;
    solve [ now elim (A a b i o du m)
          | now elim (C a b x y)
          | now elim (H a b x y) ].
Qed.

End StageOrder.

(* ================================================================== *)
(** * The testing stage of the source *)
(* ================================================================== *)

Section SourceTesting.
Context {AG : Agents}.

Lemma subscript_dict v k x :
  py_subscript v k = Ok x -> exists d, v = VDict d /\ lookup k d = Some x.
Proof.
  unfold py_subscript. destruct v; try discriminate.
  destruct (lookup k d) eqn:L; [|discriminate].
  intros H. injection H as <-. eauto.
Qed.

(** When [_run_qa_agent] as the source defines it returns, its result
    holds the score: the method reads [result["summary"]["overall_score"]]
    itself. *)
Lemma source_testing_result_scored fid qa_result :
  Source._run_qa_agent fid = Ok qa_result -> exists v, has_score qa_result v.
Proof.
  unfold Source._run_qa_agent.
  destruct (test_feature fid _) as [result|]; [cbn|discriminate].
  destruct (py_subscript result "summary") as [summary|] eqn:S; [cbn|discriminate].
  destruct (py_subscript summary "overall_score") as [score|] eqn:O;
    [cbn|discriminate].
  destruct (py_subscript summary "status") as [st|]; [cbn|discriminate].
  intros H. injection H as <-.
  destruct (subscript_dict _ _ S) as (d & -> & Ld).
  destruct (subscript_dict _ _ O) as (sm & -> & Lsm).
  exists score. unfold has_score. do 3 eexists.
  split; [reflexivity|]. cbn. split; [reflexivity|]. split; eassumption.
Qed.

(** When the report of the testing agent has no summary, [_run_qa_agent]
    raises [KeyError]. *)
Lemma source_testing_needs_summary fid d :
  test_feature fid ["unit"; "integration"] = Ok (VDict d) ->
  lookup "summary" d = None ->
  Source._run_qa_agent fid = Exn (Builtin (KeyError "summary")).
Proof.
  intros T L. unfold Source._run_qa_agent. rewrite T. cbn. now rewrite L.
Qed.

End SourceTesting.

(* ================================================================== *)
(** * The properties on the runs to evaluate *)
(* ================================================================== *)

(** The report of the demo session counts its nine events, two handoffs,
    one decision and three agents. *)
Lemma report_summary_counts_witness :
  exists c' files r,
    end_session (RT := demo_runtime) 9%Q "success" demo_session
    = (c', files, Ok r)
    /\ total_events (report_summary r) = 9
    /\ total_handoffs (report_summary r) = 2
    /\ total_decisions (report_summary r) = 1
    /\ total_issues (report_summary r) = 0
    /\ total_collaborations (report_summary r) = 0
    /\ total_agents_involved (report_summary r) = 3.
Proof.
  do 3 eexists. split; [vm_compute; reflexivity|].
  edestruct (@report_summary_counts demo_runtime 9%Q "success" demo_session)
    as (_ & E & H & D & I & C & A); [vm_compute; reflexivity|].
  rewrite E, H, D, I, C, A. vm_compute. repeat split.
Defined.

(** An action of 60001 ms is among the bottlenecks of the report, an
    action of 60000 ms is not. *)
Lemma bottleneck_threshold_witness :
  exists c' files r,
    end_session (RT := demo_runtime) 4%Q "success" timing_session
    = (c', files, Ok r)
    /\ In (long_execution "dev" "generate_code" (VInt 60001) slow_advice)
          (bottlenecks r)
    /\ ~ In (long_execution "qa" "test_feature" (VInt 60000) slow_advice)
            (bottlenecks r).
Proof.
  do 3 eexists. split; [vm_compute; reflexivity|]. split.
  - eapply (@bottleneck_threshold demo_runtime 4%Q "success" timing_session).
    + vm_compute. reflexivity.
    + right. left. reflexivity.
    + vm_compute. reflexivity.
    + exists (inject_Z 60001). split; reflexivity.
  - intros I.
    eapply (@bottleneck_threshold demo_runtime 4%Q "success" timing_session) in I.
    + destruct I as (q & N & L). injection N as <-. discriminate L.
    + vm_compute. reflexivity.
    + right. right. left. reflexivity.
    + vm_compute. reflexivity.
Defined.






(** C4 fails on the run halted by the gate: with a score of 49 the run
    returns its record with status "failed_qa" and the disk holds no run
    record, while the runs that end with "success" and with "failed" leave
    one. *)
Lemma halted_run_leaves_no_record :
  status (results (snd (demo_run (Ok developed) (Ok (scored (VInt 49))))))
  = Some "failed_qa"
  /\ records_written (disk (snd (demo_run (Ok developed) (Ok (scored (VInt 49))))))
     = 0
  /\ records_written (disk (snd (demo_run (Ok developed) (Ok (scored (VInt 50))))))
     = 1
  /\ records_written (disk (snd (demo_run (Exn (Raised "boom")) (Ok (scored (VInt 50))))))
     = 1.
Proof. vm_compute. auto. Qed.

(** C8 as stated fails on the deployment stage: in the log of the run that
    deploys, the checkpoint of the deployment stage (event 14) stands after
    its handoff (event 13). *)
Lemma deployment_checkpoint_after_handoff :
  ~ in_order (action_checkpoint_handoff "deploy" "deployment")
      (log_of (snd (demo_run (Ok developed) (Ok (scored (VInt 80)))))).
Proof.
  intros H.
  assert (L : 14 < 13); [|lia].
  eapply (H 14 13).
  - vm_compute. reflexivity.
  - vm_compute. reflexivity.
  - reflexivity.
  - reflexivity.
  - lia.
Qed.

(* ================================================================== *)
(** * Further properties of the recorder *)
(* ================================================================== *)

Section SummarizeData.
Context {RT : Runtime}.

Lemma length_append s t :
  String.length (s ++ t) = String.length s + String.length t.
Proof. induction s as [|c s IH]; simpl; auto. Qed.

Lemma length_prefix_of n : forall s,
  String.length (prefix_of n s) = Nat.min n (String.length s).
Proof.
  unfold prefix_of. induction n as [|n IH]; intros [|c s]; simpl; auto.
Qed.

Lemma prefix_of_short n : forall s,
  String.length s <= n -> prefix_of n s = s.
Proof.
  unfold prefix_of. induction n as [|n IH]; intros [|c s] H; simpl in *; auto.
  - lia.
  - f_equal. apply IH. lia.
Qed.

(** X1.  [_summarize_data] with its default bound of 200: a string of at
    most 200 characters is kept as it is, a longer one is cut to its first
    200 characters followed by "..."; the summary of anything but a list or
    a dictionary has at most 203 characters; the summary of a list depends
    on its length only and that of a dictionary on its first five keys
    only. *)
Theorem summarize_data_bounded :
  (forall s, String.length s <= 200 -> _summarize_data (VStr s) 200 = s)
  /\ (forall s, 200 < String.length s ->
        _summarize_data (VStr s) 200 = prefix_of 200 s ++ "..."
        /\ String.length (_summarize_data (VStr s) 200) = 203)
  /\ (forall data, (forall l, data <> VList l) -> (forall d, data <> VDict d) ->
        String.length (_summarize_data data 200) <= 203)
  /\ (forall l l', List.length l = List.length l' ->
        _summarize_data (VList l) 200 = _summarize_data (VList l') 200)
  /\ (forall d d', firstn 5 (map fst d) = firstn 5 (map fst d') ->
        _summarize_data (VDict d) 200 = _summarize_data (VDict d') 200).
Proof.
  assert (Short : forall s, String.length s <= 200 ->
                            _summarize_data (VStr s) 200 = s).
  { intros s H. unfold _summarize_data.
    destruct (Nat.ltb_spec 200 (String.length s)); [lia | reflexivity]. }
  assert (Long : forall s, 200 < String.length s ->
            _summarize_data (VStr s) 200 = prefix_of 200 s ++ "..."
            /\ String.length (_summarize_data (VStr s) 200) = 203).
  { intros s H. unfold _summarize_data.
    destruct (Nat.ltb_spec 200 (String.length s)); [|lia].
    split; [reflexivity|].
    rewrite length_append, length_prefix_of. simpl String.length. lia. }
  split; [exact Short|]. split; [exact Long|]. split; [|split].
  - intros data NL ND.
    destruct data as [| b | z | q | s | l | d];
      try (unfold _summarize_data; rewrite length_prefix_of; lia).
    + simpl. lia.
    + destruct (Nat.le_gt_cases (String.length s) 200) as [H|H].
      * rewrite (Short s H). lia.
      * destruct (Long s H) as [_ ->]. lia.
    + now elim (NL l).
    + now elim (ND d).
  - intros l l' H. unfold _summarize_data. now rewrite H.
  - intros d d' H. unfold _summarize_data. now rewrite H.
Qed.

End SummarizeData.

Section ReportFailure.
Context {RT : Runtime}.









Lemma run_call_issue now k c e :
  In e (event_log (run_call now k c)) ->
  In e (event_log c)
  \/ forall a t d res rs, body e = Issue a t d res rs ->
                          rs = match res with Some _ => true | None => false end.
Proof.
  destruct k; unfold run_call;
    [ unfold record_agent_action | unfold record_handoff
    | unfold record_decision | unfold record_collaboration
    | unfold record_checkpoint | unfold record_issue | ];
    try rewrite end_session_log; try rewrite record_event_log;
    rewrite in_app_iff; intros [I|[<-|[]]]; try (now left); right;
    unfold pushed; cbn [body]; intros a0 t0 d0 res0 rs0 E;
    try discriminate E.
  injection E as <- <- <- <- <-. now destruct resolution.
Qed.

(** In the log of a session, an issue is marked resolved exactly when it
    was recorded with a resolution. *)
Lemma session_issues now fid trig ks c e :
  In e (event_log (run_session now fid trig ks c)) ->
  is_unresolved e = lacks_resolution e.
Proof.
  unfold run_session, run_calls.
  assert (Base : forall e, In e (event_log (snd (start_session now fid trig c))) ->
                           is_unresolved e = lacks_resolution e).
  { intros e'. rewrite start_session_log. intros [<-|[]]. reflexivity. }
  revert Base. generalize (snd (start_session now fid trig c)). clear c.
  induction ks as [|k ks IH]; intros c Base; simpl; [apply Base|].
  apply IH. intros e' I. apply run_call_issue in I.
  destruct I as [I|I]; [now apply Base|].
  unfold is_unresolved, lacks_resolution.
  destruct (body e') as [| | | | | |a t d res rs|]; auto.
  rewrite (I a t d res rs eq_refl). now destruct res.
Qed.

(** What a returned [end_session] did: the recorder is the one with the
    [session_end] event pushed, and the report is the one derived from it. *)
Lemma end_session_report now final_status c c' files r :
  end_session now final_status c = (c', files, Ok r) ->
  event_log c'
  = (event_log c
     ++ [pushed (isoformat now)
           (SessionEnd final_status (elapsed now c) (List.length (event_log c)))
           (event_log c)])%list
  /\ _generate_report now c' = Ok r.
Proof.
  unfold end_session.
  destruct (_generate_report _ _) as [r'|] eqn:G; [|discriminate].
  intros H. injection H as <- _ <-. split; [reflexivity | exact G].
Qed.

Lemma generate_report_parts now c r :
  _generate_report now c = Ok r ->
  _identify_bottlenecks (event_log c) = Ok (bottlenecks r)
  /\ recommendations r = _generate_recommendations (event_log c)
  /\ timeline r = _generate_timeline (event_log c)
  /\ _calculate_agent_stats (agent_actions (fill_buckets (event_log c)))
     = Ok (agent_statistics r).
Proof.
  unfold _generate_report.
  destruct (_calculate_agent_stats _) as [st|]; [|discriminate].
  destruct (_identify_bottlenecks _) as [bs|]; [|discriminate].
  cbn [res_bind]. intros H. injection H as <-. repeat split.
Qed.

Lemma long_executions_only log slow n l advice :
  long_executions log = Ok slow -> ~ In (unresolved_issues n l advice) slow.
Proof.
  revert slow. induction log as [|e log IH]; simpl; intros slow L.
  - injection L as <-. intros [].
  - destruct (body e) as [| ? ? ? ? d ? | | | | | |]; eauto.
    destruct (truthy d); eauto.
    destruct (py_gt d 60000) as [b|]; [|discriminate].
    destruct (long_executions log) as [rest|]; [|discriminate].
    simpl in L. injection L as <-.
    destruct b; [intros [E|I]; [discriminate|]|]; eapply IH; eauto.
Qed.

(** X3.  In the report of a session, the issues recorded without a
    resolution make one bottleneck entry, the last one: it is there exactly
    when there is such an issue, and it carries their number and their
    descriptions in log order. *)
Theorem unresolved_issues_aggregated
    now0 fid trig ks c now final_status c' files r :
  end_session now final_status (run_session now0 fid trig ks c)
  = (c', files, Ok r) ->
  let open := filter lacks_resolution (event_log c') in
  (forall n l advice,
     In (unresolved_issues n l advice) (bottlenecks r) <->
     open <> [] /\ n = List.length open /\ l = map description_of open
     /\ advice = "Resolve outstanding issues before deployment")
  /\ (open <> [] ->
      exists slow, bottlenecks r
                   = (slow ++ [unresolved_issues (List.length open)
                                 (map description_of open)
                                 "Resolve outstanding issues before deployment"])%list).
Proof.
  intros H. apply end_session_report in H. destruct H as [Log G].
  apply generate_report_parts in G. destruct G as [B _].
  assert (Same : filter is_unresolved (event_log c')
                 = filter lacks_resolution (event_log c')).
  { apply filter_ext_in. intros e. rewrite Log, in_app_iff.
    intros [I|[<-|[]]]; [|reflexivity]. eapply session_issues; eauto. }
  cbv zeta. revert B Same. generalize (event_log c'). clear. intros log B Same.
  unfold _identify_bottlenecks in B.
  destruct (long_executions log) as [slow|] eqn:L; [|discriminate].
  cbn [res_bind] in B. injection B as <-. rewrite Same. clear Same.
  split.
  - intros n l advice. rewrite in_app_iff. split.
    + intros [I|I]; [exfalso; eapply long_executions_only; eauto|].
      destruct (filter lacks_resolution log); [destruct I|].
      destruct I as [E|[]]. injection E as <- <- <-.
      repeat split; auto. discriminate.
    + intros (NE & -> & -> & ->). right.
      destruct (filter lacks_resolution log); [now elim NE | now left].
  - intros NE. exists slow.
    destruct (filter lacks_resolution log); [now elim NE | reflexivity].
Qed.

End ReportFailure.

Section ByOutline.
Context {RT : Runtime}.

(** What the report reads of the events is told by their outlines. *)
Lemma count_by_outline t log :
  List.length (filter (has_type t) log)
  = List.length (filter (fun o => String.eqb (fst o) t) (map outline log)).
Proof.
  induction log as [|e log IH]; simpl; [reflexivity|].
  unfold has_type at 1. destruct (String.eqb (type_of e) t); simpl; auto.
Qed.

Lemma pairs_by_outline log :
  pairs_of log
  = flat_map (fun o => if String.eqb (fst o) "agent_action" then [snd o] else [])
             (map outline log).
Proof.
  unfold pairs_of. induction log as [|e log IH]; simpl; [reflexivity|].
  rewrite IH. unfold type_of, parties. now destruct (body e).
Qed.

Lemma agents_by_outline log : agents_of log = map fst (pairs_of log).
Proof.
  unfold agents_of, pairs_of. induction log as [|e log IH]; simpl; [reflexivity|].
  rewrite map_app, IH. now destruct (body e).
Qed.

Lemma issues_by_outline log :
  ~ In "issue" (map fst (map outline log)) -> filter is_unresolved log = [].
Proof.
  induction log as [|e log IH]; simpl; intros H; [reflexivity|].
  rewrite IH by tauto.
  unfold is_unresolved, type_of in *. destruct (body e); try reflexivity.
  elim H. now left.
Qed.

Lemma retry_actions_pairs log :
  retry_actions log = fold_left (fun t k => count_add k t) (pairs_of log) [].
Proof.
  unfold retry_actions, pairs_of. generalize (@nil (string * string * nat)).
  induction log as [|e log IH]; intros t; simpl; [reflexivity|].
  rewrite IH. unfold retry_step. now destruct (body e).
Qed.

Lemma fill_keys log : forall b,
  map fst (agent_actions (fold_left bucket_step log b))
  = fold_left (fun seen a => if in_dec string_dec a seen then seen
                             else (seen ++ [a])%list)
              (agents_of log) (map fst (agent_actions b)).
Proof.
  unfold agents_of.
  induction log as [|e log IH]; intros b; simpl; [reflexivity|].
  rewrite IH. unfold bucket_step.
  destruct (body e); simpl; try reflexivity.
  now rewrite group_add_keys.
Qed.

(** The agents of the statistics, in the order of their first actions. *)
Lemma fill_keys_first_seen log :
  map fst (agent_actions (fill_buckets log)) = first_seen (agents_of log).
Proof. unfold fill_buckets, first_seen. now rewrite fill_keys. Qed.

Lemma actions_by_count agent log :
  List.length (actions_by agent log)
  = count_occ string_dec (agents_of log) agent.
Proof.
  unfold actions_by, agents_of, is_action_by.
  induction log as [|e log IH]; simpl; [reflexivity|].
  destruct (body e) as [| a ? ? ? ? ? | | | | | |]; simpl; auto.
  destruct (String.eqb_spec a agent) as [->|N].
  - simpl. rewrite IH. now destruct (string_dec agent agent).
  - rewrite IH. destruct (string_dec a agent); [contradiction | reflexivity].
Qed.

(** Without recorded durations nothing is slow and every total is 0. *)
Lemma untimed_sum l : forall acc,
  Forall (fun e => truthy (duration_of e) = false) l ->
  sum_durations acc l = Ok acc.
Proof.
  induction l as [|e l IH]; intros acc H; simpl; [reflexivity|].
  inversion H as [|? ? He Hl]; subst. rewrite He. now apply IH.
Qed.

Lemma untimed_fast log :
  Forall (fun e => truthy (duration_of e) = false) log ->
  long_executions log = Ok [].
Proof.
  induction log as [|e log IH]; intros H; simpl; [reflexivity|].
  inversion H as [|? ? He Hl]; subst. specialize (IH Hl).
  unfold duration_of in He. destruct (body e); auto. now rewrite He.
Qed.

End ByOutline.

Section AgentStatistics.
Context {RT : Runtime}.

Lemma fill_snoc log e :
  fill_buckets (log ++ [e]) = bucket_step (fill_buckets log) e.
Proof. unfold fill_buckets. now rewrite fold_left_app. Qed.

Lemma actions_by_snoc agent log e :
  actions_by agent (log ++ [e])
  = (actions_by agent log ++ if is_action_by agent e then [e] else [])%list.
Proof.
  unfold actions_by. rewrite filter_app. simpl.
  now destruct (is_action_by agent e).
Qed.

Lemma actions_by_none agent log :
  ~ In agent (agents_of log) -> actions_by agent log = [].
Proof.
  unfold actions_by, agents_of, is_action_by.
  induction log as [|e log IH]; simpl; intros H; [reflexivity|].
  rewrite in_app_iff in H.
  destruct (body e) as [| a ? ? ? ? ? | | | | | |]; try (apply IH; tauto).
  destruct (String.eqb_spec a agent) as [->|N]; [|apply IH; tauto].
  elim H. left. now left.
Qed.


Lemma group_add_inv agent e g a es :
  NoDup (map fst g) ->
  In (a, es) (group_add agent e g) ->
  (a <> agent /\ In (a, es) g)
  \/ (a = agent
      /\ ((exists old, In (a, old) g /\ es = (old ++ [e])%list)
          \/ (~ In agent (map fst g) /\ es = [e]))).
Proof.
  induction g as [|[a0 es0] g IH]; simpl; intros N H.
  - destruct H as [H|[]]. injection H as <- <-. right. split; auto.
  - inversion N as [|? ? N0 N']; subst.
    destruct (String.eqb_spec agent a0) as [->|D].
    + destruct H as [H|H].
      * injection H as <- <-. right. split; auto. left. exists es0. auto.
      * left. split; [|auto]. intros ->. apply N0.
        change a0 with (fst (a0, es)). now apply in_map.
    + destruct H as [H|H].
      * injection H as <- <-. left. split; auto.
      * destruct (IH N' H) as [[Na I]|[-> [(old & I & ->)|[Nk ->]]]].
        -- left. auto.
        -- right. split; auto. left. exists old. auto.
        -- right. split; auto. right. split; auto.
           intros [E|I]; [now apply D | now apply Nk].
Qed.

(** The groups of the report loop: the list kept under an agent is the
    list of the actions of the agent, in log order. *)
Lemma fill_groups log : forall a es,
  In (a, es) (agent_actions (fill_buckets log)) -> es = actions_by a log.
Proof.
  induction log as [|e log IH] using rev_ind; intros a es H.
  - destruct H.
  - rewrite fill_snoc in H. rewrite actions_by_snoc.
    destruct (fill_agent_keys log no_buckets (NoDup_nil _)) as [N K].
    fold (fill_buckets log) in N, K. cbv zeta in N, K.
    unfold bucket_step in H. unfold is_action_by.
    destruct (body e) as [| agent ? ? ? ? ? | | | | | |]; simpl in H;
      try (rewrite app_nil_r; now apply IH).
    apply group_add_inv in H; [|exact N].
    destruct H as [[Na I]|[-> [(old & I & ->)|[Nk ->]]]].
    + destruct (String.eqb_spec agent a) as [E|_]; [now elim Na|].
      rewrite app_nil_r. now apply IH.
    + rewrite String.eqb_refl. f_equal. now apply IH.
    + rewrite String.eqb_refl. rewrite actions_by_none; [reflexivity|].
      intros I. apply Nk. apply K. now right.
Qed.

Lemma agent_stats_inv groups : forall stats,
  _calculate_agent_stats groups = Ok stats ->
  map fst stats = map fst groups
  /\ forall a st, In (a, st) stats ->
       exists acts,
         In (a, acts) groups
         /\ actions_count st = List.length acts
         /\ sum_durations 0%Q acts = Ok (total_duration_ms st)
         /\ actions st = map action_of (firstn 5 acts).
Proof.
  induction groups as [|[agent acts] groups IH]; simpl; intros stats H.
  - injection H as <-. split; [reflexivity | intros ? ? []].
  - destruct (sum_durations 0%Q acts) as [total|] eqn:S; [|discriminate].
    destruct (_calculate_agent_stats groups) as [rest|]; [|discriminate].
    simpl in H. injection H as <-.
    destruct (IH rest eq_refl) as [K R]. split; [simpl; now rewrite K|].
    intros a st [E|I].
    + injection E as <- <-. exists acts. simpl. auto.
    + destruct (R a st I) as (acts' & I' & ?). exists acts'. auto.
Qed.


End AgentStatistics.

Section Recommendations.
Context {RT : Runtime}.

Lemma same_pair_eq k k' : same_pair k k' = true <-> k = k'.
Proof.
  unfold same_pair. destruct k as [a b], k' as [a' b']. simpl.
  rewrite andb_true_iff, !String.eqb_eq. split.
  - intros [-> ->]. reflexivity.
  - intros E. injection E as -> ->. auto.
Qed.

Lemma same_pair_refl k : same_pair k k = true.
Proof. now apply same_pair_eq. Qed.

Lemma same_pair_neq k k' : k <> k' -> same_pair k k' = false.
Proof.
  intros N. destruct (same_pair k k') eqn:E; [|reflexivity].
  apply same_pair_eq in E. contradiction.
Qed.

Lemma pair_dec (k k' : string * string) : {k = k'} + {k <> k'}.
Proof. decide equality; apply string_dec. Qed.

Lemma pairs_of_snoc log e :
  pairs_of (log ++ [e])
  = (pairs_of log ++ match body e with
                     | AgentAction a act _ _ _ _ => [(a, act)]
                     | _ => []
                     end)%list.
Proof. unfold pairs_of. rewrite flat_map_app. simpl. now rewrite app_nil_r. Qed.

Lemma occurrences_snoc k log e :
  occurrences k (log ++ [e])
  = occurrences k log
    + match body e with
      | AgentAction a act _ _ _ _ => if same_pair k (a, act) then 1 else 0
      | _ => 0
      end.
Proof.
  unfold occurrences. rewrite pairs_of_snoc, filter_app, length_app.
  f_equal. destruct (body e); try reflexivity.
  simpl. now destruct (same_pair k _).
Qed.

Lemma occurrences_In k log : 0 < occurrences k log <-> In k (pairs_of log).
Proof.
  unfold occurrences. induction (pairs_of log) as [|k' l IH]; simpl.
  - split; [lia | tauto].
  - destruct (same_pair k k') eqn:E.
    + apply same_pair_eq in E. subst. simpl. split; [auto | lia].
    + rewrite IH. split; [auto|]. intros [->|I]; [|exact I].
      now rewrite same_pair_refl in E.
Qed.

Lemma count_add_keys key t :
  map fst (count_add key t)
  = if in_dec pair_dec key (map fst t) then map fst t
    else (map fst t ++ [key])%list.
Proof.
  induction t as [|[k n] t IH]; simpl; [reflexivity|].
  fold (same_pair key k).
  destruct (same_pair key k) eqn:E.
  - apply same_pair_eq in E. subst.
    destruct (pair_dec k k); [reflexivity | congruence].
  - simpl. rewrite IH. destruct (pair_dec k key) as [->|D].
    + now rewrite same_pair_refl in E.
    + destruct (in_dec pair_dec key (map fst t)); reflexivity.
Qed.

Lemma count_add_In key t k n :
  NoDup (map fst t) ->
  In (k, n) (count_add key t) <->
  (k <> key /\ In (k, n) t)
  \/ (k = key /\ ((exists m, In (key, m) t /\ n = m + 1)
                  \/ (~ In key (map fst t) /\ n = 1))).
Proof.
  induction t as [|[k0 n0] t IH]; simpl; intros N.
  - split.
    + intros [E|[]]. injection E as <- <-. right. split; auto.
    + intros [[_ []]|[-> [(m & [] & _)|[_ ->]]]]. now left.
  - inversion N as [|? ? N0 N']; subst. fold (same_pair key k0).
    destruct (same_pair key k0) eqn:E.
    + apply same_pair_eq in E. subst k0. simpl. split.
      * intros [H|H].
        -- injection H as <- <-. right. split; auto. left. eauto.
        -- left. split; [|auto]. intros ->. apply N0.
           change key with (fst (key, n)). now apply in_map.
      * intros [[D [H|H]]|[-> [(m & [H|H] & ->)|[Nk _]]]].
        -- injection H as <- <-. now elim D.
        -- now right.
        -- injection H as <-. now left.
        -- elim N0. change key with (fst (key, m)). now apply in_map.
        -- elim Nk. now left.
    + assert (D : k0 <> key).
      { intros ->. now rewrite same_pair_refl in E. }
      simpl. rewrite (IH N'). split.
      * intros [H|[[Dk H]|[-> [(m & H & ->)|[Nk ->]]]]].
        -- injection H as <- <-. left. auto.
        -- left. auto.
        -- right. split; auto. left. eauto.
        -- right. split; auto. right. split; auto.
           intros [F|F]; [now apply D | now apply Nk].
      * intros [[Dk [H|H]]|[-> [(m & [H|H] & ->)|[Nk ->]]]].
        -- now left.
        -- right. left. auto.
        -- injection H as <- <-. now elim D.
        -- right. right. split; auto. left. eauto.
        -- right. right. split; auto. right. split; auto.
Qed.

(** The counting dictionary of [_generate_recommendations]: its keys are
    the distinct (agent, action) pairs of the log and each is mapped to its
    number of occurrences. *)
Lemma retry_actions_counts log :
  NoDup (map fst (retry_actions log))
  /\ forall k n, In (k, n) (retry_actions log)
                 <-> n = occurrences k log /\ 0 < n.
Proof.
  unfold retry_actions.
  induction log as [|e log [N C]] using rev_ind.
  - split; [constructor|]. intros k n. simpl. unfold occurrences. simpl.
    split; [tauto | lia].
  - rewrite fold_left_app. simpl.
    set (t := fold_left retry_step log []) in *.
    assert (Keys : forall k, In k (map fst t) <-> 0 < occurrences k log).
    { intros k. split.
      - intros I. apply in_map_iff in I. destruct I as ([k' n] & <- & I).
        apply C in I. simpl. lia.
      - intros P. change k with (fst (k, occurrences k log)).
        apply in_map. apply C. auto. }
    unfold retry_step.
    destruct (body e) as [| a act ? ? ? ? | | | | | |] eqn:B;
      try (split; [exact N|]; intros k n; rewrite occurrences_snoc, B, Nat.add_0_r;
           apply C).
    split.
    + rewrite count_add_keys.
      destruct (in_dec pair_dec (a, act) (map fst t)); [exact N|].
      apply NoDup_app; auto.
      * constructor; [intros []|constructor].
      * intros x Hx [<-|[]]. contradiction.
    + intros k n. rewrite (@count_add_In (a, act) t k n N), occurrences_snoc, B.
      destruct (pair_dec k (a, act)) as [->|D].
      * rewrite same_pair_refl. split.
        -- intros [[F _]|[_ [(m & I & ->)|[Nk ->]]]]; [now elim F| |].
           ++ apply C in I. lia.
           ++ rewrite Keys in Nk. lia.
        -- intros [-> _]. right. split; auto.
           destruct (Nat.eq_dec (occurrences (a, act) log) 0) as [Z|P].
           ++ right. rewrite Keys. lia.
           ++ left. exists (occurrences (a, act) log). split; [|reflexivity].
              apply C. lia.
      * rewrite (same_pair_neq D), Nat.add_0_r, C. split.
        -- intros [[_ H]|[F _]]; [exact H | now elim D].
        -- intros H. left. auto.
Qed.

Lemma advice_of_counts (f : string * string -> nat) t :
  (forall k n, In (k, n) t -> n = f k) ->
  flat_map (fun kc : string * string * nat =>
              let '(agent, action, count) := kc in
              if Nat.ltb 3 count then [caching_advice agent action count]
              else []) t
  = map (fun k => caching_advice (fst k) (snd k) (f k))
        (map fst (filter (fun kn => Nat.ltb 3 (snd kn)) t)).
Proof.
  induction t as [|[[a act] n] t IH]; intros C; [reflexivity|].
  simpl. rewrite IH by (intros; apply C; now right).
  destruct (Nat.ltb 3 n) eqn:L; [|reflexivity].
  simpl. rewrite <- (C (a, act) n) by now left. reflexivity.
Qed.

(** X5.  The recommendations of a report: the advice to parallelize when
    the log has more than five handoffs, then one advice per (agent, action)
    pair performed more than three times, naming the number of times, then
    the three general recommendations, which are always there. *)
Theorem recommendations_shape log :
  exists repeated,
    _generate_recommendations log
    = ((if Nat.ltb 5 (List.length (filter (has_type "handoff") log))
        then ["Consider parallelizing some agent tasks to reduce sequential handoffs"]
        else [])
       ++ map (fun k => caching_advice (fst k) (snd k) (occurrences k log))
              repeated
       ++ general_advice)%list
    /\ NoDup repeated
    /\ forall k, In k repeated <-> 3 < occurrences k log.
Proof.
  destruct (retry_actions_counts log) as [N C].
  exists (map fst (filter (fun kn => Nat.ltb 3 (snd kn)) (retry_actions log))).
  split; [|split].
  - unfold _generate_recommendations. f_equal. f_equal.
    apply advice_of_counts. intros k n I. now apply C in I.
  - clear C. induction (retry_actions log) as [|[k n] t IH]; simpl; [constructor|].
    inversion N as [|? ? N0 N']; subst.
    destruct (Nat.ltb 3 n); [|auto]. simpl. constructor; [|auto].
    intros I. apply N0. apply in_map_iff in I.
    destruct I as (x & <- & I). apply filter_In in I. apply in_map. tauto.
  - intros k. rewrite in_map_iff. split.
    + intros ([k' n] & <- & I). apply filter_In in I. destruct I as [I L].
      apply C in I. simpl in *. apply Nat.ltb_lt in L. lia.
    + intros L. exists (k, occurrences k log). split; [reflexivity|].
      apply filter_In. split; [apply C; lia | now apply Nat.ltb_lt].
Qed.

End Recommendations.

Section Timeline.
Context {RT : Runtime}.

Lemma run_calls_first ks : forall c e l,
  event_log c = e :: l ->
  exists l', event_log (run_calls ks c) = e :: l'.
Proof.
  unfold run_calls.
  induction ks as [|k ks IH]; intros c e l H; simpl; [eauto|].
  destruct (run_call_pushes (fst k) (snd k) c) as (ts & p & ->).
  eapply IH. rewrite record_event_log, H. reflexivity.
Qed.

(** X6.  The timeline of the report of a session closed by [end_session]
    has one entry per event of the session, in log order, with the time,
    number and type of the event: the entries are numbered 1, 2, ..., the
    first one is the [session_start] and the last one the [session_end]. *)
Theorem timeline_of_session
    now0 fid trig ks c now final_status c' files r :
  end_session now final_status (run_session now0 fid trig ks c)
  = (c', files, Ok r) ->
  List.length (timeline r) = List.length ks + 2
  /\ map sequence (timeline r) = seq 1 (List.length ks + 2)
  /\ map time (timeline r) = map timestamp (event_log c')
  /\ map entry_type (timeline r) = map type_of (event_log c')
  /\ exists between,
       map entry_type (timeline r)
       = ("session_start" :: between ++ ["session_end"])%list.
Proof.
  intros H. apply end_session_report in H. destruct H as [Log G].
  apply generate_report_parts in G. destruct G as (_ & _ & -> & _).
  unfold _generate_timeline. rewrite length_map, !map_map. simpl.
  assert (L : List.length (event_log (run_session now0 fid trig ks c))
              = S (List.length ks)).
  { unfold run_session. rewrite run_calls_length, start_session_log.
    simpl. lia. }
  assert (D : dense (event_log c')).
  { rewrite Log. apply dense_push. unfold run_session.
    apply run_calls_dense. rewrite start_session_log. reflexivity. }
  assert (N : List.length (event_log c') = List.length ks + 2).
  { rewrite Log, length_app, L. simpl. lia. }
  split; [exact N|]. split; [rewrite <- N; exact D|].
  split; [reflexivity|]. split; [reflexivity|].
  destruct (@run_calls_first ks (snd (start_session now0 fid trig c)) _ _
              (start_session_log now0 fid trig c)) as [l' F].
  fold (run_session now0 fid trig ks c) in F.
  rewrite Log, F. exists (map type_of l'). simpl.
  rewrite map_app. reflexivity.
Qed.

End Timeline.

(* ================================================================== *)
(** * Further properties of the pipeline run *)
(* ================================================================== *)

Lemma firstn_In A n : forall (l : list A) x, In x (firstn n l) -> In x l.
Proof.
  induction n as [|n IH]; intros [|y l] x H; simpl in *; try tauto.
  destruct H as [H|H]; auto.
Qed.

Lemma firstn_NoDup A n : forall l : list A, NoDup l -> NoDup (firstn n l).
Proof.
  induction n as [|n IH]; intros [|x l] H; simpl; try constructor.
  - inversion H as [|? ? N H']; subst. intros I. apply N.
    eapply firstn_In; eauto.
  - inversion H; subst; auto.
Qed.

Section Chains.
Context {RT : Runtime}.
Variable clock : nat -> Q.

Lemma framed_quiet P A (m : M A) : framed P (fun _ => False) m -> quiet m.
Proof.
  intros F s. destruct (F s) as (_ & (lc & C & N & _) & _).
  destruct lc as [|x lc]; [now rewrite app_nil_r in C|].
  inversion N as [|? ? []].
Qed.

Lemma one_call_intro name o A (f : value -> M A) :
  (forall a, quiet (f a)) -> one_call name o (bind (call_stage name o) f).
Proof.
  intros Hq s. unfold bind, call_stage.
  destruct o as [v|e].
  - rewrite Hq. split; [reflexivity | discriminate].
  - split; [reflexivity|]. intros e' E. cbn [fst]. now injection E as ->.
Qed.

Lemma one_call_then name o A B (m : M A) (f : A -> M B) :
  one_call name o m -> (forall a, quiet (f a)) -> one_call name o (bind m f).
Proof.
  intros Hm Hq s. destruct (Hm s) as (C & R). unfold bind.
  destruct (m s) as [[a|e] s1]; cbn [fst snd] in *.
  - rewrite Hq. split; [exact C|]. intros e E. apply R in E. discriminate.
  - split; [exact C|]. intros e' E. apply R in E. now injection E as ->.
Qed.

(** A step that made its call and returned: the call returned. *)
Lemma one_call_returns name o A (m : M A) s a s' :
  one_call name o m -> m s = (Ok a, s') ->
  exists v, o = Ok v /\ calls s' = (calls s ++ [(name, Ok v)])%list.
Proof.
  intros Hm E. destruct (Hm s) as (C & R). rewrite E in C, R.
  cbn [fst snd] in *. destruct o as [v|e]; [eauto|].
  specialize (R e eq_refl). discriminate.
Qed.

Lemma quiet_bind A B (m : M A) (f : A -> M B) :
  quiet m -> (forall a, quiet (f a)) -> quiet (bind m f).
Proof.
  intros Hm Hf s. specialize (Hm s). unfold bind.
  destruct (m s) as [[a|e] s1]; cbn [snd] in *; [|exact Hm].
  now rewrite Hf.
Qed.

Lemma chain_quiet names A (m : M A) : quiet m -> chain names m.
Proof.
  intros Hq s. exists []. rewrite Hq, app_nil_r. repeat split.
  intros [|i] n e H; discriminate H.
Qed.

Lemma chain_skip names A B (m : M A) (f : A -> M B) :
  quiet m -> (forall a, chain names (f a)) -> chain names (bind m f).
Proof.
  intros Hq Hf s. specialize (Hq s). unfold bind.
  destruct (m s) as [[a|e] s1]; cbn [snd] in *.
  - destruct (Hf a s1) as (lc & C & P & L). exists lc. rewrite C, Hq. auto.
  - exists []. rewrite Hq, app_nil_r. repeat split.
    intros [|i] n e' H; discriminate H.
Qed.

(** A step that calls the stage [name], followed by steps that go along
    [names]: the calls go along [name :: names], [name] first. *)
Lemma chain_call name o names A B (m : M A) (f : A -> M B) :
  one_call name o m -> (forall a, chain names (f a)) ->
  forall s, exists lc,
    calls (snd (bind m f s)) = (calls s ++ (name, o) :: lc)%list
    /\ map fst lc = firstn (List.length lc) names
    /\ only_last_raises ((name, o) :: lc).
Proof.
  intros Hm Hf s. destruct (Hm s) as (C & R). unfold bind.
  destruct (m s) as [[a|e] s1]; cbn [fst snd] in *.
  - destruct (Hf a s1) as (lc & C' & P & L). exists lc.
    rewrite C', C, <- app_assoc. split; [reflexivity|]. split; [exact P|].
    intros [|i] n e H; simpl in H.
    + injection H as _ E. apply R in E. discriminate.
    + apply L in H. simpl. now rewrite H.
  - exists []. rewrite C. repeat split. intros [|[|i]] n e' H; try discriminate H.
    reflexivity.
Qed.

Lemma chain_cons name o names A B (m : M A) (f : A -> M B) :
  one_call name o m -> (forall a, chain names (f a)) ->
  chain (name :: names) (bind m f).
Proof.
  intros Hm Hf s. destruct (@chain_call _ _ _ _ _ _ _ Hm Hf s) as (lc & C & P & L).
  exists ((name, o) :: lc). split; [exact C|]. split; [|exact L].
  simpl. now rewrite P.
Qed.






End Chains.

Ltac quiet_auto :=
  apply (@framed_quiet (fun _ => True)); framed_auto.

Ltac one_call_auto :=
  unfold step_reverse_engineer, step_web_scraper, step_pm, step_dev, step_qa,
         step_deploy;
  apply one_call_intro; intros ?; quiet_auto.





Section StageCalls.
Context {RT : Runtime}.
Variable clock : nat -> Q.
Context {ST : Stages}.

Lemma research_one_call idea tech_stack source_codebase :
  one_call (hd "" (stage_order source_codebase))
           (first_call idea source_codebase)
           (research clock idea tech_stack source_codebase).
Proof.
  unfold research, stage_order, first_call.
  destruct (given source_codebase); cbn [hd].
  - one_call_auto.
  - apply one_call_then; [one_call_auto | intros ?; quiet_auto].
Qed.

Lemma downstream_chain fid : chain ["qa"; "deploy"] (downstream clock fid).
Proof.
  unfold downstream.
  eapply chain_cons; [one_call_auto | intros qa].
  apply chain_skip; [quiet_auto | intros [|]].
  - apply chain_quiet. quiet_auto.
  - eapply chain_cons; [one_call_auto | intros ?].
    apply chain_quiet. quiet_auto.
Qed.

Lemma try_body_chain idea tech_stack source_codebase s :
  exists lc,
    calls (snd (try_body clock idea tech_stack source_codebase s))
    = (calls s ++ (hd "" (stage_order source_codebase),
                   first_call idea source_codebase) :: lc)%list
    /\ map fst lc = firstn (List.length lc) ["pm"; "dev"; "qa"; "deploy"]
    /\ only_last_raises ((hd "" (stage_order source_codebase),
                          first_call idea source_codebase) :: lc).
Proof.
  rewrite try_body_eq.
  eapply chain_call; [apply research_one_call | intros it].
  eapply chain_cons; [one_call_auto | intros fid].
  eapply chain_cons; [one_call_auto | intros ?].
  apply downstream_chain.
Qed.

(** X7.  The stage methods are called in the order of the [try] block,
    from the first one on: reverse engineering or market research, then
    specification, development, testing and deployment.  The first one is
    always called, none is called twice, and none is called after one that
    raised. *)
Theorem stage_calls_in_order idea tech_stack source_codebase c d t :
  let trace :=
    calls (snd (run_full_pipeline clock idea tech_stack source_codebase c d t)) in
  trace <> []
  /\ map fst trace = firstn (List.length trace) (stage_order source_codebase)
  /\ only_last_raises trace
  /\ NoDup (map fst trace).
Proof.
  cbv zeta. rewrite run_calls_eq.
  destruct (try_body_chain idea tech_stack source_codebase
              (start_state clock idea c d t)) as (lc & C & P & L).
  rewrite C. cbn [start_state calls app].
  set (o := first_call idea source_codebase) in *.
  assert (E : map fst ((hd "" (stage_order source_codebase), o) :: lc)
              = firstn (List.length ((hd "" (stage_order source_codebase), o) :: lc))
                  (stage_order source_codebase)).
  { unfold stage_order. simpl. now rewrite <- P. }
  split; [discriminate|]. split; [exact E|]. split; [exact L|].
  rewrite E. apply firstn_NoDup. unfold stage_order.
  destruct (given source_codebase);
    repeat (constructor; [simpl; intuition discriminate|]); constructor.
Qed.




Lemma step_pm_result idea tech_stack s fid :
  fst (step_pm clock idea tech_stack s) = Ok fid ->
  exists pm, _run_pm_agent idea tech_stack = Ok pm
             /\ py_subscript pm "feature_id" = Ok fid.
Proof.
  unfold step_pm. repeat run_step; reduce_run; try discriminate.
  intros H. injection H as <-. eauto.
Qed.

Lemma gate_halted qa_result s :
  fst (quality_gate clock qa_result s) = Ok true ->
  exists v, gate_score qa_result = Ok v /\ py_lt v 50 = Ok true.
Proof.
  unfold quality_gate.
  repeat first [run_step | reduce_run; end_session_any]; reduce_run;
    try discriminate.
  eauto.
Qed.

(** A [try] block that returned: the steps before testing returned, testing
    returned, and the gate either halted the run or let deployment run and
    return. *)
Lemma try_body_returns idea tech_stack source_codebase s b s' :
  try_body clock idea tech_stack source_codebase s = (Ok b, s') ->
  exists it s1 fid s2 s3 qa s4,
    research clock idea tech_stack source_codebase s = (Ok it, s1)
    /\ step_pm clock (fst it) (snd it) s1 = (Ok fid, s2)
    /\ step_dev clock fid s2 = (Ok tt, s3)
    /\ step_qa clock fid s3 = (Ok qa, s4)
    /\ if (b : bool) then quality_gate clock qa s4 = (Ok true, s')
       else quality_gate clock qa s4 = (Ok false, s4)
            /\ step_deploy clock fid s4 = (Ok tt, s').
Proof.
  rewrite try_body_eq. unfold bind at 1.
  destruct (research _ _ _ _ _) as [[it|] s1] eqn:R; [|discriminate].
  unfold bind at 1.
  destruct (step_pm _ _ _ _) as [[fid|] s2] eqn:P; [|discriminate].
  unfold bind at 1.
  destruct (step_dev _ _ _) as [[[]|] s3] eqn:D; [|discriminate].
  unfold downstream. unfold bind at 1.
  destruct (step_qa _ _ _) as [[qa|] s4] eqn:T; [|discriminate].
  unfold bind at 1. pose proof (gate_status clock qa s4) as G.
  destruct (quality_gate _ _ _) as [[[|]|] s5] eqn:Gt; [| |discriminate].
  - unfold ret. intros H. injection H as <- <-.
    exists it, s1, fid, s2, s3, qa, s4. repeat split; assumption.
  - subst s5. unfold bind at 1.
    destruct (step_deploy _ _ _) as [[[]|] s6] eqn:Dp; [|discriminate].
    unfold ret. intros H. injection H as <- <-.
    exists it, s1, fid, s2, s3, qa, s4. repeat split; assumption.
Qed.

Lemma dev_one_call fid : one_call "dev" (_run_dev_agent fid) (step_dev clock fid).
Proof. one_call_auto. Qed.

Lemma pm_one_call idea tech_stack :
  one_call "pm" (_run_pm_agent idea tech_stack) (step_pm clock idea tech_stack).
Proof. one_call_auto. Qed.

Lemma qa_one_call fid : one_call "qa" (_run_qa_agent fid) (step_qa clock fid).
Proof. one_call_auto. Qed.

Lemma deploy_one_call fid :
  one_call "deploy" (_run_deploy_agent fid) (step_deploy clock fid).
Proof. one_call_auto. Qed.

Lemma gate_quiet qa : quiet (quality_gate clock qa).
Proof. quiet_auto. Qed.

(** The calls of a [try] block that returned. *)
Lemma try_body_returns_calls idea tech_stack source_codebase s b s' :
  try_body clock idea tech_stack source_codebase s = (Ok b, s') ->
  exists a pm fid dv qa v,
    first_call idea source_codebase = Ok a
    /\ py_subscript pm "feature_id" = Ok fid
    /\ _run_dev_agent fid = Ok dv
    /\ _run_qa_agent fid = Ok qa
    /\ gate_score qa = Ok v
    /\ if (b : bool)
       then py_lt v 50 = Ok true
            /\ calls s'
               = (calls s ++ [ (hd "" (stage_order source_codebase), Ok a);
                               ("pm", Ok pm); ("dev", Ok dv); ("qa", Ok qa) ])%list
       else py_lt v 50 = Ok false
            /\ exists dp,
                 _run_deploy_agent fid = Ok dp
                 /\ calls s'
                    = (calls s ++ [ (hd "" (stage_order source_codebase), Ok a);
                                    ("pm", Ok pm); ("dev", Ok dv); ("qa", Ok qa);
                                    ("deploy", Ok dp) ])%list.
Proof.
  intros H. apply try_body_returns in H.
  destruct H as (it & s1 & fid & s2 & s3 & qa & s4 & R & P & D & T & G).
  destruct (@one_call_returns _ _ _ _ _ _ _ (research_one_call idea tech_stack source_codebase) R)
    as (a & Ea & Ca).
  destruct (@one_call_returns _ _ _ _ _ _ _ (pm_one_call (fst it) (snd it)) P) as (pm & Ep & Cp).
  destruct (@one_call_returns _ _ _ _ _ _ _ (dev_one_call fid) D) as (dv & Ed & Cd).
  destruct (@one_call_returns _ _ _ _ _ _ _ (qa_one_call fid) T) as (qa' & Eq & Cq).
  assert (Fid : py_subscript pm "feature_id" = Ok fid).
  { destruct (@step_pm_result (fst it) (snd it) s1 fid) as (pm' & E' & F).
    - now rewrite P.
    - rewrite Ep in E'. now injection E' as <-. }
  assert (Q' : qa' = qa).
  { pose proof (@step_qa_result _ clock _ fid s3 qa) as X. rewrite T in X.
    specialize (X eq_refl). rewrite Eq in X. now injection X. }
  subst qa'.
  destruct b.
  - destruct (@gate_halted qa s4) as (v & Gs & L); [now rewrite G|].
    exists a, pm, fid, dv, qa, v. repeat split; auto.
    pose proof (gate_quiet qa s4) as K. rewrite G in K. cbn [snd] in K.
    rewrite K, Cq, Cd, Cp, Ca, <- !app_assoc. reflexivity.
  - destruct G as [G Dp].
    destruct (@gate_passed _ clock qa s4) as (v & Gs & L); [now rewrite G|].
    destruct (@one_call_returns _ _ _ _ _ _ _ (deploy_one_call fid) Dp) as (dp & Edp & Cdp).
    exists a, pm, fid, dv, qa, v. repeat split; auto.
    exists dp. split; [exact Edp|].
    rewrite Cdp, Cq, Cd, Cp, Ca, <- !app_assoc. reflexivity.
Qed.



End StageCalls.

Section RecordFields.
Context {RT : Runtime}.
Variable clock : nat -> Q.
Context {ST : Stages}.

(** What [end_session] did for the run when it returned a report. *)
Lemma chronicle_end_cases final_status s :
  match chronicle_end clock final_status s with
  | (Ok rep, s1) =>
      s1 = closed clock final_status rep s
      /\ _generate_report (clock (ticks s)) (self_chronicle s1) = Ok rep
  | (Exn _, _) => True
  end.
Proof.
  unfold chronicle_end, end_session.
  destruct (_generate_report _ _) as [rep|e] eqn:G; [|exact I].
  split; [reflexivity | exact G].
Qed.

Ltac end_session_known :=
  match goal with
  | |- context [chronicle_end ?cl ?st ?s] =>
      let K := fresh "K" in
      generalize (chronicle_end_cases st s);
      destruct (chronicle_end cl st s) as [[?|?] ?];
      [ intros [-> K] | intros _ ];
      unfold closed in *
  end.

(** The fields of the record after a deployment step that returned. *)
Lemma deploy_fields fid s :
  match step_deploy clock fid s with
  | (Ok _, s') =>
      status (results s') = Some "success"
      /\ feature_id (results s') = Some fid
      /\ completed_at (results s') <> None
      /\ error (results s') = error (results s)
      /\ exists rep now,
           chronicle (results s') = Some rep
           /\ _generate_report now (self_chronicle s') = Ok rep
           /\ disk s'
              = app (disk s)
                  [ (chronicle_path (self_chronicle s') ".json",
                     ChronicleFile (ReportJson rep));
                    (chronicle_path (self_chronicle s') "_narrative.md",
                     ChronicleFile (Narrative rep)) ]
  | (Exn _, _) => True
  end.
Proof.
  unfold step_deploy.
  repeat first [run_step | reduce_run; end_session_known]; reduce_run; auto.
  all: repeat split;
    first [ discriminate | reflexivity
          | eexists; eexists; split;
            [reflexivity | split; [exact K | reflexivity]] ].
Qed.




Lemma deployed_fields idea tech_stack source_codebase s s' :
  try_body clock idea tech_stack source_codebase s = (Ok false, s') ->
  completed_at (results s') <> None
  /\ (exists pm fid,
        In ("pm", Ok pm) (calls s')
        /\ py_subscript pm "feature_id" = Ok fid
        /\ feature_id (results s') = Some fid)
  /\ exists rep now,
       chronicle (results s') = Some rep
       /\ _generate_report now (self_chronicle s') = Ok rep
       /\ exists before,
            disk s'
            = app before
                [ (chronicle_path (self_chronicle s') ".json",
                   ChronicleFile (ReportJson rep));
                  (chronicle_path (self_chronicle s') "_narrative.md",
                   ChronicleFile (Narrative rep)) ].
Proof.
  intros H.
  destruct (@try_body_returns_calls _ clock _ _ _ _ _ _ _ H)
    as (a & pm & fid & dv & qa & v & Ea & Ef & Ed & Eq & G & L & dp & Edp & K).
  apply (@try_body_returns _ clock) in H.
  destruct H as (it & s1 & fid' & s2 & s3 & qa' & s4 & R & P & D & T & _ & Dp).
  assert (fid' = fid) as ->.
  { destruct (@step_pm_result _ clock _ (fst it) (snd it) s1 fid') as (pm' & E' & F).
    - now rewrite P.
    - destruct (@one_call_returns _ _ _ _ _ _ _ (pm_one_call clock (fst it) (snd it)) P)
        as (pm'' & Ep & Cp).
      rewrite Ep in E'. injection E' as <-.
      destruct (@one_call_returns _ _ _ _ _ _ _
                  (research_one_call clock idea tech_stack source_codebase) R)
        as (a' & _ & Ca).
      destruct (@one_call_returns _ _ _ _ _ _ _ (dev_one_call clock fid') D)
        as (dv' & _ & Cd).
      destruct (@one_call_returns _ _ _ _ _ _ _ (qa_one_call clock fid') T)
        as (qa'' & _ & Cq).
      destruct (@one_call_returns _ _ _ _ _ _ _ (deploy_one_call clock fid') Dp)
        as (dp' & _ & Cdp).
      rewrite Cdp, Cq, Cd, Cp, Ca, <- !app_assoc in K.
      apply app_inv_head in K. injection K as _ <- _ _ _. congruence. }
  pose proof (deploy_fields fid s4) as F. rewrite Dp in F.
  destruct F as (_ & Fi & Co & _ & rep & now & Ch & Gr & Dk).
  split; [exact Co|]. split; [|exists rep, now; eauto].
  exists pm, fid. split; [|auto]. rewrite K, in_app_iff. right. simpl. auto.
Qed.


End RecordFields.

Section Emits.
Context {RT : Runtime}.
Variable clock : nat -> Q.

Lemma framed_mute N A (m : M A) : framed (fun _ => False) N m -> mute m.
Proof.
  intros F s. destruct (F s) as ((le & L & P) & _).
  destruct le as [|x le]; [now rewrite app_nil_r in L|].
  inversion P as [|? ? []].
Qed.

Lemma emits_mute A (m : M A) : mute m -> emits [] m.
Proof.
  intros Hm s a s' E. specialize (Hm s). rewrite E in Hm. cbn [snd] in Hm.
  exists []. now rewrite Hm, app_nil_r.
Qed.

Lemma emits_app l1 l2 A B (m : M A) (f : A -> M B) :
  emits l1 m -> (forall a, emits l2 (f a)) -> emits (l1 ++ l2) (bind m f).
Proof.
  intros Hm Hf s b s'. unfold bind.
  destruct (m s) as [[a|e] s1] eqn:E; [|discriminate].
  intros E'. destruct (Hm _ _ _ E) as (le & L & O).
  destruct (Hf a _ _ _ E') as (le' & L' & O').
  exists (le ++ le')%list. rewrite L', L, app_assoc, map_app, O, O'. auto.
Qed.

Lemma emits_skip l A B (m : M A) (f : A -> M B) :
  mute m -> (forall a, emits l (f a)) -> emits l (bind m f).
Proof.
  intros Hm Hf. apply (@emits_app [] l); [now apply emits_mute | exact Hf].
Qed.

Lemma emits_last o (op : Q -> recorder -> recorder) :
  (forall now c, exists e,
      event_log (op now c) = (event_log c ++ [e])%list /\ outline e = o) ->
  emits [o] (chronicle_do clock op).
Proof.
  intros H s a s' E. unfold chronicle_do in E. injection E as _ <-.
  destruct (H (clock (ticks s)) (self_chronicle s)) as (e & L & O).
  exists [e]. unfold log_of. cbn [set_chronicle self_chronicle].
  rewrite L. simpl. now rewrite O.
Qed.

Lemma emits_push o l (op : Q -> recorder -> recorder) B (f : unit -> M B) :
  (forall now c, exists e,
      event_log (op now c) = (event_log c ++ [e])%list /\ outline e = o) ->
  (forall a, emits l (f a)) ->
  emits (o :: l) (bind (chronicle_do clock op) f).
Proof.
  intros H Hf. apply (@emits_app [o] l); [now apply emits_last | exact Hf].
Qed.

Lemma emits_end_last final_status :
  emits [("session_end", ("", final_status))] (chronicle_end clock final_status).
Proof.
  intros s a s' E.
  pose proof (chronicle_end_log clock final_status s) as L.
  rewrite E in L. cbn [snd] in L. eexists. split; [exact L | reflexivity].
Qed.

Lemma emits_end final_status l B (f : report -> M B) :
  (forall a, emits l (f a)) ->
  emits (("session_end", ("", final_status)) :: l)
        (bind (chronicle_end clock final_status) f).
Proof.
  intros Hf.
  apply (@emits_app [("session_end", ("", final_status))] l);
    [apply emits_end_last | exact Hf].
Qed.





End Emits.

Ltac mute_auto :=
  solve [ apply (@framed_mute any_name); framed_auto ].

Ltac emits_step :=
  lazymatch goal with
  | |- emits _ (bind (chronicle_do _ _) _) =>
      apply emits_push;
      [ intros ? ?; eexists; split; reflexivity | intros ? ]
  | |- emits _ (bind (chronicle_end _ _) _) => apply emits_end; intros ?
  | |- emits _ (chronicle_do _ _) =>
      apply emits_last; intros ? ?; eexists; split; reflexivity
  | |- emits _ (chronicle_end _ _) => apply emits_end_last
  | |- emits _ (bind _ _) => apply emits_skip; [mute_auto | intros ?]
  | |- emits _ (if ?b then _ else _) => destruct b
  | |- emits [] _ => apply emits_mute; mute_auto
  end.

Ltac emits_auto :=
  unfold step_reverse_engineer, step_web_scraper, step_pm, step_dev, step_qa,
         quality_gate, step_deploy, handler;
  repeat emits_step.



Section RunLog.
Context {RT : Runtime}.
Variable clock : nat -> Q.
Context {ST : Stages}.

Lemma research_emits idea tech_stack source_codebase :
  emits (research_outline source_codebase)
        (research clock idea tech_stack source_codebase).
Proof.
  unfold research, research_outline. destruct (given source_codebase).
  - emits_auto.
  - apply (@emits_app [ ("agent_action", ("web_scraper", "market_research"));
                        ("handoff", ("web_scraper", "pm")) ] []);
      [emits_auto | intros ?; apply emits_mute; mute_auto].
Qed.

Lemma pm_emits idea tech_stack :
  emits (firstn 4 build_outline) (step_pm clock idea tech_stack).
Proof. cbn [firstn build_outline]. emits_auto. Qed.

Lemma dev_emits fid :
  emits (firstn 3 (skipn 4 build_outline)) (step_dev clock fid).
Proof. cbn [firstn skipn build_outline]. emits_auto. Qed.

Lemma qa_emits fid : emits (skipn 7 build_outline) (step_qa clock fid).
Proof. cbn [skipn build_outline]. emits_auto. Qed.

Lemma deploy_emits fid : emits deploy_outline (step_deploy clock fid).
Proof. unfold deploy_outline. emits_auto. Qed.

Lemma gate_emits qa_result s s' :
  quality_gate clock qa_result s = (Ok true, s') ->
  exists le, log_of s' = (log_of s ++ le)%list /\ map outline le = halt_outline.
Proof.
  intros H. unfold quality_gate in H.
  unfold bind at 1, lift at 1 in H.
  destruct (gate_score qa_result) as [v|]; [|discriminate].
  unfold bind at 1, lift at 1 in H.
  destruct (py_lt v 50) as [[|]|]; [|discriminate|discriminate].
  match type of H with
  | ?m s = _ =>
      assert (E : emits halt_outline m) by (unfold halt_outline; emits_auto);
      exact (E _ _ _ H)
  end.
Qed.




Lemma build_emits idea tech_stack source_codebase s b s' :
  try_body clock idea tech_stack source_codebase s = (Ok b, s') ->
  exists le,
    log_of s' = (log_of s ++ le)%list
    /\ map outline le
       = (research_outline source_codebase ++ build_outline
          ++ if (b : bool) then halt_outline else deploy_outline)%list.
Proof.
  intros H. apply (@try_body_returns _ clock) in H.
  destruct H as (it & s1 & fid & s2 & s3 & qa & s4 & R & P & D & T & G).
  destruct (research_emits idea tech_stack source_codebase _ R) as (l1 & L1 & O1).
  destruct (pm_emits (fst it) (snd it) _ P) as (l2 & L2 & O2).
  destruct (dev_emits fid _ D) as (l3 & L3 & O3).
  destruct (qa_emits fid _ T) as (l4 & L4 & O4).
  assert (Last : exists l5, log_of s' = (log_of s4 ++ l5)%list
                            /\ map outline l5
                               = if b then halt_outline else deploy_outline).
  { destruct b.
    - now apply gate_emits with (qa_result := qa).
    - destruct G as [_ Dp]. exact (deploy_emits fid _ Dp). }
  destruct Last as (l5 & L5 & O5).
  exists (l1 ++ l2 ++ l3 ++ l4 ++ l5)%list.
  rewrite L5, L4, L3, L2, L1, <- !app_assoc. split; [reflexivity|].
  rewrite !map_app, O1, O2, O3, O4, O5. reflexivity.
Qed.

Lemma start_state_log idea c d t :
  log_of (start_state clock idea c d t)
  = [pushed (isoformat (clock (S t)))
       (SessionStart (prefix_of 30 (replace_spaces idea)) "pipeline_run" "1.0") []].
Proof. reflexivity. Qed.

(** The log of a run and the record it returns, by the outcome of the
    [try] block. *)
Lemma run_log_cases idea tech_stack source_codebase c d t :
  let run := run_full_pipeline clock idea tech_stack source_codebase c d t in
  exists b s1,
    try_body clock idea tech_stack source_codebase (start_state clock idea c d t)
    = (b, s1)
    /\ match b with
       | Ok halted =>
           fst run = Ok (results s1)
           /\ status (results s1)
              = Some (if halted then "failed_qa" else "success")
           /\ self_chronicle (snd run) = self_chronicle s1
       | Exn e =>
           exists s2,
             handler clock e s1 = (Ok tt, s2)
             /\ fst run = Ok (results s2)
             /\ status (results s2) = Some "failed"
             /\ self_chronicle (snd run) = self_chronicle s2
       end.
Proof.
  cbv zeta.
  destruct (run_cases clock idea tech_stack source_codebase c d t)
    as (b & s1 & E & T & R).
  exists b, s1. split; [exact E|].
  pose proof (try_body_status clock idea tech_stack source_codebase
                (start_state clock idea c d t)) as St.
  rewrite E in St. destruct b as [[|]|e].
  - rewrite R. auto.
  - rewrite R. auto.
  - destruct R as (s2 & H & R). rewrite R. exists s2.
    destruct (@handler_ok _ clock e s1 T) as (s2' & H' & S2 & _).
    rewrite H in H'. injection H' as <-. auto.
Qed.


End RunLog.

Section SuccessfulRun.
Context {RT : Runtime}.
Variable clock : nat -> Q.
Context {ST : Stages}.

Lemma try_body_untimed idea tech_stack source_codebase :
  framed (fun e => truthy (duration_of e) = false) any_name
         (try_body clock idea tech_stack source_codebase).
Proof.
  unfold try_body. destruct (given source_codebase); framed_auto.
Qed.

Lemma run_untimed idea tech_stack source_codebase c d t :
  Forall (fun e => truthy (duration_of e) = false)
    (log_of (snd (try_body clock idea tech_stack source_codebase
                    (start_state clock idea c d t)))).
Proof.
  destruct (try_body_untimed idea tech_stack source_codebase
              (start_state clock idea c d t)) as ((le & L & P) & _).
  rewrite L, start_state_log. apply Forall_app. split; [|exact P].
  constructor; [reflexivity | constructor].
Qed.

(** The report of a log with the outline of a successful run and without
    durations. *)
Lemma report_of_success source_codebase start now c rep :
  map outline (event_log c)
  = start :: (research_outline source_codebase ++ build_outline
              ++ deploy_outline)%list ->
  fst start = "session_start" ->
  Forall (fun e => truthy (duration_of e) = false) (event_log c) ->
  _generate_report now c = Ok rep ->
  let given_source := match given source_codebase with
                      | Some _ => true
                      | None => false
                      end in
  report_summary rep
  = {| total_events := if given_source then 16 else 17;
       total_agents_involved := 5;
       total_handoffs := if given_source then 3 else 4;
       total_decisions := 1;
       total_issues := 0;
       total_collaborations := 1;
       duration_seconds := elapsed now c |}
  /\ map fst (agent_statistics rep) = stage_order source_codebase
  /\ (forall agent st, In (agent, st) (agent_statistics rep) ->
        actions_count st = 1 /\ total_duration_ms st = 0%Q)
  /\ bottlenecks rep = []
  /\ issues_encountered rep = []
  /\ recommendations rep = general_advice.
Proof.
  intros O S U G. cbv zeta.
  destruct start as [ty names]. cbn [fst] in S. subst ty.
  assert (Keys : map fst (agent_statistics rep) = stage_order source_codebase).
  { destruct (generate_report_parts _ _ G) as (_ & _ & _ & St).
    apply agent_stats_inv in St. destruct St as [K _].
    rewrite K, fill_keys_first_seen, agents_by_outline, pairs_by_outline, O.
    unfold research_outline, stage_order.
    destruct (given source_codebase); reflexivity. }
  assert (Agents : agents_of (event_log c) = stage_order source_codebase).
  { rewrite agents_by_outline, pairs_by_outline, O.
    unfold research_outline, stage_order.
    destruct (given source_codebase); reflexivity. }
  split; [|split; [exact Keys|split; [|split; [|split]]]].
  - pose proof G as G'. unfold _generate_report in G'.
    destruct (_calculate_agent_stats _) as [st|]; [|discriminate].
    destruct (_identify_bottlenecks _) as [bs|]; [|discriminate].
    cbn [res_bind] in G'. injection G' as <-. cbn [report_summary].
    unfold fill_buckets.
    rewrite fill_handoffs, fill_decisions, fill_issues, fill_collaborations.
    cbn [handoffs decisions issues collaborations no_buckets app].
    fold (fill_buckets (event_log c)).
    rewrite <- (length_map fst (agent_actions _)), fill_keys_first_seen.
    rewrite !count_by_outline, <- (length_map outline (event_log c)).
    rewrite agents_by_outline, pairs_by_outline, O.
    unfold research_outline. destruct (given source_codebase); reflexivity.
  - intros agent st I.
    destruct (generate_report_parts _ _ G) as (_ & _ & _ & St).
    apply agent_stats_inv in St. destruct St as [_ R].
    destruct (R agent st I) as (acts & A & C & T & _).
    pose proof (fill_groups _ _ _ A) as ->.
    rewrite untimed_sum in T.
    2: { unfold actions_by. apply Forall_forall. intros e Ie.
         apply filter_In in Ie. rewrite Forall_forall in U. apply U. tauto. }
    injection T as <-. split; [|reflexivity].
    rewrite C, actions_by_count, Agents.
    assert (Ia : In agent (stage_order source_codebase)).
    { rewrite <- Keys. change agent with (fst (agent, st)). now apply in_map. }
    unfold stage_order in *. destruct (given source_codebase);
      simpl in Ia; repeat (destruct Ia as [<-|Ia]; [reflexivity|]);
      destruct Ia.
  - destruct (generate_report_parts _ _ G) as (B & _).
    unfold _identify_bottlenecks in B.
    rewrite (untimed_fast U) in B. cbn [res_bind] in B.
    rewrite issues_by_outline in B; [now injection B as <-|].
    rewrite O. unfold research_outline.
    destruct (given source_codebase); simpl; intuition discriminate.
  - pose proof G as G'. unfold _generate_report in G'.
    destruct (_calculate_agent_stats _) as [st|]; [|discriminate].
    destruct (_identify_bottlenecks _) as [bs|]; [|discriminate].
    cbn [res_bind] in G'. injection G' as <-. cbn [issues_encountered].
    unfold fill_buckets. rewrite fill_issues. cbn [issues no_buckets app].
    apply length_zero_iff_nil. rewrite count_by_outline, O.
    unfold research_outline. destruct (given source_codebase); reflexivity.
  - destruct (generate_report_parts _ _ G) as (_ & -> & _).
    unfold _generate_recommendations.
    rewrite count_by_outline, retry_actions_pairs, pairs_by_outline, O.
    unfold research_outline. destruct (given source_codebase); reflexivity.
Qed.

(** X12.  The chronicle of a successful run, as embedded in the returned
    record: it counts the 17 events of the run (16 when the run started
    from a code base), 4 handoffs (3), one decision, one collaboration and
    no issue; its statistics list the five stages in order, each with one
    action and no duration; it names no bottleneck, and its
    recommendations are the three general ones. *)
Theorem successful_run_chronicle idea tech_stack source_codebase c d t r :
  let run := run_full_pipeline clock idea tech_stack source_codebase c d t in
  fst run = Ok r ->
  status r = Some "success" ->
  exists rep,
    chronicle r = Some rep
    /\ total_events (report_summary rep) = List.length (log_of (snd run))
    /\ total_events (report_summary rep)
       = match given source_codebase with Some _ => 16 | None => 17 end
    /\ total_handoffs (report_summary rep)
       = match given source_codebase with Some _ => 3 | None => 4 end
    /\ total_decisions (report_summary rep) = 1
    /\ total_issues (report_summary rep) = 0
    /\ total_collaborations (report_summary rep) = 1
    /\ total_agents_involved (report_summary rep) = 5
    /\ map fst (agent_statistics rep) = stage_order source_codebase
    /\ (forall agent st, In (agent, st) (agent_statistics rep) ->
          actions_count st = 1 /\ total_duration_ms st = 0%Q)
    /\ bottlenecks rep = []
    /\ issues_encountered rep = []
    /\ recommendations rep = general_advice.
Proof.
  cbv zeta. intros F St.
  destruct (run_log_cases clock idea tech_stack source_codebase c d t)
    as (b & s1 & E & R). cbv zeta in R.
  destruct b as [[|]|e].
  - destruct R as (F' & St' & _). rewrite F in F'. injection F' as ->.
    rewrite St in St'. discriminate St'.
  - destruct R as (F' & _ & Cs). rewrite F in F'. injection F' as ->.
    destruct (@deployed_fields _ clock _ _ _ _ _ _ E)
      as (_ & _ & rep & now & Ch & G & _).
    destruct (@build_emits _ clock _ _ _ _ _ _ _ E) as (le & L & O).
    rewrite start_state_log in L.
    pose proof (run_untimed idea tech_stack source_codebase c d t) as U.
    rewrite E in U. cbn [snd] in U.
    assert (Out : map outline (event_log (self_chronicle s1))
                  = ("session_start",
                     (prefix_of 30 (replace_spaces idea), "pipeline_run"))
                    :: (research_outline source_codebase ++ build_outline
                        ++ deploy_outline)%list).
    { fold (log_of s1). rewrite L. simpl. now rewrite O. }
    destruct (@report_of_success source_codebase _ now _ rep Out eq_refl U G)
      as (Sm & K & A & B & I & Rc).
    exists rep. unfold log_of. rewrite Cs, Sm. cbn [total_events total_handoffs
      total_decisions total_issues total_collaborations total_agents_involved].
    rewrite <- (length_map outline (event_log (self_chronicle s1))), Out.
    unfold research_outline.
    destruct (given source_codebase); repeat split; auto;
      now apply (A agent st).
  - destruct R as (s2 & _ & F' & St' & _). rewrite F in F'. injection F' as ->.
    rewrite St in St'. discriminate St'.
Qed.

End SuccessfulRun.

(* ================================================================== *)
(** * The deploy agent and the status of a test report *)
(* ================================================================== *)

Section DeployChecks.
Context {RT : Runtime}.

Lemma py_ge_num v n b :
  py_ge v n = Ok b -> exists q, num_of v = Some q /\ Qle_bool (inject_Z n) q = b.
Proof.
  unfold py_ge. destruct (num_of v) as [q|]; [|discriminate].
  intros H. injection H as <-. eauto.
Qed.



End DeployChecks.

Section BlockedDeployment.
Context {RT : Runtime}.
Variable clock : nat -> Q.



End BlockedDeployment.

Section ReportStatus.
Context {RT : Runtime}.

(** X14.  The status of a test report against the two thresholds that
    follow it: the status is "failed" exactly when the gate of the
    pipeline halts the run (score below 50), and it is "passed" or
    "passed_with_warnings" exactly when the test check of the deploy agent
    passes (score 70 or more); a report with status "needs_improvement"
    passes the gate and fails that check.  The feature is marked "tested"
    only with a score of 90 or more. *)
Theorem report_status_thresholds score q :
  num_of score = Some q ->
  exists status,
    QAAgent._determine_status score = Ok status
    /\ (status = "failed" <-> py_lt score 50 = Ok true)
    /\ (status = "passed" \/ status = "passed_with_warnings"
        <-> py_ge score 70 = Ok true)
    /\ (status = "needs_improvement"
        <-> py_lt score 50 = Ok false /\ py_ge score 70 = Ok false)
    /\ (QAAgent.feature_status status = "tested" <-> (90 <= q)%Q).
Proof.
  intros N. unfold QAAgent._determine_status, py_ge, py_lt, Qltb. rewrite N.
  cbn [res_bind].
  assert (Mono : forall a b : Z, (a <= b)%Z ->
                   Qle_bool (inject_Z b) q = true ->
                   Qle_bool (inject_Z a) q = true).
  { intros a b L H. apply Qle_bool_iff. apply Qle_bool_iff in H.
    apply Qle_trans with (y := inject_Z b); [|exact H].
    now rewrite <- Zle_Qle. }
  assert (Anti : forall a b : Z, (a <= b)%Z ->
                   Qle_bool (inject_Z a) q = false ->
                   Qle_bool (inject_Z b) q = false).
  { intros a b L H. destruct (Qle_bool (inject_Z b) q) eqn:E; [|reflexivity].
    rewrite (Mono a b L E) in H. discriminate H. }
  assert (Not90 : Qle_bool (inject_Z 90) q = false -> ~ (90 <= q)%Q).
  { intros H L. apply Qle_bool_iff in L. change (inject_Z 90) with 90%Q in H.
    congruence. }
  destruct (Qle_bool (inject_Z 90) q) eqn:E90.
  - rewrite (Mono 70%Z 90%Z ltac:(lia) E90), (Mono 50%Z 90%Z ltac:(lia) E90).
    eexists. split; [reflexivity|]. cbn [negb].
    repeat split; try discriminate; auto.
    + intros [_ H]. discriminate H.
    + intros _. now apply Qle_bool_iff.
  - specialize (Not90 eq_refl).
    destruct (Qle_bool (inject_Z 70) q) eqn:E70.
    + rewrite (Mono 50%Z 70%Z ltac:(lia) E70).
      eexists. split; [reflexivity|]. cbn [negb].
      repeat split; try discriminate; auto.
      * intros [_ H]. discriminate H.
      * intros H. now elim Not90.
    + destruct (Qle_bool (inject_Z 50) q) eqn:E50.
      * eexists. split; [reflexivity|]. cbn [negb].
        repeat split; try discriminate; auto.
        -- intros [H|H]; discriminate H.
        -- intros H. now elim Not90.
      * eexists. split; [reflexivity|]. cbn [negb].
        repeat split; try discriminate; auto.
        -- intros [H|H]; discriminate H.
        -- intros [H _]. discriminate H.
        -- intros H. now elim Not90.
Qed.

End ReportStatus.

(* ================================================================== *)
(** * A summary that raises *)
(* ================================================================== *)

Section LateFailure.
Context {RT : Runtime}.
Variable clock : nat -> Q.
Context {ST : Stages}.











Lemma no_end_app (l l' : list event) :
  session_ends (l ++ l') = session_ends l + session_ends l'.
Proof. unfold session_ends. now rewrite filter_app, length_app. Qed.





End LateFailure.

(* ================================================================== *)
(** * The files of a run *)
(* ================================================================== *)

Section Filing.
Context {RT : Runtime}.
Variable clock : nat -> Q.

Lemma filing_bind sid A B (m : M A) (f : A -> M B) :
  filing sid m -> (forall a, filing sid (f a)) -> filing sid (bind m f).
Proof.
  intros Hm Hf s S T. destruct (Hm s S T) as (S1 & T1 & le & rs & L & D & N).
  unfold bind. destruct (m s) as [[a|e] s1]; cbn [snd] in *.
  - destruct (Hf a s1 S1 T1) as (S2 & T2 & le' & rs' & L' & D' & N').
    split; [exact S2|]. split; [exact T2|].
    exists (le ++ le')%list, (rs ++ rs')%list.
    rewrite L', L, D', D, <- !app_assoc.
    unfold chronicle_files. rewrite flat_map_app, length_app, no_end_app.
    auto.
  - split; [exact S1|]. split; [exact T1|]. exists le, rs. auto.
Qed.

Lemma filing_silent sid A (m : M A) :
  (forall s, self_chronicle (snd (m s)) = self_chronicle s
             /\ disk (snd (m s)) = disk s) ->
  filing sid m.
Proof.
  intros H s S T. destruct (H s) as [C D]. unfold log_of. rewrite C, D.
  split; [exact S|]. split; [exact T|]. exists [], [].
  now rewrite !app_nil_r.
Qed.

Lemma filing_do sid (op : Q -> recorder -> recorder) :
  (forall now c,
      session_id (op now c) = session_id c
      /\ exists e, event_log (op now c) = (event_log c ++ [e])%list
                   /\ timed e /\ has_type "session_end" e = false) ->
  filing sid (chronicle_do clock op).
Proof.
  intros H s S T. unfold chronicle_do, log_of.
  cbn [snd set_chronicle self_chronicle disk].
  destruct (H (clock (ticks s)) (self_chronicle s)) as (Sd & e & L & Te & Ne).
  split; [congruence|]. split.
  - unfold timed_log. rewrite L. apply Forall_app. split; [exact T|].
    constructor; [exact Te | constructor].
  - exists [e], []. rewrite L, app_nil_r. unfold session_ends. simpl.
    rewrite Ne. auto.
Qed.

Lemma filing_end sid final_status :
  filing sid (chronicle_end clock final_status).
Proof.
  intros s S T. destruct (chronicle_end_ok clock final_status s T) as [rep ->].
  unfold closed, log_of. cbn [snd self_chronicle disk].
  split; [exact S|]. split.
  - apply record_event_timed; [exact T | intros; discriminate].
  - eexists [_], [rep]. rewrite record_event_log.
    split; [reflexivity|]. split; [|reflexivity].
    unfold chronicle_files, chronicle_path. cbn [flat_map app session_id _record_event].
    now rewrite S.
Qed.

End Filing.

Ltac filing_step :=
  lazymatch goal with
  | |- filing _ (bind _ _) => apply filing_bind; [|intros ?]
  | |- filing _ (chronicle_do _ _) =>
      apply filing_do; intros ? ?;
      split; [reflexivity|];
      eexists; split; [reflexivity|]; split; [event_side | reflexivity]
  | |- filing _ (chronicle_end _ _) => apply filing_end
  | |- filing _ (if ?b then _ else _) => destruct b
  | |- filing _ _ => apply filing_silent; intros ?; split; reflexivity
  end.

Ltac filing_auto :=
  unfold step_reverse_engineer, step_web_scraper, step_pm, step_dev, step_qa,
         quality_gate, step_deploy, handler;
  repeat filing_step.

Section RunFiles.
Context {RT : Runtime}.
Variable clock : nat -> Q.
Context {ST : Stages}.



Lemma upstream_filing sid idea tech_stack source_codebase :
  filing sid (upstream clock idea tech_stack source_codebase).
Proof.
  unfold upstream, research. destruct (given source_codebase); filing_auto.
Qed.

Lemma step_qa_filing sid fid : filing sid (step_qa clock fid).
Proof. filing_auto. Qed.




End RunFiles.

(* ================================================================== *)
(** * What the stages are called on *)
(* ================================================================== *)

Section StageInputs.
Context {RT : Runtime}.
Variable clock : nat -> Q.
Context {ST : Stages}.

(** The idea and the tech stack that the first step hands on. *)
Lemma research_result idea tech_stack source_codebase s it :
  fst (research clock idea tech_stack source_codebase s) = Ok it ->
  match given source_codebase with
  | None => it = (idea, value_of tech_stack)
  | Some src =>
      exists rev spec title,
        _run_reverse_engineer src = Ok rev
        /\ py_get rev "spec" (VDict []) = Ok spec
        /\ py_get spec "title" (VStr "Application") = Ok title
        /\ fst it = "Rebuild and improve: " ++ py_str title
        /\ (truthy (value_of tech_stack) = true -> snd it = value_of tech_stack)
        /\ (truthy (value_of tech_stack) = false ->
            exists stack,
              py_get rev "tech_stack" (VDict []) = Ok stack
              /\ py_get stack "primary_language" (VStr "React, Node.js")
                 = Ok (snd it))
  end.
Proof.
  unfold research. destruct (given source_codebase) as [src|].
  - unfold step_reverse_engineer.
    repeat run_step; reduce_run; try discriminate;
      intros H; injection H as <-; cbn [fst snd];
      do 3 eexists; repeat split; eauto; intros X; try discriminate X;
      try congruence; eauto.
  - unfold step_web_scraper.
    repeat run_step; reduce_run; try discriminate;
      intros H; now injection H as <-.
Qed.

(** X17.  What the specification stage is called on.  Without a code base
    (none given, or an empty one), it is called on the idea and the tech
    stack as they were given.  With a code base, it is called on "Rebuild
    and improve: " followed by the title of the reconstructed
    specification ("Application" when there is none), and on the given
    tech stack when it is not empty, else on the primary language of the
    analysis. *)
Theorem specification_inputs idea tech_stack source_codebase c d t o :
  let run := run_full_pipeline clock idea tech_stack source_codebase c d t in
  In ("pm", o) (calls (snd run)) ->
  match given source_codebase with
  | None => o = _run_pm_agent idea (value_of tech_stack)
  | Some src =>
      exists rev spec title stack',
        _run_reverse_engineer src = Ok rev
        /\ py_get rev "spec" (VDict []) = Ok spec
        /\ py_get spec "title" (VStr "Application") = Ok title
        /\ o = _run_pm_agent ("Rebuild and improve: " ++ py_str title) stack'
        /\ (truthy (value_of tech_stack) = true -> stack' = value_of tech_stack)
        /\ (truthy (value_of tech_stack) = false ->
            exists stack,
              py_get rev "tech_stack" (VDict []) = Ok stack
              /\ py_get stack "primary_language" (VStr "React, Node.js")
                 = Ok stack')
  end.
Proof.
  cbv zeta. rewrite run_calls_eq, try_body_eq. unfold bind at 1.
  pose proof (research_one_call clock idea tech_stack source_codebase
                (start_state clock idea c d t)) as [C1 _].
  pose proof (@research_result idea tech_stack source_codebase
                (start_state clock idea c d t)) as Rr.
  destruct (research clock idea tech_stack source_codebase
              (start_state clock idea c d t)) as [[it|e] s1];
    cbn [fst snd start_state calls app] in *.
  2: { rewrite C1. intros [I|[]]. exfalso. injection I as I _.
       unfold stage_order in I. destruct (given source_codebase); discriminate I. }
  specialize (Rr it eq_refl).
  match goal with
  | |- In _ (calls (snd (bind ?m ?f s1))) -> _ =>
      destruct (@chain_call "pm" (_run_pm_agent (fst it) (snd it))
                  ["dev"; "qa"; "deploy"] _ _ m f
                  (pm_one_call clock (fst it) (snd it))
                  ltac:(intros fid; eapply chain_cons;
                        [apply dev_one_call | intros ?; apply downstream_chain])
                  s1) as (lc & C & P & _)
  end.
  rewrite C, C1. cbn [app]. intros [I|[I|I]].
  - exfalso. injection I as I _.
    unfold stage_order in I. destruct (given source_codebase); discriminate I.
  - injection I as <-.
    destruct (given source_codebase) as [src|].
    + destruct Rr as (rev & spec & title & Er & Es & Et & Fi & Tr & Fa).
      exists rev, spec, title, (snd it). rewrite <- Fi. auto 10.
    + now subst it.
  - exfalso. apply (in_map fst) in I. rewrite P in I. cbn [fst] in I.
    apply firstn_In in I. simpl in I. intuition discriminate.
Qed.

End StageInputs.

(* ================================================================== *)
(** * The gate on the results of the source's testing stage *)
(* ================================================================== *)

Section GateRaises.
Context {RT : Runtime}.
Variable clock : nat -> Q.
Context {ST : Stages}.


End GateRaises.

Section SourceGate.
Context {RT : Runtime}.
Variable clock : nat -> Q.
Context {AG : Agents}.



End SourceGate.

(* ================================================================== *)
(** * The further properties on the runs to evaluate *)
(* ================================================================== *)

(** Of the two issues of the session, the one recorded without a
    resolution is reported. *)
Lemma unresolved_issues_aggregated_witness :
  exists c' files r,
    end_session (RT := demo_runtime) 4%Q "completed" issue_session
    = (c', files, Ok r)
    /\ In (unresolved_issues 1 ["Tests are flaky"]
             "Resolve outstanding issues before deployment")
          (bottlenecks r).
Proof.
  unfold issue_session.
  do 3 eexists. split; [vm_compute; reflexivity|].
  edestruct (@unresolved_issues_aggregated demo_runtime 1%Q "issues" "manual"
               issue_calls new_recorder 4%Q "completed") as [Iff _];
    [vm_compute; reflexivity|].
  apply Iff. vm_compute. repeat split. discriminate.
Defined.


(** The timeline of the demo session has its nine events, numbered from 1
    to 9. *)
Lemma timeline_of_session_witness :
  exists c' files r,
    end_session (RT := demo_runtime) 9%Q "success" demo_session
    = (c', files, Ok r)
    /\ map sequence (timeline r) = [1; 2; 3; 4; 5; 6; 7; 8; 9].
Proof.
  unfold demo_session.
  do 3 eexists. split; [vm_compute; reflexivity|].
  edestruct (@timeline_of_session demo_runtime 1%Q "demo_feature" "demo"
               demo_calls new_recorder 9%Q "success") as (_ & S & _);
    [vm_compute; reflexivity|].
  rewrite S. reflexivity.
Defined.

(** The run with a score of 80 succeeds, and its chronicle counts 17
    events and names no bottleneck. *)
Lemma successful_run_chronicle_witness :
  fst (demo_run (Ok developed) (Ok (scored (VInt 80))))
  = Ok (results (snd (demo_run (Ok developed) (Ok (scored (VInt 80))))))
  /\ status (results (snd (demo_run (Ok developed) (Ok (scored (VInt 80))))))
     = Some "success"
  /\ exists rep,
       chronicle (results (snd (demo_run (Ok developed) (Ok (scored (VInt 80))))))
       = Some rep
       /\ total_events (report_summary rep) = 17
       /\ bottlenecks rep = []
       /\ recommendations rep = general_advice.
Proof.
  unfold demo_run.
  pose proof (@successful_run_chronicle demo_runtime demo_clock
                (demo_stages (Ok developed) (Ok (scored (VInt 80))))
                "Task management app" None None new_recorder [] 0
                (results (snd (run_full_pipeline (RT := demo_runtime) demo_clock
                   (ST := demo_stages (Ok developed) (Ok (scored (VInt 80))))
                   "Task management app" None None new_recorder [] 0)))) as T.
  cbv zeta in T.
  assert (F : fst (run_full_pipeline (RT := demo_runtime) demo_clock
                     (ST := demo_stages (Ok developed) (Ok (scored (VInt 80))))
                     "Task management app" None None new_recorder [] 0)
              = Ok (results (snd (run_full_pipeline (RT := demo_runtime) demo_clock
                     (ST := demo_stages (Ok developed) (Ok (scored (VInt 80))))
                     "Task management app" None None new_recorder [] 0))))
    by (vm_compute; reflexivity).
  assert (St : status (results (snd (run_full_pipeline (RT := demo_runtime)
                     demo_clock
                     (ST := demo_stages (Ok developed) (Ok (scored (VInt 80))))
                     "Task management app" None None new_recorder [] 0)))
               = Some "success")
    by (vm_compute; reflexivity).
  destruct (T F St) as (rep & Ch & _ & Ev & _ & _ & _ & _ & _ & _ & _ & B & _ & Rc).
  split; [exact F|]. split; [exact St|].
  exists rep. split; [exact Ch|]. split; [exact Ev|]. split; [exact B | exact Rc].
Defined.


(** A score of 60 gives the status "needs_improvement": the gate lets the
    run go on and the test check of the deploy agent fails. *)
Lemma report_status_thresholds_witness :
  QAAgent._determine_status (VInt 60) = Ok "needs_improvement"
  /\ py_lt (VInt 60) 50 = Ok false
  /\ py_ge (VInt 60) 70 = Ok false.
Proof.
  destruct (@report_status_thresholds (VInt 60) 60%Q eq_refl)
    as (status & S & _ & _ & N & _).
  vm_compute in S. injection S as <-.
  destruct (proj1 N eq_refl) as [L G].
  split; [reflexivity|]. split; [exact L | exact G].
Defined.


(** Without a source codebase the specification stage is called on the
    idea itself. *)
Lemma specification_inputs_witness :
  In ("pm",
      Ok (VDict [ ("feature_id", VStr "feat_1"); ("title", VStr "Task app");
                  ("user_stories_count", VInt 0);
                  ("acceptance_criteria_count", VInt 0) ]))
     (calls (snd source_run))
  /\ Ok (VDict [ ("feature_id", VStr "feat_1"); ("title", VStr "Task app");
                 ("user_stories_count", VInt 0);
                 ("acceptance_criteria_count", VInt 0) ])
     = Source._run_pm_agent (AG := demo_agents) "Task management app" VNone.
Proof.
  unfold source_run.
  assert (I : In ("pm",
                  Ok (VDict [ ("feature_id", VStr "feat_1"); ("title", VStr "Task app");
                              ("user_stories_count", VInt 0);
                              ("acceptance_criteria_count", VInt 0) ]))
                 (calls (snd (run_full_pipeline (RT := demo_runtime) demo_clock
                                (ST := Source.stages (AG := demo_agents))
                                "Task management app" None None new_recorder [] 0)))).
  { vm_compute. auto 10. }
  split; [exact I|].
  exact (@specification_inputs demo_runtime demo_clock
           (Source.stages (AG := demo_agents))
           "Task management app" None None new_recorder [] 0 _ I).
Defined.

